(** * SimpleCache: a two-tier (window property + SQLite) cache for Kodi add-ons

    Shallow embedding of
    [service.subtitles.titlovi/resources/lib/simple_cache.py]
    and the properties of its specification.

    The Python class talks to three things outside itself: the Kodi window
    [Window(10000)] whose string properties form the process-local tier, the
    SQLite file [simplecache.db] that forms the persistent tier, and the
    Python standard library ([json], [repr], [time.mktime]).  The first two
    are state and live in the record [world]; the third is an interface,
    the class [PyLib].  Failures of the host (a window call that raises, a
    locked database, an abort request) are scripted in the world, so every
    definition below is a total, executable function. *)

From Stdlib Require Import ZArith Ascii String.
From stdpp Require Import gmap strings list pretty.

Local Open Scope string_scope.
Local Open Scope list_scope.
Local Open Scope Z_scope.

(** ** Python values, exceptions, results *)

(** The fragment of Python objects a payload is made of.  [PTuple] and
    [PList] are distinct objects (and compare unequal in Python) although
    [json.dumps] writes both as a JSON array.  [PObject] is any object the
    JSON encoder rejects. *)
#[warnings="-register-all"]
Inductive pyval : Type :=
  | PNone
  | PBool (b : bool)
  | PInt (z : Z)
  | PStr (s : string)
  | PList (items : list pyval)
  | PTuple (items : list pyval)
  | PDict (kv : list (string * pyval))
  | PObject (tag : string).

Inductive exn : Type :=
  | TypeError
  | ValueError
  | OverflowError
  | OperationalError (locked : bool)
  | RuntimeError.

Inductive res (A : Type) : Type :=
  | Ret (a : A)
  | Raise (e : exn).
Arguments Ret {A} a.
Arguments Raise {A} e.

(** The standard-library functions the module calls.  [mktime] stands for
    [int(time.mktime(tt))] on the whole local seconds of a [struct_time];
    [repr_datetime] is [repr] of a [datetime].  The last field is the
    documented behaviour of [time.mktime]: "If the input value cannot be
    represented as a valid time, either OverflowError or ValueError will be
    raised"; and the empty string is not a JSON document. *)
Class PyLib : Type := {
  json_dumps : pyval → res string;
  json_loads : string → res pyval;
  py_repr : pyval → string;
  repr_datetime : Z → string;
  mktime : Z → res Z;
  mktime_raises : ∀ tt e, mktime tt = Raise e → e = OverflowError ∨ e = ValueError;
  json_loads_empty : ∃ e, json_loads "" = Raise e;
}.

(** Two more functions of the language, called by [check_cleanup] and by
    [use_cache] only.  [eval_datetime s] is [eval(s)] for the text [s] of a
    window property: the instant, when the text evaluates to a naive
    [datetime]; [Raise] when [eval] raises or gives any other object, since
    adding a [timedelta] to that object or comparing the sum with a
    [datetime] then raises inside the same [try].  [str_lower] is
    [str.lower]. *)
Class PyExt : Type := {
  eval_datetime : string → res Z;
  str_lower : string → string;
}.

(** ** The persistent table *)

(** One row of [simplecache(id TEXT UNIQUE, expires INTEGER, data TEXT,
    checksum INTEGER)], keyed by [id] in the table. *)
Record row : Type := {
  r_expires : Z;
  r_data : string;
  r_checksum : Z;
}.

Inductive query : Type :=
  | QSelectOne (id : string)
  | QSelectAll
  | QUpsert (id : string) (expires : Z) (data : string) (checksum : Z)
  | QDelete (id : string)
  | QVacuum.

Inductive cursor : Type :=
  | CurOne (r : option row)
  | CurAll (rows : list (string * Z))
  | CurDone.

(** ** The host *)

Inductive event : Type :=
  | EvGetProp (key : string)
  | EvSetProp (key value : string)
  | EvClearProp (key : string)
  | EvSqlAttempt (q : query)
  | EvWait (ms : Z).

(** What one call of [_get_database] meets: a healthy file, a directory
    that can not be created, or an integrity probe that raises (after which
    the file may or may not get deleted and recreated). *)
Inductive conn_fault : Type :=
  | ConnOk
  | ConnMkdirFails
  | ConnProbeFails (file_deleted recreated : bool).

(** What one [execute] meets inside [_execute_sql]. *)
Inductive sql_fault : Type :=
  | SqlOk
  | SqlLocked
  | SqlOpError
  | SqlOtherError.

(** The state outside the cache object.  [w_props] are the properties of
    [Window(10000)]; [w_db] is the table of [simplecache.db], [None] when
    the file or the table is missing; [w_now] is [datetime.datetime.now()]
    and [w_time] is [time.time()], both in microseconds; [w_busy_tasks] is
    the class-level list [_busy_tasks].  The four scripts are consumed from
    the head, one entry per call, and an exhausted script means no fault.
    [w_trace] records the calls made to the host, newest first: the calls
    on the window, the statements [_execute_sql] executes and the waits.
    What [_get_database] does to open the file (the probe, the deletion and
    the [CREATE TABLE] of a repair) is not recorded; it shows in [w_db]. *)
Record world : Type := {
  w_props : gmap string string;
  w_db : option (gmap string row);
  w_now : Z;
  w_time : Z;
  w_busy_tasks : list string;
  w_abort : list bool;
  w_winfault : list bool;
  w_connfault : list conn_fault;
  w_sqlfault : list sql_fault;
  w_trace : list event;
}.

Definition set_props (p : gmap string string) (w : world) : world :=
  {| w_props := p; w_db := w_db w; w_now := w_now w; w_time := w_time w;
     w_busy_tasks := w_busy_tasks w; w_abort := w_abort w;
     w_winfault := w_winfault w; w_connfault := w_connfault w;
     w_sqlfault := w_sqlfault w; w_trace := w_trace w |}.

Definition set_db (d : option (gmap string row)) (w : world) : world :=
  {| w_props := w_props w; w_db := d; w_now := w_now w; w_time := w_time w;
     w_busy_tasks := w_busy_tasks w; w_abort := w_abort w;
     w_winfault := w_winfault w; w_connfault := w_connfault w;
     w_sqlfault := w_sqlfault w; w_trace := w_trace w |}.

Definition set_busy_tasks (b : list string) (w : world) : world :=
  {| w_props := w_props w; w_db := w_db w; w_now := w_now w; w_time := w_time w;
     w_busy_tasks := b; w_abort := w_abort w;
     w_winfault := w_winfault w; w_connfault := w_connfault w;
     w_sqlfault := w_sqlfault w; w_trace := w_trace w |}.

Definition set_abort (a : list bool) (w : world) : world :=
  {| w_props := w_props w; w_db := w_db w; w_now := w_now w; w_time := w_time w;
     w_busy_tasks := w_busy_tasks w; w_abort := a;
     w_winfault := w_winfault w; w_connfault := w_connfault w;
     w_sqlfault := w_sqlfault w; w_trace := w_trace w |}.

Definition set_winfault (f : list bool) (w : world) : world :=
  {| w_props := w_props w; w_db := w_db w; w_now := w_now w; w_time := w_time w;
     w_busy_tasks := w_busy_tasks w; w_abort := w_abort w;
     w_winfault := f; w_connfault := w_connfault w;
     w_sqlfault := w_sqlfault w; w_trace := w_trace w |}.

Definition set_connfault (f : list conn_fault) (w : world) : world :=
  {| w_props := w_props w; w_db := w_db w; w_now := w_now w; w_time := w_time w;
     w_busy_tasks := w_busy_tasks w; w_abort := w_abort w;
     w_winfault := w_winfault w; w_connfault := f;
     w_sqlfault := w_sqlfault w; w_trace := w_trace w |}.

Definition set_sqlfault (f : list sql_fault) (w : world) : world :=
  {| w_props := w_props w; w_db := w_db w; w_now := w_now w; w_time := w_time w;
     w_busy_tasks := w_busy_tasks w; w_abort := w_abort w;
     w_winfault := w_winfault w; w_connfault := w_connfault w;
     w_sqlfault := f; w_trace := w_trace w |}.

Definition log_event (e : event) (w : world) : world :=
  {| w_props := w_props w; w_db := w_db w; w_now := w_now w; w_time := w_time w;
     w_busy_tasks := w_busy_tasks w; w_abort := w_abort w;
     w_winfault := w_winfault w; w_connfault := w_connfault w;
     w_sqlfault := w_sqlfault w; w_trace := e :: w_trace w |}.

(** ** A state-and-exception monad *)

Definition M (A : Type) : Type := world → res A * world.

Definition ret {A} (a : A) : M A := λ w, (Ret a, w).

Definition raise {A} (e : exn) : M A := λ w, (Raise e, w).

Definition bind {A B} (m : M A) (f : A → M B) : M B :=
  λ w, match m w with
       | (Ret a, w') => f a w'
       | (Raise e, w') => (Raise e, w')
       end.

(** [try: m except Exception: h] *)
Definition try_except {A} (m : M A) (h : exn → M A) : M A :=
  λ w, match m w with
       | (Ret a, w') => (Ret a, w')
       | (Raise e, w') => h e w'
       end.

(** [try: m finally: fin], for a [fin] that does not raise. *)
Definition try_finally {A} (m : M A) (fin : M unit) : M A :=
  λ w, match m w with
       | (r, w') => (r, snd (fin w'))
       end.

Definition lift {A} (r : res A) : M A := λ w, (r, w).

Definition modify (f : world → world) : M unit := λ w, (Ret tt, f w).

Definition gets {A} (f : world → A) : M A := λ w, (Ret (f w), w).

Declare Scope py_scope.
Delimit Scope py_scope with py.
Notation "x <- m ;; k" := (bind m (λ x, k))
  (at level 100, m at level 99, k at level 200, right associativity) : py_scope.
Notation "m ;; k" := (bind m (λ _, k))
  (at level 100, k at level 200, right associativity) : py_scope.
Local Open Scope py_scope.

(** ** Host primitives *)

Definition pop {A} (dflt : A) (l : list A) : A * list A :=
  match l with
  | [] => (dflt, [])
  | x :: t => (x, t)
  end.

(** [self._monitor.abortRequested()] *)
Definition abortRequested : M bool :=
  λ w, let '(b, rest) := pop false (w_abort w) in (Ret b, set_abort rest w).

(** [self._monitor.waitForAbort(delay)]; its result is not used. *)
Definition waitForAbort (ms : Z) : M unit := modify (log_event (EvWait ms)).

(** A call on [self._win]: the next entry of the window script says whether
    it raises. *)
Definition win_call {A} (ev : event) (body : world → A * world) : M A :=
  λ w, let '(bad, rest) := pop false (w_winfault w) in
       let w1 := log_event ev (set_winfault rest w) in
       if bad then (Raise RuntimeError, w1)
       else let '(a, w2) := body w1 in (Ret a, w2).

Definition getProperty (key : string) : M string :=
  win_call (EvGetProp key) (λ w, (default "" (w_props w !! key), w)).

Definition setProperty (key value : string) : M unit :=
  win_call (EvSetProp key value) (λ w, (tt, set_props (<[key := value]> (w_props w)) w)).

Definition clearProperty (key : string) : M unit :=
  win_call (EvClearProp key) (λ w, (tt, set_props (delete key (w_props w)) w)).

(** Kodi compares the names of window properties without regard to case:
    on the host a property lives under its name in lower case.  The three
    calls above keep a property under its name as written, which is the
    same thing as long as no two names in use differ in case alone;
    [lower_name] is the name the host files a property under. *)
Definition lower_name (s : string) : string :=
  (fix go s :=
     match s with
     | EmptyString => EmptyString
     | String c rest =>
         let n := nat_of_ascii c in
         String (if (65 <=? n)%nat && (n <=? 90)%nat then ascii_of_nat (n + 32) else c)
           (go rest)
     end) s.

(** ** Python truth, comparison and sequences *)

(** [int > x] for an element [x] read back from JSON; ordering an [int]
    against [None], a string or a container raises [TypeError]. *)
Definition py_gt_int (x : pyval) (n : Z) : res bool :=
  match x with
  | PInt z => Ret (n <? z)
  | PBool b => Ret (n <? (if b then 1 else 0))
  | _ => Raise TypeError
  end.

(** [n == x]; never raises. *)
Definition py_eq_int (n : Z) (x : pyval) : bool :=
  match x with
  | PInt z => n =? z
  | PBool b => n =? (if b then 1 else 0)
  | _ => false
  end.

(** [isinstance(x, (list, tuple))], giving the items. *)
Definition seq_items (x : pyval) : option (list pyval) :=
  match x with
  | PList l | PTuple l => Some l
  | _ => None
  end.

Definition is_none (x : pyval) : bool :=
  match x with PNone => true | _ => false end.

(** The value that stands for "absent": Python's [None]. *)
Definition absent : pyval := PNone.

(** ** Checksum utility *)

Definition ord (c : ascii) : Z := Z.of_nat (nat_of_ascii c).

(** [reduce(lambda x, y: x + y, map(ord, s))] for a non-empty [s]; on the
    empty string the fold is never reached in the source. *)
Fixpoint sum_ord (s : string) : Z :=
  match s with
  | EmptyString => 0
  | String c rest => ord c + sum_ord rest
  end.

(** ** Clock readings *)

Definition usec : Z := 1000000.

(** [date_time.timetuple()] keeps whole seconds only. *)
Definition timetuple (date_time : Z) : Z := date_time `div` usec.

(** [int(time.time())] truncates towards zero. *)
Definition int_time (w : world) : Z := w_time w `quot` usec.

(** [datetime.datetime.now() + expiration]: a [datetime] lies between
    0001-01-01 00:00:00 and 9999-12-31 23:59:59.999999, and the addition
    raises [OverflowError] outside.  Instants are microseconds of local
    wall-clock time counted from 1970-01-01. *)
Definition datetime_min : Z := -62135596800 * usec.
Definition datetime_max : Z := 253402300800 * usec - 1.

Definition datetime_add (date_time delta : Z) : res Z :=
  let r := date_time + delta in
  if (datetime_min <=? r) && (r <=? datetime_max) then Ret r
  else Raise OverflowError.

(** ** The SQLite table *)

Definition run_query (q : query) (t : gmap string row) : cursor * gmap string row :=
  match q with
  | QSelectOne id => (CurOne (t !! id), t)
  | QSelectAll => (CurAll ((λ kr, (kr.1, r_expires kr.2)) <$> map_to_list t), t)
  | QUpsert id e d c =>
      (CurDone, <[id := {| r_expires := e; r_data := d; r_checksum := c |}]> t)
  | QDelete id => (CurDone, delete id t)
  | QVacuum => (CurDone, t)
  end.

(** [_database.execute(query, data)] on an open connection.  The flag of
    [OperationalError] says whether its message contains
    "database is locked". *)
Definition execute (q : query) : M cursor :=
  λ w, let '(f, rest) := pop SqlOk (w_sqlfault w) in
       let w1 := log_event (EvSqlAttempt q) (set_sqlfault rest w) in
       match f with
       | SqlOk =>
           match w_db w1 with
           | Some t => let '(c, t') := run_query q t in (Ret c, set_db (Some t') w1)
           | None => (Raise (OperationalError false), w1)
           end
       | SqlLocked => (Raise (OperationalError true), w1)
       | SqlOpError => (Raise (OperationalError false), w1)
       | SqlOtherError => (Raise RuntimeError, w1)
       end.

Definition time_sleep (ms : Z) : M unit := modify (log_event (EvWait ms)).

Definition remove_first (x : string) (l : list string) : list string :=
  (fix go l := match l with
               | [] => []
               | y :: t => if bool_decide (x = y) then t else y :: go t
               end) l.

(** [xbmc.sleep(ms)] *)
Definition xbmc_sleep (ms : Z) : M unit := modify (log_event (EvWait ms)).

(** [s.endswith(suffix)] *)
Definition endswith (s suffix : string) : bool :=
  (String.length suffix <=? String.length s)%nat
  && String.eqb
       (substring (String.length s - String.length suffix) (String.length suffix) s)
       suffix.

(** [datetime.timedelta(days=days)] in microseconds: a [timedelta] holds at
    most 999999999 days either way and the constructor raises
    [OverflowError] beyond. *)
Definition timedelta_days (days : Z) : res Z :=
  if (-999999999 <=? days) && (days <=? 999999999) then Ret (days * 86400 * usec)
  else Raise OverflowError.

(** ** The class [SimpleCache] *)

Module SimpleCache.

(** The attributes of an instance.  [_win] and [_monitor] are [true] when
    the attribute holds an object and [false] when it is [None]. *)
Record t : Type := {
  enable_mem_cache : bool;
  data_is_json : bool;
  global_checksum : option string;
  _exit : bool;
  _win : bool;
  _monitor : bool;
  _db_path : option string;
  _mem_cache_prefix : string;
}.

Definition max_retries : nat := 10.

(** [retry_delay = 0.1] seconds, in milliseconds. *)
Definition retry_delay : Z := 100.

Definition _get_prop_key (self : t) (suffix : string) : string :=
  _mem_cache_prefix self +:+ suffix.

Definition truthy (s : string) : bool := bool_decide (s ≠ "").

Definition truthy_opt (o : option string) : bool :=
  match o with
  | Some s => truthy s
  | None => false
  end.

(** The [except TypeError] of the source is not reachable for a string
    input: [ord] is applied to the characters of a string only. *)
Definition _get_checksum (self : t) (stringinput : string) : Z :=
  if negb (truthy stringinput) && negb (truthy_opt (global_checksum self))
  then 0
  else
    let calc_input :=
      if truthy_opt (global_checksum self)
      then default "" (global_checksum self) +:+ "-" +:+ stringinput
      else stringinput in
    if negb (truthy calc_input) then 0 else sum_ord calc_input.

Section Methods.
Context {py : PyLib}.

Definition _get_timestamp (date_time : Z) : M Z :=
  try_except (lift (mktime (timetuple date_time)))
    (λ e, match e with
          | OverflowError | ValueError | TypeError => gets int_time
          | _ => raise e
          end).

(** The outcome of opening the file is scripted in [w_connfault].  The
    statements sent on the way (the probe [SELECT id FROM simplecache LIMIT
    1] and, after a failed probe, [CREATE TABLE IF NOT EXISTS]) and the
    deletion of the file leave no event in [w_trace]: their effect is the
    new value of [w_db]. *)
Definition _get_database (self : t) : M (option unit) :=
  match _db_path self with
  | None => ret None
  | Some _ =>
      λ w, let '(f, rest) := pop ConnOk (w_connfault w) in
           let w1 := set_connfault rest w in
           match f with
           | ConnOk =>
               match w_db w1 with
               | Some _ => (Ret (Some tt), w1)
               | None => (Ret (Some tt), set_db (Some ∅) w1)
               end
           | ConnMkdirFails => (Ret None, w1)
           | ConnProbeFails file_deleted recreated =>
               let d := if file_deleted then None else w_db w1 in
               if recreated then (Ret (Some tt), set_db (Some (default ∅ d)) w1)
               else (Ret None, set_db d w1)
           end
  end.

(** The [while retries < max_retries] loop of [_execute_sql].  The result
    is [None] when the fuel runs out and [Some r] when the method returns
    [r] (from inside the loop or after it). *)
Fixpoint retry_loop (fuel : nat) (self : t) (q : query) (retries : nat)
    : M (option (option cursor)) :=
  match fuel with
  | O => ret None
  | S fuel' =>
      if (retries <? max_retries)%nat then
        stop <- (if _exit self then ret true else abortRequested) ;;
        if (stop : bool) then ret (Some None)
        else
          r <- try_except
                 (c <- execute q ;; ret (inl (Some c)))
                 (λ e, match e with
                       | OperationalError true =>
                           (if _monitor self then waitForAbort retry_delay
                            else time_sleep retry_delay) ;;
                           ret (inr tt)
                       | _ => ret (inl None)
                       end) ;;
          match r with
          | inl v => ret (Some v)
          | inr _ => retry_loop fuel' self q (S retries)
          end
      else ret (Some None)
  end.

Definition _execute_sql (self : t) (q : query) : M (option cursor) :=
  if negb (_monitor self) then ret None
  else if negb (bool_decide (is_Some (_db_path self))) then ret None
  else
    try_except
      (db_conn <- _get_database self ;;
       match db_conn with
       | None => ret None
       | Some _ =>
           r <- retry_loop (S max_retries) self q 0 ;;
           ret (default None r)
       end)
      (λ _, ret None).

Definition _set_mem_cache (self : t) (endpoint : string) (checksum expires : Z)
    (data : pyval) (json_data : bool) : M unit :=
  let prop_key := _get_prop_key self endpoint in
  let cachedata := PTuple [PInt expires; data; PInt checksum] in
  try_except
    (cachedata_str <- (if json_data || data_is_json self
                       then lift (json_dumps cachedata)
                       else ret (py_repr cachedata)) ;;
     setProperty prop_key cachedata_str)
    (λ _, ret tt).

Definition _get_mem_cache (self : t) (endpoint : string) (checksum cur_time : Z)
    (json_data : bool) : M pyval :=
  let prop_key := _get_prop_key self endpoint in
  try_except
    (cachedata_str <- getProperty prop_key ;;
     if truthy cachedata_str then
       try_except
         (if json_data || data_is_json self then
            match json_loads cachedata_str with
            | Raise _ => clearProperty prop_key ;; ret PNone
            | Ret cachedata =>
                match seq_items cachedata with
                | Some (c0 :: c1 :: c2 :: _) =>
                    fresh <- lift (py_gt_int c0 cur_time) ;;
                    if (fresh : bool) then
                      if (checksum =? 0) || py_eq_int checksum c2
                      then ret c1 else ret PNone
                    else ret PNone
                | _ => clearProperty prop_key ;; ret PNone
                end
            end
          else ret PNone)
         (λ _, try_except (clearProperty prop_key) (λ _, ret tt) ;; ret PNone)
     else ret PNone)
    (λ _, ret PNone).

Definition add_task (name : string) : M unit :=
  modify (λ w, set_busy_tasks (w_busy_tasks w ++ [name]) w).

Definition drop_task (name : string) : M unit :=
  modify (λ w, set_busy_tasks (remove_first name (w_busy_tasks w)) w).

Definition delete (self : t) (endpoint : string) : M unit :=
  if negb (_win self) then ret tt
  else
    let delete_task_name := "delete." +:+ endpoint in
    add_task delete_task_name ;;
    try_finally
      ((if enable_mem_cache self && _win self then
          try_except (clearProperty (_get_prop_key self endpoint)) (λ _, ret tt)
        else ret tt) ;;
       (if bool_decide (is_Some (_db_path self)) then
          try_except (_execute_sql self (QDelete endpoint) ;; ret tt) (λ _, ret tt)
        else ret tt))
      (drop_task delete_task_name).

Definition _get_db_cache (self : t) (endpoint : string) (checksum cur_time : Z)
    (json_data : bool) : M pyval :=
  if negb (bool_decide (is_Some (_db_path self))) then ret PNone
  else
    try_except
      (cache_data_cursor <- _execute_sql self (QSelectOne endpoint) ;;
       match cache_data_cursor with
       | Some (CurOne (Some cache_data)) =>
           if (cur_time <? r_expires cache_data)
              && ((checksum =? 0) || (r_checksum cache_data =? checksum)) then
             try_except
               (if json_data || data_is_json self then
                  result <- lift (json_loads (r_data cache_data)) ;;
                  (if enable_mem_cache self && _win self then
                     _set_mem_cache self endpoint (r_checksum cache_data)
                       (r_expires cache_data) result json_data
                   else ret tt) ;;
                  ret result
                else ret PNone)
               (λ _, delete self endpoint ;; ret PNone)
           else ret PNone
       | _ => ret PNone
       end)
      (λ _, ret PNone).

Definition _set_db_cache (self : t) (endpoint : string) (checksum expires : Z)
    (data : pyval) (json_data : bool) : M unit :=
  if negb (bool_decide (is_Some (_db_path self))) then ret tt
  else
    try_except
      (data_str <- (if json_data || data_is_json self
                    then lift (json_dumps data)
                    else ret (py_repr data)) ;;
       _execute_sql self (QUpsert endpoint expires data_str checksum) ;;
       ret tt)
      (λ _, ret tt).

Definition get (self : t) (endpoint checksum : string) (json_data : bool) : M pyval :=
  if negb (_win self) then ret PNone
  else
    let checksum := _get_checksum self checksum in
    now <- gets w_now ;;
    cur_time <- _get_timestamp now ;;
    result <- (if enable_mem_cache self && _win self
               then _get_mem_cache self endpoint checksum cur_time json_data
               else ret PNone) ;;
    if is_none result
    then _get_db_cache self endpoint checksum cur_time json_data
    else ret result.

Definition set (self : t) (endpoint : string) (data : pyval) (checksum : string)
    (expiration : Z) (json_data : bool) : M unit :=
  if negb (_win self) then ret tt
  else
    let task_name := "set." +:+ endpoint in
    add_task task_name ;;
    try_finally
      (let checksum_val := _get_checksum self checksum in
       now <- gets w_now ;;
       date_time <- lift (datetime_add now expiration) ;;
       expires <- _get_timestamp date_time ;;
       (if enable_mem_cache self && negb (_exit self) && _win self
        then _set_mem_cache self endpoint checksum_val expires data json_data
        else ret tt) ;;
       (if bool_decide (is_Some (_db_path self)) && negb (_exit self)
        then _set_db_cache self endpoint checksum_val expires data json_data
        else ret tt))
      (drop_task task_name).

(** The [for cache_id, cache_expires in db_results] loop of [_do_cleanup].
    The boolean of the result says whether the method returned from inside
    the loop; the list is [ids_found_in_db]. *)
Fixpoint sweep_rows (self : t) (cur_timestamp : Z) (db_results : list (string * Z))
    (ids_found_in_db : list string) : M (bool * list string) :=
  match db_results with
  | [] => ret (false, ids_found_in_db)
  | (cache_id, cache_expires) :: rest =>
      let ids := ids_found_in_db ++ [cache_id] in
      stop <- (if _exit self then ret true else abortRequested) ;;
      if (stop : bool) then ret (true, ids)
      else
        (if cache_expires <? cur_timestamp then
           try_except (_execute_sql self (QDelete cache_id) ;; ret tt) (λ _, ret tt)
         else ret tt) ;;
        sweep_rows self cur_timestamp rest ids
  end.

(** The [for cache_id in ids_found_in_db] loop of [_do_cleanup]. *)
Fixpoint clear_ids (self : t) (ids_found_in_db : list string) : M unit :=
  match ids_found_in_db with
  | [] => ret tt
  | cache_id :: rest =>
      stop <- (if _exit self then ret true else abortRequested) ;;
      if (stop : bool) then ret tt
      else
        try_except (clearProperty (_get_prop_key self cache_id)) (λ _, ret tt) ;;
        clear_ids self rest
  end.

(** [_execute_sql] raises nothing, so the [except] of the database phase
    never runs; the list it would leave behind is immaterial. *)
Definition _do_cleanup (self : t) : M unit :=
  if negb (_monitor self) || negb (_win self) then ret tt
  else
    stop <- (if _exit self then ret true else abortRequested) ;;
    if (stop : bool) then ret tt
    else
      let db_available := bool_decide (is_Some (_db_path self)) in
      let prop_busy := _get_prop_key self "internal.clean.busy" in
      let prop_lastexec := _get_prop_key self "internal.clean.lastexecuted" in
      let cleanup_task_name := "cleanup." +:+ _mem_cache_prefix self in
      busy <- try_except (b <- getProperty prop_busy ;; ret (truthy b))
                (λ _, ret false) ;;
      if (busy : bool) then ret tt
      else
        add_task cleanup_task_name ;;
        try_finally
          (try_except (setProperty prop_busy "busy") (λ _, ret tt) ;;
           cur_time <- gets w_now ;;
           cur_timestamp <- _get_timestamp cur_time ;;
           swept <-
             (if db_available then
                try_except
                  (cursor <- _execute_sql self QSelectAll ;;
                   match cursor with
                   | Some (CurAll db_results) =>
                       r <- sweep_rows self cur_timestamp db_results [] ;;
                       if (r.1 : bool) then ret r
                       else
                         try_except (_execute_sql self QVacuum ;; ret tt)
                           (λ _, ret tt) ;;
                         ret r
                   | _ => ret (false, [])
                   end)
                  (λ _, ret (false, []))
              else ret (false, [])) ;;
           if (swept.1 : bool) then ret tt
           else
             clear_ids self swept.2 ;;
             try_except (setProperty prop_lastexec (repr_datetime cur_time))
               (λ _, ret tt))
          (drop_task cleanup_task_name ;;
           try_except (clearProperty prop_busy) (λ _, ret tt)).

End Methods.

(** [_auto_clean_interval = datetime.timedelta(hours=4)] *)
Definition _auto_clean_interval : Z := 4 * 3600 * usec.

(** The instance as the class attributes make it, before [__init__]. *)
Definition class_attributes : t :=
  {| enable_mem_cache := true; data_is_json := false; global_checksum := None;
     _exit := false; _win := false; _monitor := false; _db_path := None;
     _mem_cache_prefix := "simplecache." |}.

Definition with_enable_mem_cache (b : bool) (self : t) : t :=
  {| enable_mem_cache := b; data_is_json := data_is_json self;
     global_checksum := global_checksum self; _exit := _exit self;
     _win := _win self; _monitor := _monitor self; _db_path := _db_path self;
     _mem_cache_prefix := _mem_cache_prefix self |}.

(** Assignment of [self._win] and [self._monitor]. *)
Definition with_handles (win monitor : bool) (self : t) : t :=
  {| enable_mem_cache := enable_mem_cache self; data_is_json := data_is_json self;
     global_checksum := global_checksum self; _exit := _exit self;
     _win := win; _monitor := monitor; _db_path := _db_path self;
     _mem_cache_prefix := _mem_cache_prefix self |}.

Definition with_exit (b : bool) (self : t) : t :=
  {| enable_mem_cache := enable_mem_cache self; data_is_json := data_is_json self;
     global_checksum := global_checksum self; _exit := b;
     _win := _win self; _monitor := _monitor self; _db_path := _db_path self;
     _mem_cache_prefix := _mem_cache_prefix self |}.

Section Lifecycle.
Context {py : PyLib} {ext : PyExt}.

Definition check_cleanup (self : t) : M unit :=
  if negb (_win self) then ret tt
  else
    let prop_lastexec := _get_prop_key self "internal.clean.lastexecuted" in
    try_except
      (cur_time <- gets w_now ;;
       lastexecuted_repr <- getProperty prop_lastexec ;;
       needs_cleanup <-
         (if negb (truthy lastexecuted_repr) then
            setProperty prop_lastexec (repr_datetime cur_time) ;;
            ret true
          else
            try_except
              (lastexecuted <- lift (eval_datetime lastexecuted_repr) ;;
               due <- lift (datetime_add lastexecuted _auto_clean_interval) ;;
               ret (due <? cur_time))
              (λ _, setProperty prop_lastexec (repr_datetime cur_time) ;;
                    ret true)) ;;
       if (needs_cleanup : bool) then _do_cleanup self else ret tt)
      (λ _, ret tt).

(** [__init__(db_path, log_prefix, mem_cache_prefix, external_logger)]; the
    two logging arguments are not modelled.  [host] is the outcome of the
    two constructor calls [xbmcgui.Window(10000)] and [xbmc.Monitor()]: a
    constructor gives an object or raises, so the test for [None] that
    follows the self-test never fires.  The result is the instance as
    [__init__] leaves it.  The inner handler is the [except Exception as
    init_e] for an exception raised after the self-test. *)
Definition __init__ (db_path mem_cache_prefix : option string) (host : res unit)
    : M t :=
  let prefix :=
    if truthy_opt mem_cache_prefix then
      let p := default "" mem_cache_prefix in
      if endswith p "." then p else p +:+ "."
    else _mem_cache_prefix class_attributes in
  let self0 :=
    {| enable_mem_cache := enable_mem_cache class_attributes;
       data_is_json := data_is_json class_attributes;
       global_checksum := global_checksum class_attributes;
       _exit := _exit class_attributes;
       _win := false; _monitor := false; _db_path := db_path;
       _mem_cache_prefix := prefix |} in
  try_except
    (lift host ;;
     let self1 := with_handles true true self0 in
     let test_key := "simplecache.init.test" in
     let test_val := "ok" in
     mem_ok <-
       try_except
         (setProperty test_key test_val ;;
          v <- getProperty test_key ;;
          if bool_decide (v ≠ test_val) then ret false
          else clearProperty test_key ;; ret true)
         (λ _, ret false) ;;
     let self2 := if (mem_ok : bool) then self1 else with_enable_mem_cache false self1 in
     try_except
       (check_cleanup self2 ;; ret self2)
       (λ _, ret (with_handles false false self2)))
    (λ _, ret (with_handles false false self0)).

(** The [while] of [close].  Other threads empty [_busy_tasks]; here nothing
    else runs, so the loop ends when the list is empty or when an abort is
    requested.  The result is [false] when the fuel runs out. *)
Fixpoint close_wait (fuel : nat) (monitor_exists : bool) : M bool :=
  match fuel with
  | O => ret false
  | S fuel' =>
      busy <- gets w_busy_tasks ;;
      match busy with
      | [] => ret true
      | _ :: _ =>
          stop <- (if monitor_exists then abortRequested else ret false) ;;
          if (stop : bool) then ret true
          else xbmc_sleep 25 ;; close_wait fuel' monitor_exists
      end
  end.

(** The result is the instance after [close], or [None] when the wait did
    not end within the fuel. *)
Definition close (fuel : nat) (self : t) : M (option t) :=
  let self := with_exit true self in
  let monitor_exists := _monitor self in
  finished <- close_wait fuel monitor_exists ;;
  if (finished : bool) then ret (Some (with_handles false false self))
  else ret None.

Definition __del__ (fuel : nat) (self : t) : M (option t) :=
  if negb (_exit self) then close fuel self else ret (Some self).

(** The cache key [use_cache] builds: class name, function name and the
    positional arguments after [self], each as [f".{item}"] formats it,
    in lower case. *)
Definition cache_str (class_name func_name : string) (items : list string) : string :=
  str_lower
    (foldl (λ acc item, acc +:+ "." +:+ item) (class_name +:+ "." +:+ func_name) items).

(** A call of the function [use_cache(cache_days)] wraps around [func].
    [cache_instance] is the attribute [cache] of the first positional
    argument, [func] is the call of the wrapped function on the same
    arguments, the two flags are the keyword argument [ignore_cache] and the
    attribute of that name. *)
Definition use_cache (cache_days : Z) (func : M pyval) (cache_instance : option t)
    (class_name func_name : string) (items : list string)
    (ignore_cache_flag global_cache_ignore : bool) : M pyval :=
  match cache_instance with
  | None => func
  | Some cache =>
      let key := cache_str class_name func_name items in
      cachedata <-
        (if negb ignore_cache_flag && negb global_cache_ignore then
           try_except (get cache key "" true) (λ _, ret PNone)
         else ret PNone) ;;
      if negb (is_none cachedata) then ret cachedata
      else
        result <- func ;;
        try_except
          (expiration <- lift (timedelta_days cache_days) ;;
           set cache key result "" expiration true)
          (λ _, ret tt) ;;
        ret result
  end.

End Lifecycle.
End SimpleCache.

(** ** A reference standard library

    An executable instance of [PyLib], used to run the model on concrete
    inputs: a JSON writer in the default layout of [json.dumps], a JSON
    reader, [repr], and a [mktime] for a host whose local time is UTC and
    whose [time_t] has 32 bits. *)

Module Ref.

Definition dquote : ascii := ascii_of_nat 34.
Definition backslash : ascii := ascii_of_nat 92.

Definition join (sep : string) (l : list string) : string :=
  (fix go l := match l with
               | [] => ""
               | [x] => x
               | x :: t => x +:+ sep +:+ go t
               end) l.

Definition hex_digit (n : Z) : ascii :=
  ascii_of_nat (Z.to_nat (if n <? 10 then 48 + n else 87 + n)).

Definition escape_char (c : ascii) : string :=
  let n := ord c in
  if (n =? 34) || (n =? 92) then String backslash (String c "")
  else if (n <? 32) || (126 <? n) then
    String backslash
      (String "u" (String "0" (String "0"
         (String (hex_digit (n `div` 16)) (String (hex_digit (n `mod` 16)) "")))))
  else String c "".

Fixpoint escape (s : string) : string :=
  match s with
  | EmptyString => ""
  | String c r => escape_char c +:+ escape r
  end.

Definition quote (s : string) : string :=
  String dquote (escape s) +:+ String dquote "".

Definition sequence {A} (l : list (res A)) : res (list A) :=
  (fix go l := match l with
               | [] => Ret []
               | Ret a :: t => match go t with
                               | Ret b => Ret (a :: b)
                               | Raise e => Raise e
                               end
               | Raise e :: _ => Raise e
               end) l.

Fixpoint dumps (v : pyval) : res string :=
  match v with
  | PNone => Ret "null"
  | PBool b => Ret (if b then "true" else "false")
  | PInt z => Ret (pretty z)
  | PStr s => Ret (quote s)
  | PList l | PTuple l =>
      match sequence (map dumps l) with
      | Ret parts => Ret ("[" +:+ join ", " parts +:+ "]")
      | Raise e => Raise e
      end
  | PDict kv =>
      match sequence (map (λ p, match dumps p.2 with
                                | Ret d => Ret (quote p.1 +:+ ": " +:+ d)
                                | Raise e => Raise e
                                end) kv) with
      | Ret parts => Ret ("{" +:+ join ", " parts +:+ "}")
      | Raise e => Raise e
      end
  | PObject _ => Raise TypeError
  end.

Definition is_ws (c : ascii) : bool :=
  let n := ord c in (n =? 32) || (n =? 9) || (n =? 10) || (n =? 13).

Fixpoint skip_ws (s : string) : string :=
  match s with
  | String c r => if is_ws c then skip_ws r else s
  | EmptyString => s
  end.

Definition digit_val (c : ascii) : option Z :=
  let n := ord c in
  if (48 <=? n) && (n <=? 57) then Some (n - 48) else None.

Definition hex_val (c : ascii) : option Z :=
  let n := ord c in
  if (48 <=? n) && (n <=? 57) then Some (n - 48)
  else if (97 <=? n) && (n <=? 102) then Some (n - 87)
  else if (65 <=? n) && (n <=? 70) then Some (n - 55)
  else None.

Fixpoint parse_digits (s : string) (acc : Z) (seen : bool) : option (Z * string) :=
  match s with
  | String c r =>
      match digit_val c with
      | Some d => parse_digits r (10 * acc + d) true
      | None => if seen then Some (acc, s) else None
      end
  | EmptyString => if seen then Some (acc, s) else None
  end.

Definition unescape (e : ascii) : option ascii :=
  let n := ord e in
  if (n =? 34) || (n =? 92) || (n =? 47) then Some e
  else if n =? 110 then Some (ascii_of_nat 10)
  else if n =? 116 then Some (ascii_of_nat 9)
  else if n =? 114 then Some (ascii_of_nat 13)
  else if n =? 98 then Some (ascii_of_nat 8)
  else if n =? 102 then Some (ascii_of_nat 12)
  else None.

(** The text after an opening quote, up to the closing one. *)
Fixpoint parse_string_body (s : string) : option (string * string) :=
  match s with
  | EmptyString => None
  | String c r =>
      if Ascii.eqb c dquote then Some ("", r)
      else if Ascii.eqb c backslash then
        match r with
        | String "u" (String h1 (String h2 (String h3 (String h4 r')))) =>
            match hex_val h1, hex_val h2, hex_val h3, hex_val h4 with
            | Some 0, Some 0, Some a, Some b =>
                match parse_string_body r' with
                | Some (body, rest) =>
                    Some (String (ascii_of_nat (Z.to_nat (16 * a + b))) body, rest)
                | None => None
                end
            | _, _, _, _ => None
            end
        | String e r' =>
            match unescape e, parse_string_body r' with
            | Some c', Some (body, rest) => Some (String c' body, rest)
            | _, _ => None
            end
        | EmptyString => None
        end
      else if ord c <? 32 then None
      else
        match parse_string_body r with
        | Some (body, rest) => Some (String c body, rest)
        | None => None
        end
  end.

Fixpoint strip_prefix (p s : string) : option string :=
  match p, s with
  | EmptyString, _ => Some s
  | String a p', String b s' => if Ascii.eqb a b then strip_prefix p' s' else None
  | _, _ => None
  end.

Definition parse_literal (s : string) : option (pyval * string) :=
  match strip_prefix "null" s with
  | Some r => Some (PNone, r)
  | None =>
      match strip_prefix "true" s with
      | Some r => Some (PBool true, r)
      | None =>
          match strip_prefix "false" s with
          | Some r => Some (PBool false, r)
          | None => None
          end
      end
  end.

Fixpoint parse_value (n : nat) (s : string) {struct n} : option (pyval * string) :=
  match n with
  | O => None
  | S n' =>
      match skip_ws s with
      | EmptyString => None
      | String c r as s' =>
          if Ascii.eqb c "[" then
            match skip_ws r with
            | String "]" r' => Some (PList [], r')
            | r1 => match parse_elems n' r1 with
                    | Some (l, rest) => Some (PList l, rest)
                    | None => None
                    end
            end
          else if Ascii.eqb c "{" then
            match skip_ws r with
            | String "}" r' => Some (PDict [], r')
            | r1 => match parse_members n' r1 with
                    | Some (kv, rest) => Some (PDict kv, rest)
                    | None => None
                    end
            end
          else if Ascii.eqb c dquote then
            match parse_string_body r with
            | Some (body, rest) => Some (PStr body, rest)
            | None => None
            end
          else if Ascii.eqb c "-" then
            match parse_digits r 0 false with
            | Some (z, rest) => Some (PInt (- z), rest)
            | None => None
            end
          else
            match parse_digits s' 0 false with
            | Some (z, rest) => Some (PInt z, rest)
            | None => parse_literal s'
            end
      end
  end
with parse_elems (n : nat) (s : string) {struct n} : option (list pyval * string) :=
  match n with
  | O => None
  | S n' =>
      match parse_value n' s with
      | Some (v, rest) =>
          match skip_ws rest with
          | String "," r =>
              match parse_elems n' r with
              | Some (l, rest') => Some (v :: l, rest')
              | None => None
              end
          | String "]" r => Some ([v], r)
          | _ => None
          end
      | None => None
      end
  end
with parse_members (n : nat) (s : string) {struct n}
    : option (list (string * pyval) * string) :=
  match n with
  | O => None
  | S n' =>
      match skip_ws s with
      | String c r =>
          if Ascii.eqb c dquote then
            match parse_string_body r with
            | Some (key, rest) =>
                match skip_ws rest with
                | String ":" r1 =>
                    match parse_value n' r1 with
                    | Some (v, rest1) =>
                        match skip_ws rest1 with
                        | String "," r2 =>
                            match parse_members n' r2 with
                            | Some (kv, rest2) => Some ((key, v) :: kv, rest2)
                            | None => None
                            end
                        | String "}" r2 => Some ([(key, v)], r2)
                        | _ => None
                        end
                    | None => None
                    end
                | _ => None
                end
            | None => None
            end
          else None
      | EmptyString => None
      end
  end.

Definition loads (s : string) : res pyval :=
  match parse_value (2 * String.length s + 2) s with
  | Some (v, rest) =>
      match skip_ws rest with
      | EmptyString => Ret v
      | _ => Raise ValueError
      end
  | None => Raise ValueError
  end.

Fixpoint repr (v : pyval) : string :=
  match v with
  | PNone => "None"
  | PBool b => if b then "True" else "False"
  | PInt z => pretty z
  | PStr s => "'" +:+ s +:+ "'"
  | PList l => "[" +:+ join ", " (map repr l) +:+ "]"
  | PTuple l =>
      match l with
      | [x] => "(" +:+ repr x +:+ ",)"
      | _ => "(" +:+ join ", " (map repr l) +:+ ")"
      end
  | PDict kv =>
      "{" +:+ join ", " (map (λ p, "'" +:+ p.1 +:+ "': " +:+ repr p.2) kv) +:+ "}"
  | PObject tag => "<" +:+ tag +:+ " object>"
  end.

(** Year, month and day of a day count from 1970-01-01. *)
Definition civil (days : Z) : Z * Z * Z :=
  let z := days + 719468 in
  let era := z `div` 146097 in
  let doe := z - era * 146097 in
  let yoe := (doe - doe `div` 1460 + doe `div` 36524 - doe `div` 146096) `div` 365 in
  let doy := doe - (365 * yoe + yoe `div` 4 - yoe `div` 100) in
  let mp := (5 * doy + 2) `div` 153 in
  let d := doy - (153 * mp + 2) `div` 5 + 1 in
  let m := if mp <? 10 then mp + 3 else mp - 9 in
  let y := yoe + era * 400 in
  (if m <=? 2 then y + 1 else y, m, d).

Definition repr_datetime (date_time : Z) : string :=
  let secs := date_time `div` usec in
  let micro := date_time `mod` usec in
  let '(y, m, d) := civil (secs `div` 86400) in
  let sod := secs `mod` 86400 in
  let s := sod `mod` 60 in
  "datetime.datetime(" +:+
  join ", " ([pretty y; pretty m; pretty d; pretty (sod `div` 3600);
              pretty ((sod `div` 60) `mod` 60)]
             ++ (if (s =? 0) && (micro =? 0) then [] else [pretty s])
             ++ (if micro =? 0 then [] else [pretty micro]))
  +:+ ")".

Definition mktime (tt : Z) : res Z :=
  if (- 2 ^ 31 <=? tt) && (tt <? 2 ^ 31) then Ret tt else Raise OverflowError.

Lemma mktime_raises tt e : mktime tt = Raise e → e = OverflowError ∨ e = ValueError.
Proof.
  unfold mktime. destruct (_ && _); [discriminate|]. intros [= <-]. by left.
Qed.

Lemma loads_empty : ∃ e, loads "" = Raise e.
Proof. by exists ValueError. Qed.

#[export] Instance lib : PyLib :=
  Build_PyLib dumps loads repr repr_datetime mktime mktime_raises loads_empty.

(** The day count of a civil date, inverse of [civil]. *)
Definition days_from_civil (y m d : Z) : Z :=
  let y' := if m <=? 2 then y - 1 else y in
  let era := y' `div` 400 in
  let yoe := y' - era * 400 in
  let mp := if 2 <? m then m - 3 else m + 9 in
  let doy := (153 * mp + 2) `div` 5 + d - 1 in
  let doe := yoe * 365 + yoe `div` 4 - yoe `div` 100 + doy in
  era * 146097 + doe - 719468.

(** The arguments of a call: integers separated by commas, up to [")"]. *)
Fixpoint parse_args (n : nat) (s : string) : option (list Z) :=
  match n with
  | O => None
  | S n' =>
      match parse_digits (skip_ws s) 0 false with
      | Some (z, rest) =>
          match skip_ws rest with
          | String "," r => match parse_args n' r with
                            | Some l => Some (z :: l)
                            | None => None
                            end
          | String ")" r => match skip_ws r with
                            | EmptyString => Some [z]
                            | _ => None
                            end
          | _ => None
          end
      | None => None
      end
  end.

(** [eval] on the texts [repr] writes for a [datetime]; anything else is
    refused. *)
Definition eval_datetime (s : string) : res Z :=
  match strip_prefix "datetime.datetime(" (skip_ws s) with
  | Some r =>
      match parse_args 8 r with
      | Some (y :: m :: d :: time) =>
          let h := default 0 (time !! 0%nat) in
          let mi := default 0 (time !! 1%nat) in
          let sec := default 0 (time !! 2%nat) in
          let micro := default 0 (time !! 3%nat) in
          let days := days_from_civil y m d in
          if (1 <=? y) && (y <=? 9999) && (1 <=? m) && (m <=? 12) && (1 <=? d)
             && bool_decide (civil days = (y, m, d))
             && (h <? 24) && (mi <? 60) && (sec <? 60) && (micro <? usec)
             && (length time <=? 4)%nat
          then Ret ((days * 86400 + h * 3600 + mi * 60 + sec) * usec + micro)
          else Raise ValueError
      | _ => Raise TypeError
      end
  | None => Raise ValueError
  end.

(** [str.lower] on ASCII text. *)
Fixpoint lower (s : string) : string :=
  match s with
  | EmptyString => ""
  | String c r =>
      let n := ord c in
      String (if (65 <=? n) && (n <=? 90) then ascii_of_nat (Z.to_nat (n + 32)) else c)
        (lower r)
  end.

#[export] Instance ext : PyExt := Build_PyExt eval_datetime lower.

End Ref.

(** * Properties *)

(** ** Reading the trace *)

Fixpoint count_attempts (evs : list event) : nat :=
  match evs with
  | [] => 0
  | EvSqlAttempt _ :: rest => S (count_attempts rest)
  | _ :: rest => count_attempts rest
  end.

Fixpoint wait_delays (evs : list event) : list Z :=
  match evs with
  | [] => []
  | EvWait ms :: rest => ms :: wait_delays rest
  | _ :: rest => wait_delays rest
  end.

(** A world whose host never fails: no abort request, no window call that
    raises, a healthy database file, no statement that fails. *)
Definition quiet (w : world) : Prop :=
  w_abort w = [] ∧ w_winfault w = [] ∧ w_connfault w = [] ∧ w_sqlfault w = [].

(** [m] relates the world before to the world after by [R]. *)
Definition respects (R : world → world → Prop) {A} (m : M A) : Prop :=
  ∀ w, R w (m w).2.

(** The relation used below: the trace only grows. *)
Definition grows (w w' : world) : Prop := ∃ evs, w_trace w' = evs ++ w_trace w.

(** The value [_get_timestamp] computes, as a function of the clock. *)
Definition timestamp_of {py : PyLib} (w : world) (date_time : Z) : Z :=
  match mktime (timetuple date_time) with
  | Ret s => s
  | Raise _ => int_time w
  end.

(** What one run of the retry loop of [_execute_sql] leaves behind: the new
    events [evs], at most [max_retries] attempts counting the [retries]
    made before, waits of [retry_delay] only, and a table that is either
    untouched (no result) or the outcome of the statement. *)
Definition db_frame (w w' : world) : Prop :=
  w_props w' = w_props w ∧ w_now w' = w_now w ∧ w_time w' = w_time w
  ∧ w_busy_tasks w' = w_busy_tasks w ∧ w_winfault w' = w_winfault w.

Definition loop_outcome (q : query) (w w' : world) (r : option cursor)
    (evs : list event) (retries : nat) : Prop :=
  w_trace w' = evs ++ w_trace w
  ∧ (count_attempts evs + retries ≤ SimpleCache.max_retries)%nat
  ∧ Forall (λ ms, ms = SimpleCache.retry_delay) (wait_delays evs)
  ∧ (length (wait_delays evs) ≤ count_attempts evs)%nat
  ∧ db_frame w w'
  ∧ ((r = None ∧ w_db w' = w_db w)
     ∨ ∃ t, w_db w = Some t ∧ r = Some (run_query q t).1
            ∧ w_db w' = Some (run_query q t).2).

(** The events of [n] rounds of "attempt, database is locked, wait",
    newest first, and the world they leave when the statement script was
    [n] busy answers followed by [rest]. *)
Definition busy_trace (q : query) (n : nat) : list event :=
  concat (repeat [EvWait SimpleCache.retry_delay; EvSqlAttempt q] n).

Definition after_busy (q : query) (n : nat) (rest : list sql_fault) (w : world) : world :=
  {| w_props := w_props w; w_db := w_db w; w_now := w_now w; w_time := w_time w;
     w_busy_tasks := w_busy_tasks w; w_abort := w_abort w;
     w_winfault := w_winfault w; w_connfault := w_connfault w;
     w_sqlfault := rest; w_trace := busy_trace q n ++ w_trace w |}.

(** A healthy connection for [self]: the monitor is there, a path is
    configured, no shutdown is under way, nobody asks to abort and the file
    opens. *)
Definition connects (self : SimpleCache.t) (w : world) : Prop :=
  SimpleCache._monitor self = true ∧ is_Some (SimpleCache._db_path self)
  ∧ SimpleCache._exit self = false ∧ w_abort w = [] ∧ w_connfault w = [].

(** The flag that selects the JSON path: [json_data or self.data_is_json]. *)
Definition json_mode (self : SimpleCache.t) (json_data : bool) : bool :=
  json_data || SimpleCache.data_is_json self.

(** The local tier holds, under [k], a text that reads back as a sequence
    of at least three items [expires, v, checksum] which passes the gate
    for the requested checksum [cs] at time [cur]. *)
Definition mem_hit {py : PyLib} (self : SimpleCache.t) (w : world) (k : string)
    (cs cur : Z) (v : pyval) : Prop :=
  ∃ s x c0 c2 rest,
    w_props w !! SimpleCache._get_prop_key self k = Some s
    ∧ json_loads s = Ret x
    ∧ seq_items x = Some (c0 :: v :: c2 :: rest)
    ∧ py_gt_int c0 cur = Ret true
    ∧ (cs = 0 ∨ py_eq_int cs c2 = true).

(** The table holds, under [k], a row that passes the gate and whose data
    reads back as [v]. *)
Definition db_hit {py : PyLib} (w : world) (k : string) (cs cur : Z) (v : pyval) : Prop :=
  ∃ t r,
    w_db w = Some t ∧ t !! k = Some r
    ∧ cur < r_expires r
    ∧ (cs = 0 ∨ r_checksum r = cs)
    ∧ json_loads (r_data r) = Ret v.

(** What a call on the window leaves alone. *)
Definition win_frame (w w' : world) : Prop :=
  w_db w' = w_db w ∧ w_now w' = w_now w ∧ w_time w' = w_time w
  ∧ w_busy_tasks w' = w_busy_tasks w ∧ w_abort w' = w_abort w
  ∧ w_connfault w' = w_connfault w ∧ w_sqlfault w' = w_sqlfault w.

(** The text [set] stores in the local tier and in the table. *)
Definition mem_text {py : PyLib} (self : SimpleCache.t) (jd : bool) (e : Z)
    (v : pyval) (c : Z) : res string :=
  if json_mode self jd then json_dumps (PTuple [PInt e; v; PInt c])
  else Ret (py_repr (PTuple [PInt e; v; PInt c])).

Definition db_text {py : PyLib} (self : SimpleCache.t) (jd : bool) (v : pyval)
    : res string :=
  if json_mode self jd then json_dumps v else Ret (py_repr v).

(** The gate of both tiers: the entry expires strictly after [cur], and
    either no checksum is requested ([cs] is 0) or the stored one is the
    requested one. *)
Definition gate (cs cur expires stored : Z) : bool :=
  (cur <? expires) && ((cs =? 0) || (stored =? cs)).

(** The world after a window read of [key] that finds a slot to clear. *)
Definition cleared (key : string) (w : world) : world :=
  set_props (delete key (w_props w))
    (log_event (EvClearProp key) (log_event (EvGetProp key) w)).

(** An instance whose constructor succeeded and that is not shutting down:
    window and monitor are there and [_exit] is unset. *)
Definition initialized (self : SimpleCache.t) : Prop :=
  SimpleCache._win self = true ∧ SimpleCache._monitor self = true
  ∧ SimpleCache._exit self = false.

(** The rows [SELECT id, expires FROM simplecache] returns. *)
Definition rows_of (t : gmap string row) : list (string * Z) :=
  (λ kr, (kr.1, r_expires kr.2)) <$> map_to_list t.

(** The table after the deletions of the sweep over [rows]. *)
Definition swept_table (cur : Z) (rows : list (string * Z)) (t : gmap string row)
    : gmap string row :=
  foldl (λ t p, if p.2 <? cur then delete p.1 t else t) t rows.

(** The window properties after the slots of [ids] were cleared. *)
Definition cleared_props (self : SimpleCache.t) (ids : list string)
    (p : gmap string string) : gmap string string :=
  foldl (λ p id, delete (SimpleCache._get_prop_key self id) p) p ids.

(** What the sweep leaves alone in the host. *)
Definition host_frame (w w' : world) : Prop :=
  w_now w' = w_now w ∧ w_time w' = w_time w ∧ w_abort w' = w_abort w
  ∧ w_winfault w' = w_winfault w ∧ w_connfault w' = w_connfault w
  ∧ w_sqlfault w' = w_sqlfault w.

(** ** What a tier answers *)

(** What the local tier answers for the text [o] of a slot. *)
Definition mem_value {py : PyLib} (self : SimpleCache.t) (jd : bool) (cs cur : Z)
    (o : option string) : pyval :=
  let s := default "" o in
  if SimpleCache.truthy s && json_mode self jd then
    match json_loads s with
    | Ret x =>
        match seq_items x with
        | Some (c0 :: c1 :: c2 :: _) =>
            match py_gt_int c0 cur with
            | Ret fresh => if fresh && ((cs =? 0) || py_eq_int cs c2) then c1 else PNone
            | Raise _ => PNone
            end
        | _ => PNone
        end
    | Raise _ => PNone
    end
  else PNone.

(** What the persistent tier answers for the row [o] of a key. *)
Definition db_value {py : PyLib} (self : SimpleCache.t) (jd : bool) (cs cur : Z)
    (o : option row) : pyval :=
  match o with
  | Some r =>
      if gate cs cur (r_expires r) (r_checksum r) && json_mode self jd then
        match json_loads (r_data r) with
        | Ret v => v
        | Raise _ => PNone
        end
      else PNone
  | None => PNone
  end.

(** The same world at another reading of the two clocks. *)
Definition set_clock (now time : Z) (w : world) : world :=
  {| w_props := w_props w; w_db := w_db w; w_now := now; w_time := time;
     w_busy_tasks := w_busy_tasks w; w_abort := w_abort w;
     w_winfault := w_winfault w; w_connfault := w_connfault w;
     w_sqlfault := w_sqlfault w; w_trace := w_trace w |}.


(** The text of a slot the local tier can judge: JSON for a sequence of at
    least three items whose first one compares with an integer. *)
Definition readable_slot {py : PyLib} (s : string) : bool :=
  match json_loads s with
  | Ret x =>
      match seq_items x with
      | Some (c0 :: _ :: _ :: _) =>
          match py_gt_int c0 0 with
          | Ret _ => true
          | Raise _ => false
          end
      | _ => false
      end
  | Raise _ => false
  end.

(** ** Exceptions and the task list *)

(** [m] raises nothing, on any world. *)
Definition never_raises {A} (m : M A) : Prop :=
  ∀ w, ∃ a w', m w = (Ret a, w').

(** What everything but the bookkeeping of tasks leaves alone: the list
    [_busy_tasks], and a window that raises nothing goes on raising
    nothing. *)
Definition task_frame (w w' : world) : Prop :=
  w_busy_tasks w' = w_busy_tasks w ∧ (w_winfault w = [] → w_winfault w' = []).

(** ** The sweep timer *)

(** Whether [check_cleanup] finds a sweep due: the stamp of the last sweep
    is missing, can not be read, or lies more than the interval back. *)
Definition cleanup_due {ext : PyExt} (self : SimpleCache.t) (w : world) : bool :=
  let s := default "" (w_props w !! SimpleCache._get_prop_key self
                                      "internal.clean.lastexecuted") in
  if SimpleCache.truthy s then
    match eval_datetime s with
    | Ret lastexecuted =>
        match datetime_add lastexecuted SimpleCache._auto_clean_interval with
        | Ret due => due <? w_now w
        | Raise _ => true
        end
    | Raise _ => true
    end
  else true.

(** ** Generic facts about the monad *)

Section Combinators.
Context (R : world → world → Prop).
Context (R_refl : ∀ w, R w w) (R_trans : ∀ a b c, R a b → R b c → R a c).

Lemma respects_ret {A} (a : A) : respects R (ret a).
Proof. intros w. apply R_refl. Qed.

Lemma respects_raise {A} e : respects R (@raise A e).
Proof. intros w. apply R_refl. Qed.

Lemma respects_lift {A} (r : res A) : respects R (lift r).
Proof. intros w. apply R_refl. Qed.

Lemma respects_gets {A} (f : world → A) : respects R (gets f).
Proof. intros w. apply R_refl. Qed.

Lemma respects_bind {A B} (m : M A) (f : A → M B) :
  respects R m → (∀ a, respects R (f a)) → respects R (bind m f).
Proof.
  intros Hm Hf w. unfold bind. specialize (Hm w).
  destruct (m w) as [[a|e] w1]; simpl in *; [|done].
  eapply R_trans; [exact Hm|apply Hf].
Qed.

Lemma respects_try_except {A} (m : M A) (h : exn → M A) :
  respects R m → (∀ e, respects R (h e)) → respects R (try_except m h).
Proof.
  intros Hm Hh w. unfold try_except. specialize (Hm w).
  destruct (m w) as [[a|e] w1]; simpl in *; [done|].
  eapply R_trans; [exact Hm|apply Hh].
Qed.

Lemma respects_try_finally {A} (m : M A) (fin : M unit) :
  respects R m → respects R fin → respects R (try_finally m fin).
Proof.
  intros Hm Hf w. unfold try_finally. specialize (Hm w).
  destruct (m w) as [r w1]; simpl in *.
  eapply R_trans; [exact Hm|apply Hf].
Qed.

Lemma respects_if {A} (b : bool) (m1 m2 : M A) :
  respects R m1 → respects R m2 → respects R (if b then m1 else m2).
Proof. by destruct b. Qed.

End Combinators.

Lemma grows_refl w : grows w w.
Proof. by exists []. Qed.

Lemma grows_trans a b c : grows a b → grows b c → grows a c.
Proof.
  intros [e1 H1] [e2 H2]. exists (e2 ++ e1). by rewrite H2, H1, app_assoc.
Qed.

(** ** Checksum utility *)

Lemma sum_ord_app (a b : string) : sum_ord (a +:+ b) = sum_ord a + sum_ord b.
Proof. induction a as [|c a IH]; simpl; [done|]. rewrite IH. lia. Qed.

Lemma append_nonempty (a b : string) : a ≠ "" → a +:+ b ≠ "".
Proof. by destruct a. Qed.

(** C5, as amended.  The checksum is a function of the input and of the
    salt [global_checksum] alone.  Without a salt (absent or empty) it is
    the sum of the code points of the input, which is 0 for the empty
    input.  With a salt it is the sum of the code points of the salt, of
    the separator "-" the source puts between the two, and of the input. *)
Theorem checksum_value (self : SimpleCache.t) (stringinput : string) :
  SimpleCache._get_checksum self stringinput =
    match SimpleCache.global_checksum self with
    | Some salt =>
        if SimpleCache.truthy salt
        then sum_ord salt + ord "-" + sum_ord stringinput
        else sum_ord stringinput
    | None => sum_ord stringinput
    end.
Proof.
  unfold SimpleCache._get_checksum, SimpleCache.truthy_opt, SimpleCache.truthy.
  destruct (SimpleCache.global_checksum self) as [salt|]; simpl.
  - destruct (decide (salt = "")) as [->|Hsalt].
    + simpl. rewrite andb_true_r.
      case_bool_decide as Hs; simpl; [done|]. by subst.
    + rewrite !(bool_decide_true (salt ≠ "")) by done. simpl.
      rewrite andb_false_r.
      rewrite bool_decide_true by (by apply append_nonempty). simpl.
      rewrite !sum_ord_app. simpl. lia.
  - rewrite andb_true_r.
    case_bool_decide as Hs; simpl; [done|]. by subst.
Qed.

(** C5, as stated, fails: with the salt "a" and the input "b" the checksum
    is 97 + 45 + 98 = 240, not the sum 195 of the code points of "ab". *)
Lemma checksum_separator_counterexample :
  let self := SimpleCache.Build_t true false (Some "a") false true true None
                "simplecache." in
  SimpleCache._get_checksum self "b" = 240
  ∧ sum_ord ("a" +:+ "b") = 195
  ∧ SimpleCache._get_checksum self "b" ≠ sum_ord ("a" +:+ "b").
Proof. split_and!; [reflexivity|reflexivity|by vm_compute]. Qed.

(** The codec falls back to the clock when [mktime] overflows: on the
    reference host, whose [time_t] has 32 bits, a date in 2040 is encoded
    as the current time. *)
Example timestamp_fallback :
  let w := Build_world ∅ None 1793811240500000 1793811240500000 [] [] [] [] [] [] in
  SimpleCache._get_timestamp (py := Ref.lib) 2208988800000000 w = (Ret 1793811240, w).
Proof. reflexivity. Qed.

(** ** Timestamp codec *)

Section Timestamp.
Context {py : PyLib}.

Lemma _get_timestamp_eq (date_time : Z) (w : world) :
  SimpleCache._get_timestamp date_time w = (Ret (timestamp_of w date_time), w).
Proof.
  unfold SimpleCache._get_timestamp, timestamp_of, try_except, lift.
  destruct (mktime (timetuple date_time)) as [s|e] eqn:E; [done|].
  by destruct (mktime_raises _ _ E) as [-> | ->].
Qed.

(** C6.  For every [datetime] the codec returns an integer, raises nothing
    and leaves the world alone; when the conversion fails it returns the
    encoding [int(time.time())] of the current time. *)
Theorem timestamp_codec_total (date_time : Z) (w : world) :
  ∃ n : Z,
    SimpleCache._get_timestamp date_time w = (Ret n, w)
    ∧ match mktime (timetuple date_time) with
      | Ret s => n = s
      | Raise _ => n = int_time w
      end.
Proof.
  exists (timestamp_of w date_time). split; [apply _get_timestamp_eq|].
  unfold timestamp_of. by destruct (mktime _).
Qed.

End Timestamp.

(** ** The retry loop of [_execute_sql] *)

Lemma count_attempts_app (e1 e2 : list event) :
  count_attempts (e1 ++ e2) = (count_attempts e1 + count_attempts e2)%nat.
Proof. induction e1 as [|[] e1 IH]; simpl; rewrite ?IH; done. Qed.

Lemma wait_delays_app (e1 e2 : list event) :
  wait_delays (e1 ++ e2) = wait_delays e1 ++ wait_delays e2.
Proof. induction e1 as [|[] e1 IH]; simpl; rewrite ?IH; done. Qed.

Section ExecuteSql.
Context {py : PyLib}.

Ltac loop_done :=
  unfold loop_outcome, db_frame; simpl; repeat split; try done; try lia.

(** With more fuel than attempts left the loop returns: it never runs out
    of fuel, whatever the host answers. *)
Lemma retry_loop_spec (self : SimpleCache.t) (q : query) (fuel retries : nat) (w : world) :
  (retries ≤ SimpleCache.max_retries)%nat →
  (SimpleCache.max_retries - retries < fuel)%nat →
  ∃ r w' evs,
    SimpleCache.retry_loop fuel self q retries w = (Ret (Some r), w')
    ∧ loop_outcome q w w' r evs retries.
Proof.
  revert retries w. induction fuel as [|fuel IH]; intros retries w Hle Hfuel; [lia|].
  simpl. destruct (Nat.ltb_spec retries SimpleCache.max_retries) as [Hlt|Hge].
  2: { exists None, w, []. split; [done|]. loop_done. by left. }
  destruct w as [props db now time busy abort winf connf sqlf trace].
  unfold bind at 1.
  assert (∃ stop abort', (if SimpleCache._exit self then ret true else abortRequested)
            (Build_world props db now time busy abort winf connf sqlf trace)
          = (Ret stop, Build_world props db now time busy abort' winf connf sqlf trace))
    as (stop & abort' & ->).
  { destruct (SimpleCache._exit self); [by eexists _, _|].
    unfold abortRequested. simpl. destruct abort; simpl; by eexists _, _. }
  destruct stop.
  { eexists None, _, []. split; [done|]. loop_done. by left. }
  unfold bind, try_except, execute. simpl.
  destruct (pop SqlOk sqlf) as [f sqlf'] eqn:Hpop. simpl.
  destruct f; simpl.
  - destruct db as [t|]; simpl.
    + destruct (run_query q t) as [c t'] eqn:Hq. simpl.
      eexists (Some c), _, [EvSqlAttempt q]. split; [done|]. loop_done.
      right. exists t. by rewrite Hq.
    + eexists None, _, [EvSqlAttempt q]. split; [done|]. loop_done. by left.
  - replace (if SimpleCache._monitor self
             then waitForAbort SimpleCache.retry_delay
             else time_sleep SimpleCache.retry_delay)
      with (waitForAbort SimpleCache.retry_delay)
      by (by destruct (SimpleCache._monitor self)).
    simpl.
    match goal with
    | |- context [SimpleCache.retry_loop fuel self q (S retries) ?w1] =>
        destruct (IH (S retries) w1)
          as (r & w' & evs & -> & Ht & Hc & Hw & Hl & Hf & Hdb); [lia|lia|]
    end.
    unfold db_frame in *. simpl in *.
    exists r, w', (evs ++ [EvWait SimpleCache.retry_delay; EvSqlAttempt q]).
    split; [done|]. unfold loop_outcome, db_frame. simpl.
    rewrite Ht, <- app_assoc, count_attempts_app, wait_delays_app, length_app.
    destruct Hf as (? & ? & ? & ? & ?).
    simpl. repeat split; try done; try lia.
    apply Forall_app. split; [done|]. by constructor.
  - eexists None, _, [EvSqlAttempt q]. split; [done|]. loop_done. by left.
  - eexists None, _, [EvSqlAttempt q]. split; [done|]. loop_done. by left.
Qed.

(** What [_get_database] can do to the file: leave it, lose it, or leave an
    empty table. *)
Lemma _get_database_spec (self : SimpleCache.t) (w : world) :
  ∃ conn w', SimpleCache._get_database self w = (Ret conn, w')
    ∧ w_trace w' = w_trace w ∧ db_frame w w' ∧ w_abort w' = w_abort w
    ∧ w_sqlfault w' = w_sqlfault w
    ∧ match conn with
      | Some _ => w_db w' = w_db w ∧ is_Some (w_db w) ∨ w_db w' = Some ∅
      | None => True
      end.
Proof.
  unfold SimpleCache._get_database.
  destruct (SimpleCache._db_path self); [|by eexists None, w].
  destruct w as [props db now time busy abort winf connf sqlf trace]. simpl.
  destruct (pop ConnOk connf) as [f connf'].
  destruct f as [| |file_deleted recreated]; simpl.
  - destruct db; eexists (Some tt), _; repeat split; eauto.
  - by eexists None, _.
  - destruct recreated.
    + eexists (Some tt), _. repeat split; try done.
      destruct file_deleted, db; simpl; eauto.
    + by eexists None, _.
Qed.

(** [_execute_sql] on any world. *)
Lemma _execute_sql_spec (self : SimpleCache.t) (q : query) (w : world) :
  ∃ r w' evs,
    SimpleCache._execute_sql self q w = (Ret r, w')
    ∧ w_trace w' = evs ++ w_trace w
    ∧ (count_attempts evs ≤ SimpleCache.max_retries)%nat
    ∧ Forall (λ ms, ms = SimpleCache.retry_delay) (wait_delays evs)
    ∧ (length (wait_delays evs) ≤ count_attempts evs)%nat
    ∧ db_frame w w'
    ∧ match r with
      | Some c => ∃ t, (w_db w = Some t ∨ t = ∅) ∧ c = (run_query q t).1
                       ∧ w_db w' = Some (run_query q t).2
      | None => True
      end.
Proof.
  unfold SimpleCache._execute_sql.
  destruct (SimpleCache._monitor self); cbn [negb].
  2: { exists None, w, []. unfold db_frame. simpl. repeat split; try done; lia. }
  destruct (bool_decide _); cbn [negb].
  2: { exists None, w, []. unfold db_frame. simpl. repeat split; try done; lia. }
  unfold try_except, bind.
  destruct (_get_database_spec self w)
    as (conn & w1 & -> & Ht1 & (Hp1 & Hn1 & Hti1 & Hb1 & Hw1) & _ & _ & Hdb1).
  destruct conn as [[]|].
  2: { exists None, w1, []. unfold db_frame. simpl.
       repeat split; try done; try lia; congruence. }
  unfold bind.
  destruct (retry_loop_spec self q (S SimpleCache.max_retries) 0 w1)
    as (r & w' & evs & -> & Ht & Hc & Hw & Hl & (Hp & Hn & Hti & Hb & Hwf) & Hdb);
    [lia|lia|].
  simpl. exists r, w', evs. unfold db_frame.
  repeat split; try congruence; try lia; try done.
  destruct Hdb as [[-> _]|(t & Ht0 & -> & Hdb')]; [done|].
  exists t. repeat split; [|done].
  destruct Hdb1 as [[Hd _]|Hd]; rewrite Hd in Ht0; [by left|].
  right. congruence.
Qed.

(** [_execute_sql] on a healthy database. *)
Lemma _execute_sql_quiet (self : SimpleCache.t) (q : query) (w : world) :
  SimpleCache._monitor self = true →
  is_Some (SimpleCache._db_path self) →
  SimpleCache._exit self = false →
  w_abort w = [] → w_connfault w = [] → w_sqlfault w = [] →
  SimpleCache._execute_sql self q w =
    (Ret (Some (run_query q (default ∅ (w_db w))).1),
     log_event (EvSqlAttempt q)
       (set_db (Some (run_query q (default ∅ (w_db w))).2) w)).
Proof.
  intros Hm [p Hp] He Ha Hc Hs.
  destruct w as [props db now time busy abort winf connf sqlf trace].
  simpl in *. subst.
  unfold SimpleCache._execute_sql, SimpleCache._get_database.
  rewrite Hm, Hp. simpl.
  unfold try_except, bind. simpl.
  destruct db as [t|]; simpl; rewrite He; simpl;
    unfold execute; simpl; by destruct (run_query _ _).
Qed.

Lemma busy_trace_S (q : query) (n : nat) (tr : list event) :
  busy_trace q n ++ EvWait SimpleCache.retry_delay :: EvSqlAttempt q :: tr
  = busy_trace q (S n) ++ tr.
Proof.
  unfold busy_trace. induction n as [|n IH]; [done|].
  change (repeat ?x (S ?m)) with (x :: repeat x m).
  rewrite !concat_cons, <- !app_assoc. f_equal. rewrite IH.
  change (repeat ?x (S ?m)) with (x :: repeat x m).
  by rewrite concat_cons, <- app_assoc.
Qed.

(** [n] busy answers cost [n] rounds of the loop and nothing else. *)
Lemma retry_loop_busy (self : SimpleCache.t) (q : query) (n fuel retries : nat)
    (rest : list sql_fault) (w : world) :
  SimpleCache._exit self = false →
  w_abort w = [] →
  w_sqlfault w = repeat SqlLocked n ++ rest →
  (n + retries ≤ SimpleCache.max_retries)%nat →
  SimpleCache.retry_loop (n + fuel) self q retries w
  = SimpleCache.retry_loop fuel self q (n + retries) (after_busy q n rest w).
Proof.
  intros He. revert retries w.
  induction n as [|n IH]; intros retries w Ha Hs Hle.
  - destruct w; simpl in *; by subst.
  - destruct w as [props db now time busy abort winf connf sqlf trace].
    simpl in Ha, Hs. subst abort sqlf.
    change (S n + fuel)%nat with (S (n + fuel)).
    cbn [SimpleCache.retry_loop].
    destruct (Nat.ltb_spec retries SimpleCache.max_retries) as [_|?]; [|lia].
    rewrite He. unfold bind at 1. simpl.
    unfold bind, try_except, execute. simpl.
    replace (if SimpleCache._monitor self
             then waitForAbort SimpleCache.retry_delay
             else time_sleep SimpleCache.retry_delay)
      with (waitForAbort SimpleCache.retry_delay)
      by (by destruct (SimpleCache._monitor self)).
    simpl. unfold log_event, set_sqlfault. simpl.
    rewrite IH; [|done|done|lia].
    unfold after_busy. simpl. rewrite busy_trace_S.
    by replace (n + S retries)%nat with (S (n + retries)) by lia.
Qed.

Lemma count_attempts_busy (q : query) (n : nat) : count_attempts (busy_trace q n) = n.
Proof.
  unfold busy_trace. induction n as [|n IH]; [done|]. simpl. by rewrite IH.
Qed.

Lemma wait_delays_busy (q : query) (n : nat) :
  wait_delays (busy_trace q n) = repeat SimpleCache.retry_delay n.
Proof.
  unfold busy_trace. induction n as [|n IH]; [done|]. simpl. by rewrite IH.
Qed.

Lemma _execute_sql_connected (self : SimpleCache.t) (q : query) (w : world) :
  connects self w →
  SimpleCache._execute_sql self q w =
    bind (SimpleCache.retry_loop (S SimpleCache.max_retries) self q 0)
      (λ r, ret (default None r)) (set_db (Some (default ∅ (w_db w))) w).
Proof.
  intros (Hm & [p Hp] & He & Ha & Hc).
  destruct w as [props db now time busy abort winf connf sqlf trace].
  simpl in Ha, Hc. subst abort connf.
  unfold SimpleCache._execute_sql, SimpleCache._get_database.
  rewrite Hm, Hp. cbn [negb]. rewrite bool_decide_true by done. cbn [negb].
  unfold try_except, bind at 1. cbn [pop w_connfault].
  destruct db as [t|]; simpl w_db; cbv iota beta;
    unfold set_connfault, set_db; cbn [w_props w_db w_now w_time w_busy_tasks
      w_abort w_winfault w_connfault w_sqlfault w_trace default from_option];
    unfold id.
  all: unfold bind;
    match goal with
    | |- context [SimpleCache.retry_loop ?f ?s ?q0 0 ?w1] =>
        destruct (retry_loop_spec s q0 f 0 w1) as (r & w' & evs & -> & _);
          [unfold SimpleCache.max_retries; lia..|done]
    end.
Qed.

(** After [max_retries] busy answers the method gives up. *)
Lemma _execute_sql_gives_up (self : SimpleCache.t) (q : query)
    (rest : list sql_fault) (w : world) :
  connects self w →
  w_sqlfault w = repeat SqlLocked SimpleCache.max_retries ++ rest →
  SimpleCache._execute_sql self q w =
    (Ret None,
     after_busy q SimpleCache.max_retries rest (set_db (Some (default ∅ (w_db w))) w)).
Proof.
  intros Hc Hs. rewrite _execute_sql_connected by done.
  destruct Hc as (_ & _ & He & Ha & _). unfold bind.
  change (S SimpleCache.max_retries) with (SimpleCache.max_retries + 1)%nat.
  rewrite (retry_loop_busy self q SimpleCache.max_retries 1 0 rest) by done.
  done.
Qed.

(** After fewer busy answers the next answer decides: the statement runs,
    or a failure that is not contention ends the call without a result. *)
Lemma _execute_sql_after_busy (self : SimpleCache.t) (q : query) (n : nat)
    (f : sql_fault) (rest rest' : list sql_fault) (w : world) :
  connects self w →
  w_sqlfault w = repeat SqlLocked n ++ rest →
  (n < SimpleCache.max_retries)%nat →
  pop SqlOk rest = (f, rest') →
  f ≠ SqlLocked →
  let t := default ∅ (w_db w) in
  SimpleCache._execute_sql self q w =
    (Ret (match f with SqlOk => Some (run_query q t).1 | _ => None end),
     log_event (EvSqlAttempt q)
       (set_db (Some (match f with SqlOk => (run_query q t).2 | _ => t end))
          (after_busy q n rest' w))).
Proof.
  intros Hc Hs Hn Hpop Hf t. rewrite _execute_sql_connected by done.
  destruct Hc as (_ & _ & He & Ha & _). unfold bind at 1.
  assert (∃ k, S SimpleCache.max_retries = (n + S k)%nat) as [k ->]
    by (exists (SimpleCache.max_retries - n)%nat; lia).
  rewrite (retry_loop_busy self q n (S k) 0 rest) by (done || lia).
  cbn [SimpleCache.retry_loop].
  destruct (Nat.ltb_spec (n + 0) SimpleCache.max_retries); [|lia].
  rewrite He. destruct w as [props db now time busy abort winf connf sqlf trace].
  simpl in *. subst abort. subst t.
  unfold bind, try_except, execute. simpl. rewrite Hpop. simpl.
  destruct f; simpl; try done; by destruct (run_query _ _).
Qed.

End ExecuteSql.

Section BoundedRetry.
Context {py : PyLib}.

(** C7.  Whatever the host answers, a statement sent through
    [_execute_sql] raises nothing, its loop returns within [max_retries]
    = 10 rounds (more fuel than that is never used up), it is attempted
    at most 10 times and every wait between two attempts is [retry_delay].
    On a healthy connection, ten busy answers in a row end the call
    without a result after exactly ten attempts, the table as it was;
    after fewer busy answers the statement either runs or, on a failure
    that is not contention, is dropped without a result. *)
Theorem execute_sql_bounded_retry (self : SimpleCache.t) (q : query) (w : world) :
  (∀ fuel, (SimpleCache.max_retries < fuel)%nat →
     ∃ r w', SimpleCache.retry_loop fuel self q 0 w = (Ret (Some r), w'))
  ∧ (∃ r w' evs,
       SimpleCache._execute_sql self q w = (Ret r, w')
       ∧ w_trace w' = evs ++ w_trace w
       ∧ (count_attempts evs ≤ SimpleCache.max_retries)%nat
       ∧ Forall (λ ms, ms = SimpleCache.retry_delay) (wait_delays evs)
       ∧ (length (wait_delays evs) ≤ count_attempts evs)%nat)
  ∧ (∀ rest,
       connects self w →
       w_sqlfault w = repeat SqlLocked SimpleCache.max_retries ++ rest →
       ∃ w', SimpleCache._execute_sql self q w = (Ret None, w')
             ∧ w_trace w' = busy_trace q SimpleCache.max_retries ++ w_trace w
             ∧ count_attempts (busy_trace q SimpleCache.max_retries)
               = SimpleCache.max_retries
             ∧ w_sqlfault w' = rest
             ∧ w_db w' = Some (default ∅ (w_db w)))
  ∧ (∀ n f rest rest',
       connects self w →
       w_sqlfault w = repeat SqlLocked n ++ rest →
       (n < SimpleCache.max_retries)%nat →
       pop SqlOk rest = (f, rest') →
       f ≠ SqlLocked →
       ∃ w', SimpleCache._execute_sql self q w
             = (Ret (match f with
                     | SqlOk => Some (run_query q (default ∅ (w_db w))).1
                     | _ => None
                     end), w')
             ∧ w_trace w' = EvSqlAttempt q :: busy_trace q n ++ w_trace w
             ∧ w_db w' = Some (match f with
                               | SqlOk => (run_query q (default ∅ (w_db w))).2
                               | _ => default ∅ (w_db w)
                               end)).
Proof.
  repeat split.
  - intros fuel Hfuel.
    destruct (retry_loop_spec self q fuel 0 w) as (r & w' & _ & Hr & _); [lia..|].
    by exists r, w'.
  - destruct (_execute_sql_spec self q w)
      as (r & w' & evs & Hr & Ht & Hc & Hw & Hl & _).
    by exists r, w', evs.
  - intros rest Hc Hs. eexists. split; [by apply _execute_sql_gives_up|].
    repeat split.
  - intros n f rest rest' Hc Hs Hn Hpop Hf. eexists.
    split; [by eapply _execute_sql_after_busy|]. done.
Qed.

End BoundedRetry.

(** The give-up case of C7 on a concrete world: ten busy answers, then a
    healthy one that is never consumed. *)
Lemma execute_sql_bounded_retry_witness :
  let self := SimpleCache.Build_t true false None false true true (Some "/profile")
                "simplecache." in
  let w := Build_world ∅ (Some ∅) 0 0 [] [] [] []
             (repeat SqlLocked SimpleCache.max_retries ++ [SqlOk]) [] in
  connects self w
  ∧ ∃ w', SimpleCache._execute_sql self (QDelete "k") w = (Ret None, w')
          ∧ w_trace w' = busy_trace (QDelete "k") SimpleCache.max_retries ++ []
          ∧ count_attempts (busy_trace (QDelete "k") SimpleCache.max_retries)
            = SimpleCache.max_retries
          ∧ w_sqlfault w' = [SqlOk]
          ∧ w_db w' = Some ∅.
Proof.
  intros self w.
  assert (connects self w) as Hc by (repeat split; eauto).
  split; [exact Hc|].
  exact (proj1 (proj2 (proj2
           (execute_sql_bounded_retry self (QDelete "k") w)))
           [SqlOk] Hc eq_refl).
Defined.

(** ** The two tiers on any world *)

Section Tiers.
Context {py : PyLib}.

Lemma clearProperty_any (key : string) (w : world) :
  ∃ r w', clearProperty key w = (r, w') ∧ win_frame w w'
          ∧ w_trace w' = EvClearProp key :: w_trace w.
Proof.
  unfold clearProperty, win_call.
  destruct w as [props db now time busy abort winf connf sqlf trace]; simpl.
  destruct (pop false winf) as [[] rest]; simpl; eexists _, _; by repeat split.
Qed.

Lemma win_frame_refl w : win_frame w w.
Proof. by repeat split. Qed.

Lemma win_frame_trans a b c : win_frame a b → win_frame b c → win_frame a c.
Proof.
  unfold win_frame. intros (?&?&?&?&?&?&?) (?&?&?&?&?&?&?).
  repeat split; congruence.
Qed.

Lemma clear_handler (key : string) (w : world) :
  ∃ w' evs,
    bind (try_except (clearProperty key) (λ _, ret tt)) (λ _, ret PNone) w
    = (Ret PNone, w')
    ∧ win_frame w w' ∧ w_trace w' = evs ++ w_trace w ∧ count_attempts evs = 0%nat.
Proof.
  unfold bind, try_except.
  destruct (clearProperty_any key w) as ([[]|e] & w' & -> & Hf & Ht);
    exists w', [EvClearProp key]; split_and!; simpl; done.
Qed.

Lemma clear_branch (key : string) (w : world) :
  ∃ w' evs,
    try_except (bind (clearProperty key) (λ _, ret PNone))
      (λ _, bind (try_except (clearProperty key) (λ _, ret tt)) (λ _, ret PNone)) w
    = (Ret PNone, w')
    ∧ win_frame w w' ∧ w_trace w' = evs ++ w_trace w ∧ count_attempts evs = 0%nat.
Proof.
  unfold try_except at 1, bind at 1.
  destruct (clearProperty_any key w) as ([[]|e] & w1 & -> & Hf & Ht).
  - exists w1, [EvClearProp key]. by split_and!.
  - destruct (clear_handler key w1) as (w2 & evs & -> & Hf2 & Ht2 & Hc).
    exists w2, (evs ++ [EvClearProp key]). split_and!; try done.
    + by eapply win_frame_trans.
    + by rewrite Ht2, Ht, <- app_assoc.
    + rewrite count_attempts_app, Hc. done.
Qed.

Lemma _get_mem_cache_spec (self : SimpleCache.t) (k : string) (cs cur : Z)
    (jd : bool) (w : world) :
  ∃ v w' evs,
    SimpleCache._get_mem_cache self k cs cur jd w = (Ret v, w')
    ∧ win_frame w w'
    ∧ w_trace w' = evs ++ EvGetProp (SimpleCache._get_prop_key self k) :: w_trace w
    ∧ count_attempts evs = 0%nat
    ∧ (v ≠ PNone → json_mode self jd = true ∧ mem_hit self w k cs cur v
                   ∧ w_props w' = w_props w).
Proof.
  unfold SimpleCache._get_mem_cache, json_mode.
  set (key := SimpleCache._get_prop_key self k).
  unfold try_except at 1, bind at 1, getProperty, win_call.
  destruct w as [props db now time busy abort winf connf sqlf trace].
  cbn [w_winfault]. destruct (pop false winf) as [bad winf'].
  cbn -[SimpleCache.truthy].
  destruct bad.
  { eexists PNone, _, []. by split_and!. }
  cbn -[SimpleCache.truthy].
  destruct (SimpleCache.truthy (default "" (props !! key))) eqn:Htr.
  2: { eexists PNone, _, []. by split_and!. }
  destruct (jd || SimpleCache.data_is_json self) eqn:Hjd.
  2: { eexists PNone, _, []. by split_and!. }
  set (w1 := log_event _ _).
  assert (win_frame (Build_world props db now time busy abort winf connf sqlf trace) w1
          ∧ w_trace w1 = EvGetProp key :: trace ∧ w_props w1 = props) as (Hf1 & Ht1 & Hp1)
    by (by repeat split).
  assert (∃ s, props !! key = Some s ∧ default "" (props !! key) = s) as (s & Hs & ->).
  { destruct (props !! key) as [s|]; [by exists s|]. done. }
  clearbody w1.
  assert (∀ m, m = bind (clearProperty key) (λ _, ret PNone) →
    ∃ (v : pyval) (w' : world) (evs : list event),
    (let (r, w'0) := try_except m
         (λ _ : exn, bind (try_except (clearProperty key) (λ _ : exn, ret ()))
                       (λ _, ret PNone)) w1 in
     match r with
     | Ret a => (Ret a, w'0)
     | Raise _ => ret PNone w'0
     end) = (Ret v, w')
    ∧ win_frame (Build_world props db now time busy abort winf connf sqlf trace) w'
    ∧ w_trace w' = evs ++ EvGetProp key :: trace
    ∧ count_attempts evs = 0%nat
    ∧ (v ≠ PNone → true = true
         ∧ mem_hit self (Build_world props db now time busy abort winf connf sqlf trace)
             k cs cur v
         ∧ w_props w' = props)) as Hclear.
  { intros m ->.
    destruct (clear_branch key w1) as (w2 & evs & -> & Hf2 & Ht2 & Hc).
    exists PNone, w2, evs. split_and!; try done.
    - by eapply win_frame_trans.
    - by rewrite Ht2, Ht1. }
  destruct (json_loads s) as [x|e] eqn:Hx; [|by apply Hclear].
  destruct (seq_items x) as [[|c0 [|c1 [|c2 rest]]]|] eqn:Hitems;
    try (by apply Hclear).
  unfold try_except, bind, lift.
  destruct (py_gt_int c0 cur) as [[]|e] eqn:Hgt.
  - destruct ((cs =? 0) || py_eq_int cs c2) eqn:Hcs.
    + exists c1, w1, []. split_and!; try done.
      intros _. split_and!; try done.
      exists s, x, c0, c2, rest. split_and!; try done.
      apply orb_true_iff in Hcs as [Hz|Heq]; [left; lia|by right].
    + exists PNone, w1, []. by split_and!.
  - exists PNone, w1, []. by split_and!.
  - destruct (clear_handler key w1) as (w2 & evs & Hh & Hf2 & Ht2 & Hc).
    unfold bind, try_except in Hh. rewrite Hh.
    exists PNone, w2, evs. split_and!; try done.
    + by eapply win_frame_trans.
    + by rewrite Ht2, Ht1.
Qed.


Lemma _set_mem_cache_any (self : SimpleCache.t) (k : string) (c e : Z) (v : pyval)
    (jd : bool) (w : world) :
  ∃ w' evs, SimpleCache._set_mem_cache self k c e v jd w = (Ret tt, w')
    ∧ win_frame w w' ∧ w_trace w' = evs ++ w_trace w ∧ count_attempts evs = 0%nat.
Proof.
  unfold SimpleCache._set_mem_cache, try_except, bind.
  destruct (if jd || SimpleCache.data_is_json self then _ else _) as [[s|err] w1] eqn:Hs.
  - assert (w1 = w) as ->.
    { destruct (jd || _); [unfold lift in Hs|unfold ret in Hs]; congruence. }
    unfold setProperty, win_call.
    destruct w as [props db now time busy abort winf connf sqlf trace]; simpl.
    destruct (pop false winf) as [[] rest]; simpl;
      eexists _, [EvSetProp _ _]; by split_and!.
  - assert (w1 = w) as ->.
    { destruct (jd || _); [unfold lift in Hs|unfold ret in Hs]; congruence. }
    exists w, []. by split_and!.
Qed.

Lemma grows_log ev w : grows w (log_event ev w).
Proof. by exists [ev]. Qed.

Lemma respects_grows_win_call {A} ev (body : world → A * world) :
  (∀ w, w_trace (body w).2 = w_trace w) → respects grows (win_call ev body).
Proof.
  intros Hb w. unfold win_call.
  destruct (pop false (w_winfault w)) as [[] rest]; simpl.
  - by exists [ev].
  - specialize (Hb (log_event ev (set_winfault rest w))).
    destruct (body _) as [a w2]; simpl in *. exists [ev]. by rewrite Hb.
Qed.

Lemma respects_grows_getProperty k : respects grows (getProperty k).
Proof. by apply respects_grows_win_call. Qed.

Lemma respects_grows_setProperty k v : respects grows (setProperty k v).
Proof. by apply respects_grows_win_call. Qed.

Lemma respects_grows_clearProperty k : respects grows (clearProperty k).
Proof. by apply respects_grows_win_call. Qed.

Lemma respects_grows_abortRequested : respects grows abortRequested.
Proof. intros w. unfold abortRequested. destruct (pop _ _). by exists []. Qed.

Lemma respects_grows_add_task n : respects grows (SimpleCache.add_task n).
Proof. intros w. by exists []. Qed.

Lemma respects_grows_drop_task n : respects grows (SimpleCache.drop_task n).
Proof. intros w. by exists []. Qed.

Lemma respects_grows_execute_sql self q : respects grows (SimpleCache._execute_sql self q).
Proof.
  intros w. destruct (_execute_sql_spec self q w) as (r & w' & evs & -> & Ht & _).
  by exists evs.
Qed.

Ltac grows_tac :=
  repeat first
    [ apply respects_grows_getProperty | apply respects_grows_setProperty
    | apply respects_grows_clearProperty | apply respects_grows_abortRequested
    | apply respects_grows_add_task | apply respects_grows_drop_task
    | apply respects_grows_execute_sql
    | apply (respects_ret grows grows_refl)
    | apply (respects_raise grows grows_refl)
    | apply (respects_lift grows grows_refl)
    | apply (respects_gets grows grows_refl)
    | apply (respects_bind grows grows_trans)
    | apply (respects_try_except grows grows_trans)
    | apply (respects_try_finally grows grows_trans)
    | apply respects_if
    | match goal with
      | |- respects _ (match ?x with _ => _ end) => destruct x
      end
    | intro ].

Lemma respects_grows_delete self k : respects grows (SimpleCache.delete self k).
Proof. unfold SimpleCache.delete. grows_tac. Qed.

Lemma respects_grows_set_mem_cache self k c e v jd :
  respects grows (SimpleCache._set_mem_cache self k c e v jd).
Proof. unfold SimpleCache._set_mem_cache. grows_tac. Qed.


Lemma respects_grows_get_db_cache self k cs cur jd :
  respects grows (SimpleCache._get_db_cache self k cs cur jd).
Proof.
  unfold SimpleCache._get_db_cache. grows_tac;
    first [apply respects_grows_set_mem_cache | apply respects_grows_delete].
Qed.

Lemma _get_db_cache_spec (self : SimpleCache.t) (k : string) (cs cur : Z)
    (jd : bool) (w : world) :
  ∃ v w',
    SimpleCache._get_db_cache self k cs cur jd w = (Ret v, w')
    ∧ (v ≠ PNone → json_mode self jd = true ∧ db_hit w k cs cur v).
Proof.
  unfold SimpleCache._get_db_cache, json_mode.
  destruct (bool_decide _); cbn [negb]; [|by exists PNone, w].
  unfold try_except at 1, bind at 1.
  destruct (_execute_sql_spec self (QSelectOne k) w)
    as (r & w1 & evs & -> & _ & _ & _ & _ & _ & Hr).
  destruct r as [[[cache_data|]| |]|]; try (by exists PNone, w1).
  destruct Hr as (t & Ht & Hc & _). simpl in Hc. injection Hc as Hrow.
  assert (w_db w = Some t) as Hdb.
  { destruct Ht as [?| ->]; [done|]. by rewrite lookup_empty in Hrow. }
  destruct ((cur <? r_expires cache_data) && _) eqn:Hgate;
    [|by exists PNone, w1].
  apply andb_true_iff in Hgate as [Hexp Hcs].
  destruct (jd || SimpleCache.data_is_json self) eqn:Hjd.
  2: { unfold try_except, ret. by exists PNone, w1. }
  unfold try_except, bind, lift.
  destruct (json_loads (r_data cache_data)) as [result|e] eqn:Hl.
  - destruct (_ && _).
    + destruct (_set_mem_cache_any self k (r_checksum cache_data)
                  (r_expires cache_data) result jd w1) as (w2 & ? & -> & _).
      exists result, w2. split; [done|]. intros _. split; [done|].
      exists t, cache_data. split_and!; try done; [lia|].
      apply orb_true_iff in Hcs as [?|?]; [left|right]; lia.
    + exists result, w1. split; [done|]. intros _. split; [done|].
      exists t, cache_data. split_and!; try done; [lia|].
      apply orb_true_iff in Hcs as [?|?]; [left|right]; lia.
  - destruct (SimpleCache.delete self k w1) as [[[]|e'] w2]; by exists PNone, w2.
Qed.

End Tiers.

(** ** [get] and [set] *)

Section GetSet.
Context {py : PyLib}.

Lemma is_none_true (v : pyval) : is_none v = true ↔ v = PNone.
Proof. by destruct v. Qed.

Lemma is_none_false (v : pyval) : is_none v = false ↔ v ≠ PNone.
Proof. by destruct v. Qed.

(** [get] on any world: it raises nothing, and what it returns other than
    [None] is the payload of an entry of one of the tiers that passes the
    gate. *)
Lemma get_spec (self : SimpleCache.t) (k cs : string) (jd : bool) (w : world) :
  ∃ v w',
    SimpleCache.get self k cs jd w = (Ret v, w')
    ∧ (v ≠ PNone →
       SimpleCache._win self = true ∧ json_mode self jd = true
       ∧ let c := SimpleCache._get_checksum self cs in
         let cur := timestamp_of w (w_now w) in
         (SimpleCache.enable_mem_cache self = true ∧ mem_hit self w k c cur v)
         ∨ db_hit w k c cur v).
Proof.
  unfold SimpleCache.get.
  destruct (SimpleCache._win self) eqn:Hwin; cbn [negb]; [|by exists PNone, w].
  unfold bind at 1, gets. unfold bind at 1. rewrite _get_timestamp_eq.
  unfold bind.
  set (c := SimpleCache._get_checksum self cs).
  set (cur := timestamp_of w (w_now w)).
  destruct (SimpleCache.enable_mem_cache self) eqn:Hmem; cbn [andb].
  - destruct (_get_mem_cache_spec self k c cur jd w)
      as (v & w1 & evs & -> & Hf & _ & _ & Hv).
    destruct (is_none v) eqn:Hn.
    + destruct (_get_db_cache_spec self k c cur jd w1) as (v' & w2 & -> & Hv').
      exists v', w2. split; [done|]. intros Hne.
      destruct (Hv' Hne) as (Hj & t & r & Hdb & Hrest).
      split_and!; try done. right. exists t, r. split; [|done].
      destruct Hf as (Hd & _). congruence.
    + apply is_none_false in Hn. exists v, w1. split; [done|]. intros _.
      destruct (Hv Hn) as (Hj & Hhit & _). split_and!; try done. by left.
  - unfold ret at 1. cbn [is_none].
    destruct (_get_db_cache_spec self k c cur jd w) as (v' & w2 & -> & Hv').
    exists v', w2. split; [done|]. intros Hne.
    destruct (Hv' Hne) as (Hj & Hhit). split_and!; try done. by right.
Qed.


Lemma _set_mem_cache_quiet (self : SimpleCache.t) (k : string) (c e : Z)
    (v : pyval) (jd : bool) (w : world) :
  w_winfault w = [] →
  SimpleCache._set_mem_cache self k c e v jd w =
    match mem_text self jd e v c with
    | Ret s =>
        (Ret tt,
         set_props (<[SimpleCache._get_prop_key self k := s]> (w_props w))
           (log_event (EvSetProp (SimpleCache._get_prop_key self k) s) w))
    | Raise _ => (Ret tt, w)
    end.
Proof.
  intros Hw. destruct w as [props db now time busy abort winf connf sqlf trace].
  simpl in Hw. subst winf.
  unfold SimpleCache._set_mem_cache, mem_text, json_mode, try_except, bind.
  destruct (jd || SimpleCache.data_is_json self); [|done].
  unfold lift. by destruct (json_dumps _).
Qed.

Lemma _get_mem_cache_quiet (self : SimpleCache.t) (k : string) (cs cur : Z)
    (jd : bool) (w : world) :
  w_winfault w = [] →
  let key := SimpleCache._get_prop_key self k in
  let s := default "" (w_props w !! key) in
  SimpleCache._get_mem_cache self k cs cur jd w =
    if SimpleCache.truthy s && json_mode self jd then
      match json_loads s with
      | Ret x =>
          match seq_items x with
          | Some (c0 :: c1 :: c2 :: _) =>
              match py_gt_int c0 cur with
              | Ret fresh =>
                  (Ret (if fresh && ((cs =? 0) || py_eq_int cs c2) then c1 else PNone),
                   log_event (EvGetProp key) w)
              | Raise _ => (Ret PNone, cleared key w)
              end
          | _ => (Ret PNone, cleared key w)
          end
      | Raise _ => (Ret PNone, cleared key w)
      end
    else (Ret PNone, log_event (EvGetProp key) w).
Proof.
  intros Hw key s. destruct w as [props db now time busy abort winf connf sqlf trace].
  simpl in Hw. subst winf. subst s. simpl w_props.
  unfold SimpleCache._get_mem_cache, json_mode. fold key.
  unfold try_except at 1, bind at 1. cbn -[SimpleCache.truthy].
  destruct (SimpleCache.truthy _); cbn [andb]; [|done].
  destruct (jd || SimpleCache.data_is_json self); [|done].
  unfold try_except, bind.
  destruct (json_loads _) as [x|]; [|done].
  destruct (seq_items x) as [[|c0 [|c1 [|c2 rest]]]|]; try done.
  unfold lift. destruct (py_gt_int c0 cur) as [[]|]; try done.
  cbn [andb]. by destruct (_ || _).
Qed.

Lemma _execute_sql_healthy (self : SimpleCache.t) (q : query) (w : world) :
  connects self w → w_sqlfault w = [] →
  SimpleCache._execute_sql self q w =
    (Ret (Some (run_query q (default ∅ (w_db w))).1),
     log_event (EvSqlAttempt q)
       (set_db (Some (run_query q (default ∅ (w_db w))).2) w)).
Proof.
  intros (Hm & Hp & He & Ha & Hc) Hs. by apply _execute_sql_quiet.
Qed.

Lemma _set_db_cache_quiet (self : SimpleCache.t) (k : string) (c e : Z)
    (v : pyval) (jd : bool) (w : world) :
  connects self w → w_sqlfault w = [] →
  SimpleCache._set_db_cache self k c e v jd w =
    match db_text self jd v with
    | Ret s =>
        (Ret tt,
         log_event (EvSqlAttempt (QUpsert k e s c))
           (set_db (Some (<[k := {| r_expires := e; r_data := s; r_checksum := c |}]>
                            (default ∅ (w_db w)))) w))
    | Raise _ => (Ret tt, w)
    end.
Proof.
  intros Hc Hs. unfold SimpleCache._set_db_cache, db_text, json_mode.
  rewrite bool_decide_true by apply Hc. cbn [negb].
  unfold try_except, bind.
  destruct (jd || SimpleCache.data_is_json self).
  - unfold lift. destruct (json_dumps v) as [s|]; [|done].
    by rewrite _execute_sql_healthy.
  - unfold ret at 1. by rewrite _execute_sql_healthy.
Qed.

Lemma _get_db_cache_quiet (self : SimpleCache.t) (k : string) (cs cur : Z)
    (jd : bool) (w : world) :
  connects self w → w_sqlfault w = [] →
  let w1 := log_event (EvSqlAttempt (QSelectOne k))
              (set_db (Some (default ∅ (w_db w))) w) in
  SimpleCache._get_db_cache self k cs cur jd w =
    match default ∅ (w_db w) !! k with
    | Some r =>
        if gate cs cur (r_expires r) (r_checksum r) && json_mode self jd then
          match json_loads (r_data r) with
          | Ret v =>
              (Ret v,
               if SimpleCache.enable_mem_cache self && SimpleCache._win self
               then (SimpleCache._set_mem_cache self k (r_checksum r) (r_expires r)
                       v jd w1).2
               else w1)
          | Raise _ => (Ret PNone, (SimpleCache.delete self k w1).2)
          end
        else (Ret PNone, w1)
    | None => (Ret PNone, w1)
    end.
Proof.
  intros Hc Hs w1. unfold SimpleCache._get_db_cache, json_mode, gate.
  rewrite bool_decide_true by apply Hc. cbn [negb].
  unfold try_except at 1, bind at 1. rewrite _execute_sql_healthy by done.
  cbn [run_query fst snd]. fold w1.
  destruct (default ∅ (w_db w) !! k) as [r|]; [|done].
  destruct ((cur <? r_expires r) && _); cbn [andb]; [|done].
  destruct (jd || SimpleCache.data_is_json self).
  2: { by unfold try_except, ret. }
  unfold try_except, bind, lift.
  destruct (json_loads (r_data r)) as [v|].
  - destruct (_ && _).
    + destruct (_set_mem_cache_any self k (r_checksum r) (r_expires r) v jd w1)
        as (w2 & ? & -> & _). done.
    + done.
  - destruct (SimpleCache.delete self k w1) as [[[]|] w2]; done.
Qed.


Lemma initialized_connects (self : SimpleCache.t) (w : world) :
  initialized self → is_Some (SimpleCache._db_path self) → quiet w → connects self w.
Proof. intros (?&?&?) ? (?&?&?&?). by split_and!. Qed.

(** [set] on a quiet world. *)
Lemma set_quiet (self : SimpleCache.t) (k : string) (v : pyval) (cs : string)
    (d : Z) (jd : bool) (w : world) (dt : Z) :
  initialized self → quiet w →
  datetime_add (w_now w) d = Ret dt →
  let e := timestamp_of w dt in
  let c := SimpleCache._get_checksum self cs in
  ∃ w',
    SimpleCache.set self k v cs d jd w = (Ret tt, w')
    ∧ quiet w' ∧ w_now w' = w_now w ∧ w_time w' = w_time w
    ∧ w_props w' =
        (if SimpleCache.enable_mem_cache self then
           match mem_text self jd e v c with
           | Ret s => <[SimpleCache._get_prop_key self k := s]> (w_props w)
           | Raise _ => w_props w
           end
         else w_props w)
    ∧ w_db w' =
        (if bool_decide (is_Some (SimpleCache._db_path self)) then
           match db_text self jd v with
           | Ret s => Some (<[k := {| r_expires := e; r_data := s; r_checksum := c |}]>
                              (default ∅ (w_db w)))
           | Raise _ => w_db w
           end
         else w_db w).
Proof.
  intros (Hwin & Hmon & Hexit) (Ha & Hw & Hc & Hs) Hdt e c.
  unfold SimpleCache.set. rewrite Hwin, Hexit. cbn [negb andb].
  rewrite !andb_true_r.
  unfold bind at 1, SimpleCache.add_task, modify, try_finally.
  unfold bind at 1, gets. cbn [w_now set_busy_tasks].
  unfold bind at 1, lift. rewrite Hdt.
  unfold bind at 1. rewrite _get_timestamp_eq.
  change (timestamp_of _ dt) with e. fold c.
  unfold bind.
  destruct (SimpleCache.enable_mem_cache self).
  - rewrite _set_mem_cache_quiet by done. cbn [w_props set_busy_tasks].
    destruct (mem_text self jd e v c) as [s|].
    + case_bool_decide as Hp.
      * rewrite _set_db_cache_quiet by (unfold connects; simpl; split_and?; done).
        destruct (db_text self jd v) as [sd|]; eexists; unfold quiet; simpl; split_and?; done.
      * eexists; unfold quiet; simpl; split_and?; done.
    + case_bool_decide as Hp.
      * rewrite _set_db_cache_quiet by (unfold connects; simpl; split_and?; done).
        destruct (db_text self jd v) as [sd|]; eexists; unfold quiet; simpl; split_and?; done.
      * eexists; unfold quiet; simpl; split_and?; done.
  - unfold ret at 1. case_bool_decide as Hp.
    + rewrite _set_db_cache_quiet by (unfold connects; simpl; split_and?; done).
      destruct (db_text self jd v) as [sd|]; eexists; unfold quiet; simpl; split_and?; done.
    + eexists; unfold quiet; simpl; split_and?; done.
Qed.


Lemma timestamp_of_ext (w w' : world) (x : Z) :
  w_time w' = w_time w → timestamp_of w' x = timestamp_of w x.
Proof. intros Ht. unfold timestamp_of, int_time. by rewrite Ht. Qed.

Lemma loads_nonempty (s : string) (x : pyval) : json_loads s = Ret x → s ≠ "".
Proof. intros Hl ->. destruct json_loads_empty as [e He]. congruence. Qed.

Lemma truthy_true (s : string) : s ≠ "" → SimpleCache.truthy s = true.
Proof. intros. unfold SimpleCache.truthy. by rewrite bool_decide_true. Qed.

(** The value [_get_db_cache] returns on a healthy database. *)
Lemma _get_db_cache_value (self : SimpleCache.t) (k : string) (cs cur : Z)
    (w : world) (t : gmap string row) (r : row) (v : pyval) :
  connects self w → w_sqlfault w = [] →
  w_db w = Some t → t !! k = Some r →
  json_loads (r_data r) = Ret v →
  (SimpleCache._get_db_cache self k cs cur true w).1
  = Ret (if gate cs cur (r_expires r) (r_checksum r) then v else PNone).
Proof.
  intros Hc Hs Hdb Hk Hl. rewrite _get_db_cache_quiet by done.
  rewrite Hdb. cbn [default from_option]. unfold id. rewrite Hk.
  unfold json_mode. cbn [orb]. rewrite andb_true_r.
  destruct (gate _ _ _ _); [|done]. by rewrite Hl.
Qed.

Lemma _get_db_cache_no_path (self : SimpleCache.t) (k : string) (cs cur : Z)
    (jd : bool) (w : world) :
  SimpleCache._db_path self = None →
  SimpleCache._get_db_cache self k cs cur jd w = (Ret PNone, w).
Proof.
  intros Hp. unfold SimpleCache._get_db_cache. rewrite Hp.
  rewrite bool_decide_false; [done|]. by intros [? ?].
Qed.

(** The round trip behind C1 and C2. *)
Lemma set_then_get (self : SimpleCache.t) (k : string) (v : pyval)
    (csA csB : string) (d : Z) (w : world) (dt : Z) :
  initialized self → quiet w →
  datetime_add (w_now w) d = Ret dt →
  let e := timestamp_of w dt in
  let cur := timestamp_of w (w_now w) in
  let cA := SimpleCache._get_checksum self csA in
  let cB := SimpleCache._get_checksum self csB in
  cur < e →
  SimpleCache.enable_mem_cache self = true ∨ is_Some (SimpleCache._db_path self) →
  (SimpleCache.enable_mem_cache self = true →
   ∃ s, json_dumps (PTuple [PInt e; v; PInt cA]) = Ret s
        ∧ json_loads s = Ret (PList [PInt e; v; PInt cA])) →
  (is_Some (SimpleCache._db_path self) →
   ∃ s, json_dumps v = Ret s ∧ json_loads s = Ret v) →
  (SimpleCache.get self k csB true (SimpleCache.set self k v csA d true w).2).1
  = Ret (if (cB =? 0) || (cA =? cB) then v else PNone).
Proof.
  intros Hi Hq Hdt e cur cA cB Hlt Htier Hmem Hdb.
  destruct (set_quiet self k v csA d true w dt Hi Hq Hdt)
    as (w' & -> & Hq' & Hnow & Htime & Hprops & Hdb').
  fold e cA in Hprops, Hdb'. cbn [snd].
  assert (Hi' := Hi). destruct Hi' as (Hwin & Hmon & Hexit).
  assert (Hq'' := Hq'). destruct Hq'' as (Ha' & Hw' & Hc' & Hs').
  unfold SimpleCache.get. rewrite Hwin. cbn [negb andb].
  unfold bind at 1, gets. unfold bind at 1. rewrite _get_timestamp_eq.
  rewrite Hnow, (timestamp_of_ext w w') by done. fold cur cB.
  rewrite andb_true_r. unfold bind.
  assert (Hgt : (cur <? e) = true) by lia.
  assert (Hdbval : is_Some (SimpleCache._db_path self) →
            ∀ w1, connects self w1 → w_sqlfault w1 = [] → w_db w1 = w_db w' →
              (SimpleCache._get_db_cache self k cB cur true w1).1
              = Ret (if (cB =? 0) || (cA =? cB) then v else PNone)).
  { intros Hp w1 Hc1 Hs1 Hd1. destruct (Hdb Hp) as (sd & Hsd & Hld).
    rewrite bool_decide_true in Hdb' by done.
    unfold db_text, json_mode in Hdb'. cbn [orb] in Hdb'. rewrite Hsd in Hdb'.
    erewrite _get_db_cache_value; [|done|done|by rewrite Hd1, Hdb'
                                    |apply lookup_insert_eq|done].
    unfold gate. cbn [r_expires r_checksum]. by rewrite Hgt. }
  destruct (SimpleCache.enable_mem_cache self) eqn:Hen.
  - destruct (Hmem eq_refl) as (sm & Hsm & Hlm).
    unfold mem_text, json_mode in Hprops. cbn [orb] in Hprops. rewrite Hsm in Hprops.
    rewrite _get_mem_cache_quiet by done.
    rewrite Hprops, lookup_insert_eq. cbn [default from_option]. unfold id.
    rewrite (truthy_true sm) by (by eapply loads_nonempty).
    unfold json_mode. cbn [orb andb]. rewrite Hlm.
    cbn [seq_items py_gt_int py_eq_int]. rewrite Hgt. cbn [andb].
    rewrite (Z.eqb_sym cB cA).
    destruct ((cB =? 0) || (cA =? cB)) eqn:Hg.
    + destruct (is_none v) eqn:Hn; [|done].
      apply is_none_true in Hn. subst v.
      destruct (SimpleCache._db_path self) as [p|] eqn:Hp.
      * rewrite Hdbval; [done|by eexists| |done|done].
        unfold connects. simpl. split_and?; eauto.
      * by rewrite _get_db_cache_no_path.
    + cbn [is_none].
      destruct (SimpleCache._db_path self) as [p|] eqn:Hp.
      * rewrite Hdbval; [done|by eexists| |done|done].
        unfold connects. simpl. split_and?; eauto.
      * by rewrite _get_db_cache_no_path.
  - unfold ret at 1. cbn [is_none].
    destruct Htier as [?|Hp]; [done|].
    rewrite Hdbval; [done|done| |done|done].
    unfold connects. split_and?; eauto.
Qed.

End GetSet.

(** ** Round trip (C1) *)

Section RoundTrip.
Context {py : PyLib}.

Lemma timetuple_later (now d : Z) : usec ≤ d → timetuple now < timetuple (now + d).
Proof.
  unfold timetuple, usec. intros Hd.
  assert (now `div` 1000000 + 1 = (now + 1000000) `div` 1000000) as Hs.
  { replace (now + 1000000) with (now + 1 * 1000000) by lia.
    by rewrite Z.div_add. }
  assert ((now + 1000000) `div` 1000000 ≤ (now + d) `div` 1000000)
    by (apply Z.div_le_mono; lia).
  lia.
Qed.

(** An expiration of at least one whole second is enough when [mktime]
    takes both instants and keeps the whole seconds elapsed between them
    (no overflow, no change of the UTC offset in between). *)
Lemma whole_second_suffices (w : world) (d dt cur : Z) :
  usec ≤ d →
  datetime_add (w_now w) d = Ret dt →
  mktime (timetuple (w_now w)) = Ret cur →
  mktime (timetuple dt) = Ret (cur + (timetuple dt - timetuple (w_now w))) →
  timestamp_of w (w_now w) < timestamp_of w dt.
Proof.
  intros Hd Hdt Hcur He. unfold timestamp_of. rewrite Hcur, He.
  assert (dt = w_now w + d) as ->.
  { unfold datetime_add in Hdt. destruct (_ && _); congruence. }
  pose proof (timetuple_later (w_now w) d Hd). lia.
Qed.

(** C1, as amended.  On an initialized cache that is not shutting down,
    with at least one usable tier (the local tier enabled, or a database
    path configured) and a host that does not fail, for every key [k],
    every payload [v] that survives [json.dumps]/[json.loads], and every
    expiration [d] for which [now + d] is a [datetime] whose timestamp
    lies strictly after the timestamp of [now]: [set(k, v, expiration=d)]
    returns normally and an immediate [get(k)] returns [v].  The
    timestamps are those [_get_timestamp] computes, whole seconds of
    [mktime] or, when [mktime] fails, of the clock. *)
Theorem set_then_get_returns_payload (self : SimpleCache.t) (k : string)
    (v : pyval) (d : Z) (w : world) (dt : Z) :
  initialized self → quiet w →
  SimpleCache.enable_mem_cache self = true ∨ is_Some (SimpleCache._db_path self) →
  datetime_add (w_now w) d = Ret dt →
  let cur := timestamp_of w (w_now w) in
  let e := timestamp_of w dt in
  let c := SimpleCache._get_checksum self "" in
  cur < e →
  (SimpleCache.enable_mem_cache self = true →
   ∃ s, json_dumps (PTuple [PInt e; v; PInt c]) = Ret s
        ∧ json_loads s = Ret (PList [PInt e; v; PInt c])) →
  (is_Some (SimpleCache._db_path self) →
   ∃ s, json_dumps v = Ret s ∧ json_loads s = Ret v) →
  (SimpleCache.set self k v "" d true w).1 = Ret tt
  ∧ (SimpleCache.get self k "" true (SimpleCache.set self k v "" d true w).2).1
    = Ret v.
Proof.
  intros Hi Hq Htier Hdt cur e c Hlt Hmem Hdb.
  split.
  - destruct (set_quiet self k v "" d true w dt Hi Hq Hdt) as (w' & -> & _). done.
  - rewrite (set_then_get self k v "" "" d w dt); try done.
    by rewrite Z.eqb_refl, orb_true_r.
Qed.

End RoundTrip.

(** The end-to-end scenario of the specification as an instance of C1:
    [set("q1", {"title": "Show A"}, expiration=2h)] and then [get("q1")]. *)
Lemma set_then_get_returns_payload_witness :
  let self := SimpleCache.Build_t true false None false true true (Some "/profile")
                "simplecache." in
  let w := Build_world ∅ None 1793811240500000 1793811240500000 [] [] [] [] [] [] in
  let v := PDict [("title", PStr "Show A")] in
  (SimpleCache.set (py := Ref.lib) self "q1" v "" (7200 * usec) true w).1 = Ret tt
  ∧ (SimpleCache.get (py := Ref.lib) self "q1" "" true
       (SimpleCache.set (py := Ref.lib) self "q1" v "" (7200 * usec) true w).2).1
    = Ret v.
Proof.
  intros self w v.
  apply (set_then_get_returns_payload (py := Ref.lib) self "q1" v (7200 * usec) w
           (1793811240500000 + 7200 * usec)).
  - by split_and!.
  - by split_and!.
  - by left.
  - reflexivity.
  - vm_compute. reflexivity.
  - intros _. eexists. split; [vm_compute; reflexivity|reflexivity].
  - intros _. eexists. split; [vm_compute; reflexivity|reflexivity].
Defined.

(** C1, as stated, fails for an expiration below one second: timestamps
    are whole seconds and the gate is strict, so the entry written with
    [expiration = 0.4 s] at 16:54:00.5 is already stale when it is read at
    the same instant. *)
Lemma subsecond_expiration_counterexample :
  let self := SimpleCache.Build_t true false None false true true (Some "/profile")
                "simplecache." in
  let w := Build_world ∅ None 1793811240500000 1793811240500000 [] [] [] [] [] [] in
  let d := 400000 in
  0 < d
  ∧ (SimpleCache.set (py := Ref.lib) self "k" (PInt 1) "" d true w).1 = Ret tt
  ∧ (SimpleCache.get (py := Ref.lib) self "k" "" true
       (SimpleCache.set (py := Ref.lib) self "k" (PInt 1) "" d true w).2).1
    = Ret absent
  ∧ PInt 1 ≠ absent.
Proof. split_and!; [done|by vm_compute|by vm_compute|done]. Qed.

(** ** The validity gate (C2) *)

Section Gate.
Context {py : PyLib}.

(** The gate of the local tier on an entry as [set] writes it. *)
Lemma _get_mem_cache_gate (self : SimpleCache.t) (k : string) (cs cur : Z)
    (w : world) (s : string) (e c : Z) (v : pyval) :
  w_winfault w = [] →
  w_props w !! SimpleCache._get_prop_key self k = Some s →
  json_loads s = Ret (PList [PInt e; v; PInt c]) →
  (SimpleCache._get_mem_cache self k cs cur true w).1
  = Ret (if gate cs cur e c then v else absent).
Proof.
  intros Hw Hs Hl. rewrite _get_mem_cache_quiet by done.
  rewrite Hs. cbn [default from_option]. unfold id.
  rewrite (truthy_true s) by (by eapply loads_nonempty).
  unfold json_mode. cbn [orb andb]. rewrite Hl.
  cbn [seq_items py_gt_int py_eq_int fst]. unfold gate.
  by rewrite (Z.eqb_sym cs c).
Qed.

(** C2, as amended.  Whatever [get] returns other than absent is the
    payload of an entry whose expiry lies strictly after the read time and
    whose checksum is the requested one, unless none is requested (the
    requested checksum is the integer 0).  Both tiers apply the same gate
    [gate]: on an entry [(e, v, c)] each returns [v] when the gate passes
    and absent otherwise.  After [set(k, v, checksum=A)], [get(k,
    checksum=B)] returns [v] when the integer checksum of [B] is 0 or
    equals that of [A], and absent otherwise; in particular
    [get(k, checksum=A)] returns [v]. *)
Theorem checksum_gate (self : SimpleCache.t) (k : string) (w : world) :
  (∀ cs jd v w',
     SimpleCache.get self k cs jd w = (Ret v, w') → v ≠ absent →
     let c := SimpleCache._get_checksum self cs in
     let cur := timestamp_of w (w_now w) in
     (SimpleCache.enable_mem_cache self = true ∧ mem_hit self w k c cur v)
     ∨ db_hit w k c cur v)
  ∧ (∀ cs cur s e c v,
       w_winfault w = [] →
       w_props w !! SimpleCache._get_prop_key self k = Some s →
       json_loads s = Ret (PList [PInt e; v; PInt c]) →
       (SimpleCache._get_mem_cache self k cs cur true w).1
       = Ret (if gate cs cur e c then v else absent))
  ∧ (∀ cs cur t r v,
       connects self w → w_sqlfault w = [] →
       w_db w = Some t → t !! k = Some r →
       json_loads (r_data r) = Ret v →
       (SimpleCache._get_db_cache self k cs cur true w).1
       = Ret (if gate cs cur (r_expires r) (r_checksum r) then v else absent))
  ∧ (∀ v csA csB d dt,
       initialized self → quiet w →
       SimpleCache.enable_mem_cache self = true
       ∨ is_Some (SimpleCache._db_path self) →
       datetime_add (w_now w) d = Ret dt →
       let e := timestamp_of w dt in
       let cA := SimpleCache._get_checksum self csA in
       let cB := SimpleCache._get_checksum self csB in
       timestamp_of w (w_now w) < e →
       (SimpleCache.enable_mem_cache self = true →
        ∃ s, json_dumps (PTuple [PInt e; v; PInt cA]) = Ret s
             ∧ json_loads s = Ret (PList [PInt e; v; PInt cA])) →
       (is_Some (SimpleCache._db_path self) →
        ∃ s, json_dumps v = Ret s ∧ json_loads s = Ret v) →
       let w1 := (SimpleCache.set self k v csA d true w).2 in
       (SimpleCache.get self k csA true w1).1 = Ret v
       ∧ (cB ≠ 0 → cA ≠ cB → (SimpleCache.get self k csB true w1).1 = Ret absent)
       ∧ (cB = 0 ∨ cA = cB → (SimpleCache.get self k csB true w1).1 = Ret v)).
Proof.
  split_and!.
  - intros cs jd v w' Hget Hv c cur.
    destruct (get_spec self k cs jd w) as (v0 & w0 & Hget0 & Hsound).
    rewrite Hget in Hget0. injection Hget0 as <- <-.
    by destruct (Hsound Hv) as (_ & _ & Hhit).
  - intros. by eapply _get_mem_cache_gate.
  - intros. by eapply _get_db_cache_value.
  - intros v csA csB d dt Hi Hq Htier Hdt e cA cB Hlt Hmem Hdb w1. subst w1.
    split_and!.
    + rewrite (set_then_get self k v csA csA d w dt); try done.
      by rewrite Z.eqb_refl, orb_true_r.
    + intros Hz Hne. rewrite (set_then_get self k v csA csB d w dt); try done.
      fold cA cB. destruct (Z.eqb_spec cB 0); [done|].
      by destruct (Z.eqb_spec cA cB).
    + intros Hok. rewrite (set_then_get self k v csA csB d w dt); try done.
      fold cA cB. destruct Hok as [-> | ->]; [done|].
      by rewrite Z.eqb_refl, orb_true_r.
Qed.

End Gate.

(** The checksum scenario of the specification, with the strings "A" and
    "B", as an instance of C2. *)
Lemma checksum_gate_witness :
  let self := SimpleCache.Build_t true false None false true true (Some "/profile")
                "simplecache." in
  let w := Build_world ∅ None 1793811240500000 1793811240500000 [] [] [] [] [] [] in
  let w1 := (SimpleCache.set (py := Ref.lib) self "k" (PStr "v") "A" (60 * usec) true w).2 in
  (SimpleCache.get (py := Ref.lib) self "k" "A" true w1).1 = Ret (PStr "v")
  ∧ (SimpleCache.get (py := Ref.lib) self "k" "B" true w1).1 = Ret absent.
Proof.
  intros self w w1.
  destruct (checksum_gate (py := Ref.lib) self "k" w) as (_ & _ & _ & Hgate).
  destruct (Hgate (PStr "v") "A" "B" (60 * usec) (1793811240500000 + 60 * usec))
    as (HA & HB & _).
  - by split_and!.
  - by split_and!.
  - by left.
  - reflexivity.
  - reflexivity.
  - intros _. eexists. split; vm_compute; reflexivity.
  - intros _. eexists. split; vm_compute; reflexivity.
  - split; [exact HA|]. apply HB; vm_compute; discriminate.
Defined.

(** C2, as stated, fails: "ab" and "ba" are different strings with the same
    checksum 195, so an entry stored under checksum "ab" is returned to a
    reader that asks for "ba". *)
Lemma checksum_collision_counterexample :
  let self := SimpleCache.Build_t true false None false true true (Some "/profile")
                "simplecache." in
  let w := Build_world ∅ None 1793811240500000 1793811240500000 [] [] [] [] [] [] in
  let w1 := (SimpleCache.set (py := Ref.lib) self "k" (PStr "v") "ab" (60 * usec) true w).2 in
  "ab" ≠ "ba"
  ∧ (SimpleCache.get (py := Ref.lib) self "k" "ba" true w1).1 = Ret (PStr "v")
  ∧ PStr "v" ≠ absent.
Proof. split_and!; [done|by vm_compute|done]. Qed.

(** ** The non-JSON path (C10) *)

Section NonJson.
Context {py : PyLib}.

(** C10, as amended.  With the JSON flag off ([json_data] and [data_is_json]
    both false), [get] returns absent from every state of the cache and the
    host, and raises nothing.  [set] with the flag off still writes the
    [repr] of the entry to both tiers of a working cache, and the [get]
    that follows returns absent all the same. *)
Theorem non_json_get_is_absent (self : SimpleCache.t) (k cs : string) (jd : bool)
    (w : world) :
  json_mode self jd = false →
  (∃ w', SimpleCache.get self k cs jd w = (Ret absent, w'))
  ∧ (∀ v csA d dt,
       initialized self → quiet w →
       SimpleCache.enable_mem_cache self = true →
       is_Some (SimpleCache._db_path self) →
       datetime_add (w_now w) d = Ret dt →
       let e := timestamp_of w dt in
       let c := SimpleCache._get_checksum self csA in
       let w1 := (SimpleCache.set self k v csA d jd w).2 in
       w_props w1 !! SimpleCache._get_prop_key self k
       = Some (py_repr (PTuple [PInt e; v; PInt c]))
       ∧ (∃ t, w_db w1 = Some t
               ∧ t !! k = Some {| r_expires := e; r_data := py_repr v;
                                  r_checksum := c |})
       ∧ ∃ w2, SimpleCache.get self k cs jd w1 = (Ret absent, w2)).
Proof.
  intros Hflag.
  assert (∀ w0, ∃ w', SimpleCache.get self k cs jd w0 = (Ret absent, w')) as Habsent.
  { intros w0. destruct (get_spec self k cs jd w0) as (v & w' & Hget & Hsound).
    exists w'. rewrite Hget. f_equal. f_equal.
    destruct (is_none v) eqn:Hn; [by apply is_none_true|].
    apply is_none_false in Hn. destruct (Hsound Hn) as (_ & Hj & _). congruence. }
  split; [apply Habsent|].
  intros v csA d dt Hi Hq Hen Hp Hdt e c w1. subst w1.
  destruct (set_quiet self k v csA d jd w dt Hi Hq Hdt)
    as (w' & -> & _ & _ & _ & Hprops & Hdb).
  fold e c in Hprops, Hdb. cbn [snd].
  rewrite Hen in Hprops. rewrite bool_decide_true in Hdb by done.
  unfold mem_text, db_text in *. rewrite Hflag in *.
  split_and!.
  - by rewrite Hprops, lookup_insert_eq.
  - eexists. split; [exact Hdb|]. apply lookup_insert_eq.
  - apply Habsent.
Qed.

End NonJson.

(** C10 on a concrete cache: the entry is stored as a [repr] text in both
    tiers and can not be read back. *)
Lemma non_json_get_is_absent_witness :
  let self := SimpleCache.Build_t true false None false true true (Some "/profile")
                "simplecache." in
  let w := Build_world ∅ None 1793811240500000 1793811240500000 [] [] [] [] [] [] in
  let w1 := (SimpleCache.set (py := Ref.lib) self "k" (PStr "v") "" (60 * usec) false w).2 in
  w_props w1 !! "simplecache.k" = Some "(1793811300, 'v', 0)"
  ∧ (∃ t, w_db w1 = Some t
          ∧ t !! "k" = Some {| r_expires := 1793811300; r_data := "'v'";
                               r_checksum := 0 |})
  ∧ ∃ w2, SimpleCache.get (py := Ref.lib) self "k" "" false w1 = (Ret absent, w2).
Proof.
  intros self w w1.
  destruct (non_json_get_is_absent (py := Ref.lib) self "k" "" false w eq_refl)
    as (_ & Hset).
  apply (Hset (PStr "v") "" (60 * usec) (1793811240500000 + 60 * usec)).
  - by split_and!.
  - by split_and!.
  - reflexivity.
  - by eexists.
  - reflexivity.
Defined.

(** C10, as stated, fails on an instance whose attribute [data_is_json] is
    set: the flag of the call is then overruled, [set] with
    [json_data=False] stores JSON and not [repr] texts, and the [get] with
    [json_data=False] that follows returns the payload. *)
Lemma data_is_json_counterexample :
  let self := SimpleCache.Build_t true true None false true true (Some "/profile")
                "simplecache." in
  let w := Build_world ∅ None 1793811240500000 1793811240500000 [] [] [] [] [] [] in
  let w1 := (SimpleCache.set (py := Ref.lib) self "k" (PTuple [PInt 1; PInt 2]) ""
               (60 * usec) false w).2 in
  (SimpleCache.get (py := Ref.lib) self "k" "" false w1).1 = Ret (PList [PInt 1; PInt 2])
  ∧ PList [PInt 1; PInt 2] ≠ absent
  ∧ w_props w1 !! "simplecache.k" = Some "[1793811300, [1, 2], 0]"
  ∧ Ref.repr (PTuple [PInt 1793811300; PTuple [PInt 1; PInt 2]; PInt 0])
    = "(1793811300, (1, 2), 0)"
  ∧ (∃ t, w_db w1 = Some t ∧ r_data <$> (t !! "k") = Some "[1, 2]")
  ∧ Ref.repr (PTuple [PInt 1; PInt 2]) = "(1, 2)".
Proof.
  split_and!; [by vm_compute|done|by vm_compute|by vm_compute| |by vm_compute].
  eexists. split; by vm_compute.
Qed.

(** ** Reads leave the table alone (C8) *)

Section ReadFrame.
Context {py : PyLib}.

(** C8.  On a healthy database that holds the row [r] under [k]: a read
    with a checksum filter [cs] (not 0) that differs from the stored one
    returns absent and leaves the table and the window properties as they
    were; and whenever the row is no longer there after a read, its data
    failed to deserialize (and it had passed the gate in JSON mode). *)
Theorem checksum_mismatch_keeps_entry (self : SimpleCache.t) (k : string)
    (cs cur : Z) (jd : bool) (w : world) (t : gmap string row) (r : row) :
  connects self w → w_sqlfault w = [] →
  w_db w = Some t → t !! k = Some r →
  let res := SimpleCache._get_db_cache self k cs cur jd w in
  (cs ≠ 0 → r_checksum r ≠ cs →
   res.1 = Ret absent ∧ w_db res.2 = w_db w ∧ w_props res.2 = w_props w)
  ∧ ((w_db res.2 ≫= (.!! k)) ≠ Some r →
     (∃ e, json_loads (r_data r) = Raise e)
     ∧ gate cs cur (r_expires r) (r_checksum r) = true
     ∧ json_mode self jd = true).
Proof.
  intros Hc Hs Hdb Hk res. subst res.
  rewrite _get_db_cache_quiet by done.
  rewrite Hdb. cbn [default from_option]. unfold id. rewrite Hk.
  split.
  - intros Hcs Hne. unfold gate.
    destruct (Z.eqb_spec cs 0); [done|].
    destruct (Z.eqb_spec (r_checksum r) cs); [done|].
    by rewrite andb_false_r.
  - destruct (gate _ _ _ _ && _) eqn:Hg.
    2: { simpl. rewrite Hk. done. }
    apply andb_true_iff in Hg as [Hg Hj].
    destruct (json_loads (r_data r)) as [v|e] eqn:Hl; [|by eauto].
    intros Hgone. exfalso. apply Hgone. clear Hgone.
    destruct (_ && _); cbn [snd].
    + match goal with
      | |- context [SimpleCache._set_mem_cache ?s ?k0 ?c ?e0 ?v0 ?j ?w1] =>
          destruct (_set_mem_cache_any s k0 c e0 v0 j w1)
            as (w2 & ? & -> & (Hd & _) & _)
      end.
      cbn [snd]. rewrite Hd. simpl. by rewrite Hk.
    + simpl. by rewrite Hk.
Qed.

End ReadFrame.

(** C8 on a concrete table: the row stored under the checksum of "A" is
    asked for with the checksum of "B". *)
Lemma checksum_mismatch_keeps_entry_witness :
  let self := SimpleCache.Build_t true false None false true true (Some "/profile")
                "simplecache." in
  let r := {| r_expires := 2000000000; r_data := "1"; r_checksum := 65 |} in
  let w := Build_world ∅ (Some {["k" := r]}) 1793811240500000 1793811240500000
             [] [] [] [] [] [] in
  let res := SimpleCache._get_db_cache (py := Ref.lib) self "k" 66 1793811240 true w in
  res.1 = Ret absent ∧ w_db res.2 = w_db w ∧ w_props res.2 = w_props w.
Proof.
  intros self r w res.
  apply (checksum_mismatch_keeps_entry (py := Ref.lib) self "k" 66 1793811240 true w
           {["k" := r]} r).
  - unfold connects. simpl. split_and!; eauto.
  - reflexivity.
  - reflexivity.
  - apply lookup_singleton_eq.
  - discriminate.
  - discriminate.
Defined.

(** ** [set] writes each tier on its own (C4) *)

Section WriteThrough.
Context {py : PyLib}.

Lemma _set_db_cache_any (self : SimpleCache.t) (k : string) (c e : Z) (v : pyval)
    (jd : bool) (w : world) :
  ∃ w', SimpleCache._set_db_cache self k c e v jd w = (Ret tt, w')
        ∧ w_props w' = w_props w.
Proof.
  unfold SimpleCache._set_db_cache.
  destruct (bool_decide _); cbn [negb]; [|by exists w].
  unfold try_except, bind.
  destruct (if jd || SimpleCache.data_is_json self then _ else _)
    as [[s|err] w1] eqn:Hs.
  - assert (w1 = w) as ->.
    { destruct (jd || _); [unfold lift in Hs|unfold ret in Hs]; congruence. }
    destruct (_execute_sql_spec self (QUpsert k e s c) w)
      as (r & w' & evs & -> & _ & _ & _ & _ & (Hp & _) & _).
    by exists w'.
  - assert (w1 = w) as ->.
    { destruct (jd || _); [unfold lift in Hs|unfold ret in Hs]; congruence. }
    by exists w.
Qed.

(** [set] when [now + expiration] is no [datetime]: the addition raises
    inside the [try], the [finally] removes the task, nothing else runs. *)
Lemma set_overflow (self : SimpleCache.t) (k : string) (v : pyval) (cs : string)
    (d : Z) (jd : bool) (w : world) (err : exn) :
  SimpleCache._win self = true →
  datetime_add (w_now w) d = Raise err →
  SimpleCache.set self k v cs d jd w
  = (Raise OverflowError,
     set_busy_tasks (remove_first ("set." +:+ k) (w_busy_tasks w ++ ["set." +:+ k])) w).
Proof.
  intros Hwin Hadd.
  assert (err = OverflowError) as ->.
  { unfold datetime_add in Hadd. destruct (_ && _); congruence. }
  unfold SimpleCache.set. rewrite Hwin. cbn [negb].
  unfold bind at 1, SimpleCache.add_task, modify, try_finally.
  unfold bind at 1, gets. unfold bind at 1, lift. cbn [w_now set_busy_tasks].
  by rewrite Hadd.
Qed.

(** C4, as amended.  On an initialized cache that is not shutting down:
    when [now + expiration] is no [datetime], [set] raises the
    [OverflowError] of the addition before either write and touches
    neither tier.  Otherwise [set] raises nothing; with a database path
    configured, a healthy database and a payload that serialises for the
    row, the row is written whether the local tier is enabled or not and
    whatever the window calls do; with the local tier enabled, a working
    window and an entry that serialises for the slot, the slot is written
    whatever the database does. *)
Theorem set_writes_tiers_independently (self : SimpleCache.t) (k : string)
    (v : pyval) (cs : string) (d : Z) (jd : bool) (w : world) :
  initialized self →
  let res := SimpleCache.set self k v cs d jd w in
  match datetime_add (w_now w) d with
  | Ret dt =>
      let e := timestamp_of w dt in
      let c := SimpleCache._get_checksum self cs in
      res.1 = Ret tt
      ∧ (∀ s, is_Some (SimpleCache._db_path self) →
              w_abort w = [] → w_connfault w = [] → w_sqlfault w = [] →
              db_text self jd v = Ret s →
              w_db res.2
              = Some (<[k := {| r_expires := e; r_data := s; r_checksum := c |}]>
                        (default ∅ (w_db w))))
      ∧ (∀ s, SimpleCache.enable_mem_cache self = true →
              w_winfault w = [] →
              mem_text self jd e v c = Ret s →
              w_props res.2 !! SimpleCache._get_prop_key self k = Some s)
  | Raise _ =>
      res.1 = Raise OverflowError
      ∧ w_props res.2 = w_props w ∧ w_db res.2 = w_db w
      ∧ w_trace res.2 = w_trace w
  end.
Proof.
  intros (Hwin & Hmon & Hexit) res.
  destruct (datetime_add (w_now w) d) as [dt|err] eqn:Hdt.
  2: { subst res. by rewrite (set_overflow self k v cs d jd w err). }
  intros e c.
  assert (∃ w0 m1 m2,
            res = (let (r, w') := bind m1 (λ _, m2) w0 in
                   (r, (SimpleCache.drop_task ("set." +:+ k) w').2))
            ∧ m1 = (if SimpleCache.enable_mem_cache self
                    then SimpleCache._set_mem_cache self k c e v jd else ret tt)
            ∧ m2 = (if bool_decide (is_Some (SimpleCache._db_path self))
                    then SimpleCache._set_db_cache self k c e v jd else ret tt)
            ∧ w_db w0 = w_db w ∧ w_abort w0 = w_abort w
            ∧ w_connfault w0 = w_connfault w ∧ w_sqlfault w0 = w_sqlfault w
            ∧ w_props w0 = w_props w ∧ w_winfault w0 = w_winfault w)
    as (w0 & m1 & m2 & -> & -> & -> & Hd0 & Ha0 & Hc0 & Hs0 & Hp0 & Hw0).
  { subst res. unfold SimpleCache.set. rewrite Hwin, Hexit. cbn [negb andb].
    rewrite !andb_true_r.
    unfold bind at 1, SimpleCache.add_task, modify, try_finally.
    unfold bind at 1, gets. cbn [w_now set_busy_tasks].
    unfold bind at 1, lift. rewrite Hdt.
    unfold bind at 1. rewrite _get_timestamp_eq.
    change (timestamp_of _ dt) with e. fold c.
    eexists _, _, _. split; [reflexivity|]. by split_and!. }
  unfold bind.
  destruct (SimpleCache.enable_mem_cache self) eqn:Hen.
  - destruct (_set_mem_cache_any self k c e v jd w0)
      as (w1 & evs & Hm & (Hd1 & _ & _ & _ & Ha1 & Hc1 & Hs1) & _).
    rewrite Hm.
    destruct (bool_decide (is_Some (SimpleCache._db_path self))) eqn:Hp.
    + destruct (_set_db_cache_any self k c e v jd w1) as (w2 & Hdbw & Hp2).
      rewrite Hdbw. cbn [fst snd SimpleCache.drop_task modify].
      split_and!; [done| |].
      * intros s Hpath Ha Hc Hs Ht.
        rewrite _set_db_cache_quiet in Hdbw
          by (unfold connects; split_and?; congruence).
        rewrite Ht in Hdbw. injection Hdbw as <-. simpl. by rewrite Hd1, Hd0.
      * intros s _ Hw Ht.
        rewrite _set_mem_cache_quiet in Hm by congruence.
        rewrite Ht in Hm. injection Hm as <-. simpl in *.
        by rewrite Hp2, Hp0, lookup_insert_eq.
    + cbn [fst snd SimpleCache.drop_task modify ret].
      split_and!; [done| |].
      * intros s Hpath. by apply bool_decide_eq_false in Hp.
      * intros s _ Hw Ht.
        rewrite _set_mem_cache_quiet in Hm by congruence.
        rewrite Ht in Hm. injection Hm as <-. simpl.
        by rewrite Hp0, lookup_insert_eq.
  - unfold ret.
    destruct (bool_decide (is_Some (SimpleCache._db_path self))) eqn:Hp.
    + destruct (_set_db_cache_any self k c e v jd w0) as (w2 & Hdbw & Hp2).
      rewrite Hdbw. cbn [fst snd SimpleCache.drop_task modify].
      split_and!; [done| |done].
      intros s Hpath Ha Hc Hs Ht.
      rewrite _set_db_cache_quiet in Hdbw
        by (unfold connects; split_and?; congruence).
      rewrite Ht in Hdbw. injection Hdbw as <-. simpl. by rewrite Hd0.
    + cbn [fst snd SimpleCache.drop_task modify ret].
      split_and!; [done| |done].
      intros s Hpath. by apply bool_decide_eq_false in Hp.
Qed.

End WriteThrough.

(** C4 on a concrete cache: every window call raises, the local tier stays
    empty, and the row is written all the same. *)
Lemma set_writes_tiers_independently_witness :
  let self := SimpleCache.Build_t true false None false true true (Some "/profile")
                "simplecache." in
  let w := Build_world ∅ (Some ∅) 1793811240500000 1793811240500000 [] []
             [true; true; true] [] [] [] in
  let res := SimpleCache.set (py := Ref.lib) self "k" (PInt 1) "" (60 * usec) true w in
  res.1 = Ret tt
  ∧ w_db res.2
    = Some {["k" := {| r_expires := 1793811300; r_data := "1"; r_checksum := 0 |}]}
  ∧ w_props res.2 = ∅.
Proof.
  intros self w res.
  pose proof (set_writes_tiers_independently (py := Ref.lib) self "k" (PInt 1) ""
                (60 * usec) true w) as H.
  cbv zeta in H.
  change (datetime_add (w_now w) (60 * usec))
    with (@Ret Z (1793811240500000 + 60 * usec)) in H.
  cbv beta iota in H.
  destruct H as (Hret & Hdb & _).
  - by split_and!.
  - split_and!; [exact Hret| |by vm_compute].
    unfold res. rewrite (Hdb "1"); [|by eexists|done..]. by vm_compute.
Defined.

(** C4, as stated, fails: when the constructor could not get the window
    ([_win] is [None]) a database path is configured all the same, yet
    [set] returns at its first guard and the table is never touched. *)
Lemma set_without_window_counterexample :
  let self := SimpleCache.Build_t true false None false false false (Some "/profile")
                "simplecache." in
  let w := Build_world ∅ (Some ∅) 1793811240500000 1793811240500000 [] [] [] [] [] [] in
  is_Some (SimpleCache._db_path self)
  ∧ quiet w
  ∧ SimpleCache.set (py := Ref.lib) self "k" (PInt 1) "" (60 * usec) true w = (Ret tt, w).
Proof. split_and!; [by eexists|by split_and!|reflexivity]. Qed.

(** ** Order of the tiers in [get] (C3) *)

Section TierOrder.
Context {py : PyLib}.

Lemma get_unfold (self : SimpleCache.t) (k cs : string) (jd : bool) (w : world) :
  SimpleCache._win self = true →
  let c := SimpleCache._get_checksum self cs in
  let cur := timestamp_of w (w_now w) in
  SimpleCache.get self k cs jd w =
    if SimpleCache.enable_mem_cache self then
      match SimpleCache._get_mem_cache self k c cur jd w with
      | (Ret v, w1) =>
          if is_none v then SimpleCache._get_db_cache self k c cur jd w1
          else (Ret v, w1)
      | (Raise e, w1) => (Raise e, w1)
      end
    else SimpleCache._get_db_cache self k c cur jd w.
Proof.
  intros Hwin c cur. unfold SimpleCache.get. rewrite Hwin. cbn [negb].
  unfold bind at 1, gets. unfold bind at 1. rewrite _get_timestamp_eq.
  fold c cur. rewrite andb_true_r. unfold bind.
  destruct (SimpleCache.enable_mem_cache self); [|reflexivity].
  destruct (SimpleCache._get_mem_cache _ _ _ _ _ _) as [[v|e] w1]; [|done].
  by destruct (is_none v).
Qed.

Lemma mem_hit_returns (self : SimpleCache.t) (k : string) (c cur : Z) (w : world)
    (v : pyval) :
  w_winfault w = [] →
  mem_hit self w k c cur v →
  SimpleCache._get_mem_cache self k c cur true w
  = (Ret v, log_event (EvGetProp (SimpleCache._get_prop_key self k)) w).
Proof.
  intros Hw (s & x & c0 & c2 & rest & Hs & Hl & Hitems & Hgt & Hcs).
  rewrite _get_mem_cache_quiet by done.
  rewrite Hs. cbn [default from_option]. unfold id.
  rewrite (truthy_true s) by (by eapply loads_nonempty).
  unfold json_mode. cbn [orb andb]. rewrite Hl, Hitems, Hgt. cbn [andb].
  destruct Hcs as [-> | ->]; [done|]. by rewrite orb_true_r.
Qed.

(** A local read that returns a payload stops at the read. *)
Lemma mem_value_trace (self : SimpleCache.t) (k : string) (c cur : Z) (w : world)
    (v : pyval) (w1 : world) :
  w_winfault w = [] →
  SimpleCache._get_mem_cache self k c cur true w = (Ret v, w1) →
  v ≠ absent →
  w1 = log_event (EvGetProp (SimpleCache._get_prop_key self k)) w.
Proof.
  intros Hw Hm Hv.
  destruct (_get_mem_cache_spec self k c cur true w)
    as (v0 & w0 & evs & Hm0 & _ & _ & _ & Hhit).
  rewrite Hm in Hm0. injection Hm0 as <- <-.
  destruct (Hhit Hv) as (_ & Hh & _).
  rewrite (mem_hit_returns self k c cur w v Hw Hh) in Hm. congruence.
Qed.

(** On a healthy database the first thing [_get_db_cache] does is the
    SELECT of the row. *)
Lemma db_read_trace (self : SimpleCache.t) (k : string) (c cur : Z) (jd : bool)
    (w : world) :
  connects self w → w_sqlfault w = [] →
  ∃ evs, w_trace (SimpleCache._get_db_cache self k c cur jd w).2
         = evs ++ EvSqlAttempt (QSelectOne k) :: w_trace w.
Proof.
  intros Hc Hs. rewrite _get_db_cache_quiet by done.
  set (w1 := log_event _ _).
  assert (w_trace w1 = EvSqlAttempt (QSelectOne k) :: w_trace w) as Ht by done.
  clearbody w1. rewrite <- Ht.
  destruct (_ !! k) as [r|]; [|by exists []].
  destruct (_ && _); [|by exists []].
  destruct (json_loads _) as [v|]; cbn [snd].
  - destruct (_ && _); [|by exists []].
    apply respects_grows_set_mem_cache.
  - apply respects_grows_delete.
Qed.

(** C3, as amended.  On an initialized cache that is not shutting down,
    on a host that does not fail, for a JSON-mode [get]:
    with the local tier enabled the first call is the read of the local
    slot, a payload found there is returned without any further call, and
    on a local miss the persistent tier is read next; with the local tier
    disabled the local slot is not read at all and the first call is the
    SELECT of the persistent tier; and absent is returned only when the
    enabled local tier holds no entry that passes the gate with a payload
    other than [None], and neither does the configured table. *)
Theorem get_tries_local_then_persistent (self : SimpleCache.t) (k cs : string)
    (w : world) :
  initialized self → quiet w →
  let c := SimpleCache._get_checksum self cs in
  let cur := timestamp_of w (w_now w) in
  let key := SimpleCache._get_prop_key self k in
  let res := SimpleCache.get self k cs true w in
  let loc := SimpleCache._get_mem_cache self k c cur true w in
  (SimpleCache.enable_mem_cache self = true →
   (∀ v, loc.1 = Ret v → v ≠ absent →
         res = loc ∧ w_trace res.2 = EvGetProp key :: w_trace w)
   ∧ (loc.1 = Ret absent →
      res = SimpleCache._get_db_cache self k c cur true loc.2
      ∧ ∃ evs, w_trace loc.2 = evs ++ EvGetProp key :: w_trace w
               ∧ (is_Some (SimpleCache._db_path self) →
                  ∃ evs', w_trace res.2
                          = evs' ++ EvSqlAttempt (QSelectOne k)
                                 :: evs ++ EvGetProp key :: w_trace w)))
  ∧ (SimpleCache.enable_mem_cache self = false →
     res = SimpleCache._get_db_cache self k c cur true w
     ∧ (is_Some (SimpleCache._db_path self) →
        ∃ evs', w_trace res.2 = evs' ++ EvSqlAttempt (QSelectOne k) :: w_trace w)
     ∧ (SimpleCache._db_path self = None → res = (Ret absent, w)))
  ∧ (res.1 = Ret absent →
     (SimpleCache.enable_mem_cache self = true →
      ∀ v, mem_hit self w k c cur v → v = absent)
     ∧ (is_Some (SimpleCache._db_path self) →
        ∀ v, db_hit w k c cur v → v = absent)).
Proof.
  intros Hi Hq c cur key res loc.
  assert (Hi' := Hi). destruct Hi' as (Hwin & Hmon & Hexit).
  assert (Hq' := Hq). destruct Hq' as (Ha & Hw & Hc & Hs).
  assert (Hres : res = if SimpleCache.enable_mem_cache self then
                         match loc with
                         | (Ret v, w1) =>
                             if is_none v
                             then SimpleCache._get_db_cache self k c cur true w1
                             else (Ret v, w1)
                         | (Raise e, w1) => (Raise e, w1)
                         end
                       else SimpleCache._get_db_cache self k c cur true w)
    by (by apply get_unfold).
  destruct (_get_mem_cache_spec self k c cur true w)
    as (v0 & w1 & evs & Hloc & (Hd1 & _ & _ & _ & Ha1 & Hc1 & Hs1) & Ht1 & _ & Hhit).
  fold loc key in Hloc, Ht1.
  assert (Hdbval : ∀ v, db_hit w k c cur v →
            ∀ w2, connects self w2 → w_sqlfault w2 = [] → w_db w2 = w_db w →
              (SimpleCache._get_db_cache self k c cur true w2).1 = Ret v).
  { intros v (t & r & Hdb & Hk & Hexp & Hcs & Hl) w2 Hc2 Hs2 Hd2.
    erewrite _get_db_cache_value; [|done|done|by rewrite Hd2|done|done].
    unfold gate. replace (cur <? r_expires r) with true by lia.
    destruct Hcs as [-> | ->]; [done|]. by rewrite Z.eqb_refl, orb_true_r. }
  split_and!.
  - intros Hen. rewrite Hen in Hres. rewrite Hloc in Hres |- *. cbn [fst snd].
    split.
    + intros v [= <-] Hv. apply is_none_false in Hv as Hn. rewrite Hn in Hres.
      split; [done|]. rewrite Hres. cbn [snd].
      by rewrite (mem_value_trace self k c cur w v0 w1 Hw Hloc Hv).
    + intros [= ->]. change (is_none absent) with true in Hres.
      cbv iota in Hres. split; [done|].
      exists evs. split; [done|]. intros Hp. rewrite Hres.
      destruct (db_read_trace self k c cur true w1) as (evs' & Ht).
      * unfold connects. split_and?; congruence.
      * congruence.
      * exists evs'. by rewrite Ht, Ht1.
  - intros Hen. rewrite Hen in Hres. split_and!; [done| |].
    + intros Hp. rewrite Hres. apply db_read_trace; [|done].
      unfold connects. by split_and?.
    + intros Hp. rewrite Hres. by apply _get_db_cache_no_path.
  - intros Habs. unfold absent in *. split.
    + intros Hen v Hh. rewrite Hen, Hloc in Hres. unfold loc in Hloc.
      rewrite (mem_hit_returns self k c cur w v Hw Hh) in Hloc.
      injection Hloc as <- <-.
      destruct (is_none v) eqn:Hn; [by apply is_none_true|].
      rewrite Hres in Habs. simpl in Habs. congruence.
    + intros Hp v Hh.
      destruct (SimpleCache.enable_mem_cache self) eqn:Hen.
      * rewrite Hloc in Hres. destruct (is_none v0) eqn:Hn.
        -- assert ((SimpleCache._get_db_cache self k c cur true w1).1 = Ret v)
             as Hv.
           { apply Hdbval; [done| |congruence|done].
             unfold connects. split_and?; congruence. }
           rewrite Hres, Hv in Habs. congruence.
        -- rewrite Hres in Habs. apply is_none_false in Hn.
           simpl in Habs. congruence.
      * assert ((SimpleCache._get_db_cache self k c cur true w).1 = Ret v)
          as Hv.
        { apply Hdbval; [done| |done|done]. unfold connects. by split_and?. }
        rewrite Hres, Hv in Habs. congruence.
Qed.

End TierOrder.

(** C3 on a concrete cache with an entry in the table only: the local
    slot is read first, misses, and the SELECT finds the payload. *)
Lemma get_tries_local_then_persistent_witness :
  let self := SimpleCache.Build_t true false None false true true (Some "/profile")
                "simplecache." in
  let r := {| r_expires := 2000000000; r_data := "1"; r_checksum := 0 |} in
  let w := Build_world ∅ (Some {["k" := r]}) 1793811240500000 1793811240500000
             [] [] [] [] [] [] in
  let res := SimpleCache.get (py := Ref.lib) self "k" "" true w in
  let loc := SimpleCache._get_mem_cache (py := Ref.lib) self "k" 0 1793811240 true w in
  res = SimpleCache._get_db_cache (py := Ref.lib) self "k" 0 1793811240 true loc.2
  ∧ ∃ evs, w_trace loc.2 = evs ++ EvGetProp "simplecache.k" :: []
           ∧ (is_Some (SimpleCache._db_path self) →
              ∃ evs', w_trace res.2
                      = evs' ++ EvSqlAttempt (QSelectOne "k")
                             :: evs ++ EvGetProp "simplecache.k" :: []).
Proof.
  intros self r w res loc.
  destruct (get_tries_local_then_persistent (py := Ref.lib) self "k" "" w)
    as (Hon & _ & _).
  - by split_and!.
  - by split_and!.
  - destruct (Hon eq_refl) as (_ & Hmiss). apply Hmiss. reflexivity.
Defined.

(** C3, as stated, fails.  On a cache whose constructor could not get the
    window, [get] returns absent at its first guard without a single call
    to either tier, although the table holds a valid entry for the key;
    and with the local tier disabled the local slot is never read: the
    only call is the SELECT. *)
Lemma get_skips_tiers_counterexample :
  let r := {| r_expires := 2000000000; r_data := "1"; r_checksum := 0 |} in
  let w := Build_world {["simplecache.k" := "[2000000000, 1, 0]"]} (Some {["k" := r]})
             1793811240500000 1793811240500000 [] [] [] [] [] [] in
  let broken := SimpleCache.Build_t true false None false false false
                  (Some "/profile") "simplecache." in
  let nolocal := SimpleCache.Build_t false false None false true true
                   (Some "/profile") "simplecache." in
  db_hit (py := Ref.lib) w "k" 0 1793811240 (PInt 1)
  ∧ SimpleCache.get (py := Ref.lib) broken "k" "" true w = (Ret absent, w)
  ∧ PInt 1 ≠ absent
  ∧ w_trace (SimpleCache.get (py := Ref.lib) nolocal "k" "" true w).2
    = [EvSqlAttempt (QSelectOne "k")].
Proof.
  intros r w broken nolocal. split_and!; [|reflexivity|done|by vm_compute].
  exists {["k" := r]}, r.
  split_and!; [done|apply lookup_singleton_eq|done|by left|by vm_compute].
Qed.

(** ** The sweep (C9) *)

Section Sweep.
Context {py : PyLib}.

Lemma abortRequested_quiet (w : world) :
  w_abort w = [] → abortRequested w = (Ret false, w).
Proof. destruct w. simpl. by intros ->. Qed.

Lemma host_frame_refl w : host_frame w w.
Proof. by split_and!. Qed.

Lemma host_frame_trans a b c : host_frame a b → host_frame b c → host_frame a c.
Proof.
  unfold host_frame. intros (?&?&?&?&?&?) (?&?&?&?&?&?). split_and!; congruence.
Qed.

Lemma sweep_rows_quiet (self : SimpleCache.t) (cur : Z) (rows : list (string * Z))
    (ids : list string) (w : world) (t : gmap string row) :
  connects self w → w_sqlfault w = [] → w_db w = Some t →
  ∃ w', SimpleCache.sweep_rows self cur rows ids w = (Ret (false, ids ++ rows.*1), w')
        ∧ w_db w' = Some (swept_table cur rows t)
        ∧ w_props w' = w_props w ∧ host_frame w w'.
Proof.
  revert ids w t. induction rows as [|[cid e] rows IH]; intros ids w t Hc Hs Hdb.
  - exists w. simpl. rewrite app_nil_r. split_and!; first [done|apply host_frame_refl].
  - cbn [SimpleCache.sweep_rows]. unfold bind at 1.
    assert (Hc' := Hc). destruct Hc' as (Hm & Hp & He & Ha & Hcf).
    rewrite He, abortRequested_quiet by done.
    destruct (e <? cur) eqn:Hexp.
    + unfold bind at 1, try_except, bind at 1.
      rewrite _execute_sql_healthy by done.
      rewrite Hdb. cbn [default from_option run_query fst snd ret]. unfold id.
      set (w1 := log_event _ _).
      destruct (IH (ids ++ [cid]) w1 (delete cid t)) as (w' & Hsw & Hdb' & Hp' & Hf').
      { unfold connects. by split_and!. }
      { done. }
      { done. }
      exists w'. rewrite Hsw. cbn [fmap list_fmap fst].
      rewrite <- app_assoc. split_and!; try done.
      all: try (rewrite Hdb'; unfold swept_table; simpl; by rewrite Hexp).
      all: try (eapply host_frame_trans; [|exact Hf']; by split_and!).
    + unfold bind at 1, ret at 1.
      destruct (IH (ids ++ [cid]) w t) as (w' & Hsw & Hdb' & Hp' & Hf'); try done.
      exists w'. rewrite Hsw. cbn [fmap list_fmap fst].
      rewrite <- app_assoc. split_and!; try done.
      all: try (rewrite Hdb'; unfold swept_table; simpl; by rewrite Hexp).
Qed.

Lemma clear_ids_quiet (self : SimpleCache.t) (ids : list string) (w : world) :
  SimpleCache._exit self = false → w_abort w = [] → w_winfault w = [] →
  ∃ w', SimpleCache.clear_ids self ids w = (Ret tt, w')
        ∧ w_props w' = cleared_props self ids (w_props w)
        ∧ w_db w' = w_db w ∧ host_frame w w'.
Proof.
  intros He. revert w. induction ids as [|cid ids IH]; intros w Ha Hw.
  - exists w. split_and!; first [done|apply host_frame_refl].
  - cbn [SimpleCache.clear_ids]. unfold bind at 1.
    rewrite He, abortRequested_quiet by done.
    unfold bind at 1, try_except.
    assert (clearProperty (SimpleCache._get_prop_key self cid) w
            = (Ret tt, set_props (delete (SimpleCache._get_prop_key self cid) (w_props w))
                         (log_event (EvClearProp (SimpleCache._get_prop_key self cid)) w)))
      as ->.
    { destruct w. simpl in *. by subst. }
    set (w1 := set_props _ _).
    destruct (IH w1) as (w' & Hcl & Hp' & Hdb' & Hf'); [done|done|].
    exists w'. rewrite Hcl. split_and!; try done.
    all: try (eapply host_frame_trans; [|exact Hf']; by split_and!).
Qed.


Lemma setProperty_quiet (key value : string) (w : world) :
  w_winfault w = [] →
  setProperty key value w
  = (Ret tt, set_props (<[key := value]> (w_props w)) (log_event (EvSetProp key value) w)).
Proof. destruct w. simpl. by intros ->. Qed.

Lemma clearProperty_quiet (key : string) (w : world) :
  w_winfault w = [] →
  clearProperty key w
  = (Ret tt, set_props (delete key (w_props w)) (log_event (EvClearProp key) w)).
Proof. destruct w. simpl. by intros ->. Qed.

Lemma getProperty_quiet (key : string) (w : world) :
  w_winfault w = [] →
  getProperty key w = (Ret (default "" (w_props w !! key)), log_event (EvGetProp key) w).
Proof. destruct w. simpl. by intros ->. Qed.

(** [_do_cleanup] on a quiet world whose busy flag is not set. *)
Lemma _do_cleanup_quiet (self : SimpleCache.t) (w : world) (t : gmap string row) :
  initialized self → is_Some (SimpleCache._db_path self) → quiet w →
  w_db w = Some t →
  SimpleCache.truthy
    (default "" (w_props w !! SimpleCache._get_prop_key self "internal.clean.busy"))
  = false →
  let cur := timestamp_of w (w_now w) in
  let prop_busy := SimpleCache._get_prop_key self "internal.clean.busy" in
  let prop_lastexec := SimpleCache._get_prop_key self "internal.clean.lastexecuted" in
  ∃ w',
    SimpleCache._do_cleanup self w = (Ret tt, w')
    ∧ quiet w' ∧ w_now w' = w_now w ∧ w_time w' = w_time w
    ∧ w_db w' = Some (swept_table cur (rows_of t) t)
    ∧ w_props w' =
        delete prop_busy
          (<[prop_lastexec := repr_datetime (w_now w)]>
             (cleared_props self (rows_of t).*1
                (<[prop_busy := "busy"]> (w_props w)))).
Proof.
  intros (Hwin & Hmon & Hexit) Hp (Ha & Hw & Hc & Hs) Hdb Hbusy cur prop_busy prop_lastexec.
  unfold SimpleCache._do_cleanup. rewrite Hwin, Hmon, Hexit. cbn [negb orb].
  unfold bind at 1. rewrite abortRequested_quiet by done.
  fold prop_busy prop_lastexec. fold prop_busy in Hbusy.
  unfold bind at 1, try_except at 1, bind at 1.
  rewrite getProperty_quiet by done. cbn [ret]. rewrite Hbusy.
  unfold bind at 1, SimpleCache.add_task, modify.
  unfold try_finally.
  unfold bind at 1, try_except at 1.
  rewrite setProperty_quiet by done.
  unfold bind at 1, gets. cbn [w_now set_props log_event set_busy_tasks].
  unfold bind at 1. rewrite _get_timestamp_eq.
  rewrite (timestamp_of_ext w) by done. fold cur.
  rewrite bool_decide_true by done.
  unfold bind at 1, try_except at 1, bind at 1.
  rewrite _execute_sql_healthy by (unfold connects; simpl; split_and?; done).
  cbn [w_db set_props log_event set_busy_tasks]. rewrite Hdb.
  cbn [default from_option run_query fst snd]. unfold id. fold (rows_of t).
  set (w1 := log_event _ _).
  destruct (sweep_rows_quiet self cur (rows_of t) [] w1 t)
    as (w2 & Hsw & Hdb2 & Hp2 & (Hn2 & Ht2 & Ha2 & Hw2 & Hc2 & Hs2));
    [unfold connects; simpl; by split_and?|done|done|].
  assert (w_abort w2 = [] ∧ w_winfault w2 = [] ∧ w_connfault w2 = []
          ∧ w_sqlfault w2 = []) as (Ha2' & Hw2' & Hc2' & Hs2').
  { rewrite Ha2, Hw2, Hc2, Hs2. subst w1. simpl. by split_and!. }
  unfold bind at 1. rewrite Hsw. cbn [fst snd app].
  unfold bind at 1, try_except at 1, bind at 1.
  rewrite _execute_sql_healthy by (unfold connects; split_and?; done).
  cbn [ret fst snd]. unfold bind at 1.
  set (w3 := log_event _ _).
  destruct (clear_ids_quiet self (rows_of t).*1 w3)
    as (w4 & Hcl & Hp4 & Hdb4 & (Hn4 & Ht4 & Ha4 & Hw4 & Hc4 & Hs4));
    [done|done|done|].
  rewrite Hcl. unfold try_except at 1.
  rewrite setProperty_quiet by (simpl in *; congruence).
  cbn [fst snd]. unfold bind, SimpleCache.drop_task, modify, try_except.
  rewrite clearProperty_quiet by (simpl in *; congruence).
  eexists. split; [reflexivity|].
  simpl in *. unfold quiet. simpl.
  rewrite Hp4, Hp2, Hdb4, Hdb2, Hn4, Hn2, Ht4, Ht2, Ha4, Ha2, Hw4, Hw2, Hc4, Hc2, Hs4, Hs2.
  by split_and!.
Qed.


Lemma swept_table_lookup (cur : Z) (rows : list (string * Z)) (t0 : gmap string row)
    (k : string) :
  swept_table cur rows t0 !! k
  = if existsb (λ p, bool_decide (p.1 = k) && (p.2 <? cur)) rows then None
    else t0 !! k.
Proof.
  revert t0. induction rows as [|[cid e] rows IH]; intros t0; [done|].
  unfold swept_table in *. cbn [foldl existsb fst snd]. rewrite IH.
  destruct (existsb _ rows); [by rewrite orb_true_r|]. rewrite orb_false_r.
  destruct (e <? cur); [|by rewrite andb_false_r].
  rewrite andb_true_r. case_bool_decide as Hk.
  - subst. apply lookup_delete_eq.
  - by apply lookup_delete_ne.
Qed.

Lemma swept_rows_of (cur : Z) (t : gmap string row) (k : string) :
  swept_table cur (rows_of t) t !! k
  = match t !! k with
    | Some r => if r_expires r <? cur then None else Some r
    | None => None
    end.
Proof.
  rewrite swept_table_lookup.
  destruct (existsb _ _) eqn:Hex.
  - apply existsb_exists in Hex as ([cid e] & Hin & Hp).
    apply andb_true_iff in Hp as [Hk He]. apply bool_decide_eq_true in Hk.
    simpl in Hk, He. subst cid.
    apply list_elem_of_In, list_elem_of_fmap in Hin as ([k' r] & [= -> ->] & Hin).
    apply elem_of_map_to_list in Hin. rewrite Hin. simpl. by rewrite He.
  - destruct (t !! k) as [r|] eqn:Hk; [|done].
    destruct (r_expires r <? cur) eqn:He; [|done].
    assert (existsb (λ p, bool_decide (p.1 = k) && (p.2 <? cur)) (rows_of t) = true)
      as Hex'; [|congruence].
    apply existsb_exists. exists (k, r_expires r). split.
    + apply list_elem_of_In, list_elem_of_fmap. exists (k, r). split; [done|].
      by apply elem_of_map_to_list.
    + simpl. by rewrite bool_decide_true, He.
Qed.

(** The sweep deletes exactly the rows whose expiry lies before [cur]. *)
Lemma swept_table_filter (cur : Z) (t : gmap string row) :
  swept_table cur (rows_of t) t = filter (λ kr, ¬ r_expires kr.2 < cur) t.
Proof.
  apply map_eq. intros k. rewrite swept_rows_of. apply option_eq. intros r.
  rewrite map_lookup_filter_Some. simpl.
  destruct (t !! k) as [r'|]; [|by split; [|intros []]].
  destruct (Z.ltb_spec (r_expires r') cur).
  - split; [done|]. intros [[= ->] ?]. lia.
  - split; [intros [= ->]; split; [done|lia]|]. by intros [? _].
Qed.

Lemma cleared_props_lookup (self : SimpleCache.t) (ids : list string)
    (p : gmap string string) (key : string) :
  cleared_props self ids p !! key
  = if bool_decide (key ∈ SimpleCache._get_prop_key self <$> ids) then None
    else p !! key.
Proof.
  revert p. induction ids as [|cid ids IH]; intros p.
  - done.
  - unfold cleared_props in *. cbn [foldl]. rewrite IH. cbn [fmap list_fmap].
    case_bool_decide as Hin.
    + rewrite bool_decide_true; [done|]. apply elem_of_cons. by right.
    + case_bool_decide as Hin'.
      * apply elem_of_cons in Hin' as [-> |?]; [|done]. apply lookup_delete_eq.
      * apply lookup_delete_ne. intros <-. apply Hin'. apply elem_of_cons. by left.
Qed.


(** C9.  On an initialized cache with a database path, a host that does
    not fail and no other sweep under way (the busy flag is not set), one
    sweep deletes from the table exactly the rows whose expiry lies before
    the sweep time.  Every such row is gone, its local slot is cleared, and
    [get] returns absent for its key; every row whose expiry lies after the
    sweep time is still there and [get] returns its payload.  (The slot
    named like the sweep's own time stamp holds that stamp, which is not
    JSON, after the sweep.) *)
Theorem sweep_removes_expired (self : SimpleCache.t) (w : world)
    (t : gmap string row) :
  initialized self → is_Some (SimpleCache._db_path self) → quiet w →
  w_db w = Some t →
  SimpleCache.truthy
    (default "" (w_props w !! SimpleCache._get_prop_key self "internal.clean.busy"))
  = false →
  (∃ e, json_loads (repr_datetime (w_now w)) = Raise e) →
  let cur := timestamp_of w (w_now w) in
  let w' := (SimpleCache._do_cleanup self w).2 in
  (SimpleCache._do_cleanup self w).1 = Ret tt
  ∧ w_db w' = Some (filter (λ kr, ¬ r_expires kr.2 < cur) t)
  ∧ (∀ k r, t !! k = Some r → r_expires r < cur →
       (w_db w' ≫= (.!! k)) = None
       ∧ (SimpleCache._get_prop_key self k
          ≠ SimpleCache._get_prop_key self "internal.clean.lastexecuted" →
          w_props w' !! SimpleCache._get_prop_key self k = None)
       ∧ ∀ cs, (SimpleCache.get self k cs true w').1 = Ret absent)
  ∧ (∀ k r, t !! k = Some r → cur < r_expires r →
       (w_db w' ≫= (.!! k)) = Some r
       ∧ ∀ cs v,
           json_loads (r_data r) = Ret v →
           SimpleCache._get_checksum self cs = 0
           ∨ r_checksum r = SimpleCache._get_checksum self cs →
           (SimpleCache.get self k cs true w').1 = Ret v).
Proof.
  intros Hi Hp Hq Hdb Hbusy [err Hrepr] cur w'.
  destruct (_do_cleanup_quiet self w t Hi Hp Hq Hdb Hbusy)
    as (w0 & Hrun & Hq' & Hnow & Htime & Hdb' & Hprops).
  fold cur in Hdb'. subst w'. rewrite Hrun. cbn [fst snd].
  rewrite swept_table_filter in Hdb'.
  assert (Hi' := Hi). destruct Hi' as (Hwin & Hmon & Hexit).
  assert (Hq'' := Hq'). destruct Hq'' as (Ha' & Hw' & Hc' & Hs').
  set (prop_busy := SimpleCache._get_prop_key self "internal.clean.busy") in *.
  set (prop_lastexec := SimpleCache._get_prop_key self "internal.clean.lastexecuted") in *.
  assert (Hslot : ∀ k, is_Some (t !! k) →
            w_props w0 !! SimpleCache._get_prop_key self k = None
            ∨ (SimpleCache._get_prop_key self k = prop_lastexec
               ∧ w_props w0 !! SimpleCache._get_prop_key self k
                 = Some (repr_datetime (w_now w)))).
  { intros k [r Hk]. rewrite Hprops.
    destruct (decide (SimpleCache._get_prop_key self k = prop_busy)) as [->|Hnb].
    { left. apply lookup_delete_eq. }
    rewrite lookup_delete_ne by done.
    destruct (decide (SimpleCache._get_prop_key self k = prop_lastexec)) as [->|Hnl].
    { right. split; [done|]. apply lookup_insert_eq. }
    left. rewrite lookup_insert_ne by done.
    rewrite cleared_props_lookup, bool_decide_true; [done|].
    apply list_elem_of_fmap_2. unfold rows_of. rewrite <- list_fmap_compose.
    apply list_elem_of_fmap. exists (k, r). split; [done|].
    by apply elem_of_map_to_list. }
  assert (Hget : ∀ k cs, is_Some (t !! k) →
            ∃ w1, (SimpleCache.get self k cs true w0).1
                  = (SimpleCache._get_db_cache self k
                       (SimpleCache._get_checksum self cs) cur true w1).1
                  ∧ connects self w1 ∧ w_sqlfault w1 = [] ∧ w_db w1 = w_db w0).
  { intros k cs Hk. rewrite get_unfold by done.
    rewrite Hnow, (timestamp_of_ext w w0) by done. fold cur.
    destruct (SimpleCache.enable_mem_cache self).
    2: { exists w0. by split_and!. }
    destruct (_get_mem_cache_spec self k (SimpleCache._get_checksum self cs) cur true w0)
      as (v0 & w1 & evs & -> & (Hd1 & _ & _ & _ & Ha1 & Hc1 & Hs1) & _ & _ & Hhit).
    destruct (is_none v0) eqn:Hn.
    - exists w1. split_and!; try done; [|congruence].
      unfold connects. split_and?; congruence.
    - exfalso. apply is_none_false in Hn.
      destruct (Hhit Hn) as (_ & (s & x & ? & ? & ? & Hs & Hl & _) & _).
      destruct (Hslot k Hk) as [Hnone|[_ Hsome]]; [congruence|].
      rewrite Hsome in Hs. injection Hs as <-. congruence. }
  split_and!; [done|done| |].
  - intros k r Hk Hexp.
    assert ((filter (λ kr, ¬ r_expires kr.2 < cur) t : gmap string row) !! k = None)
      as Hgone.
    { apply map_lookup_filter_None. right. intros r' Hk'. simpl.
      rewrite Hk in Hk'. injection Hk' as <-. by intros []. }
    split_and!.
    + rewrite Hdb'. simpl. exact Hgone.
    + intros Hne. destruct (Hslot k) as [?|[? _]]; [by eexists|done|done].
    + intros cs. destruct (Hget k cs) as (w1 & -> & Hc1 & Hs1 & Hd1); [by eexists|].
      rewrite _get_db_cache_quiet by done.
      rewrite Hd1, Hdb'. cbn [default from_option]. unfold id. by rewrite Hgone.
  - intros k r Hk Hexp.
    assert ((filter (λ kr, ¬ r_expires kr.2 < cur) t : gmap string row) !! k = Some r)
      as Hkept.
    { apply map_lookup_filter_Some. split; [done|]. simpl. lia. }
    split.
    + rewrite Hdb'. simpl. exact Hkept.
    + intros cs v Hl Hcs.
      destruct (Hget k cs) as (w1 & -> & Hc1 & Hs1 & Hd1); [by eexists|].
      erewrite _get_db_cache_value; [|done|done|by rewrite Hd1, Hdb'|done|done].
      unfold gate. replace (cur <? r_expires r) with true by lia.
      destruct Hcs as [-> | ->]; [done|]. by rewrite Z.eqb_refl, orb_true_r.
Qed.

End Sweep.

(** C9 on a concrete cache: one row that expired long ago and one that is
    still valid, both mirrored in the local tier. *)
Lemma sweep_removes_expired_witness :
  let self := SimpleCache.Build_t true false None false true true (Some "/profile")
                "simplecache." in
  let old := {| r_expires := 1000; r_data := "1"; r_checksum := 0 |} in
  let new := {| r_expires := 2000000000; r_data := "2"; r_checksum := 0 |} in
  let w := Build_world
             {["simplecache.old" := "[1000, 1, 0]";
               "simplecache.new" := "[2000000000, 2, 0]"]}
             (Some {["old" := old; "new" := new]})
             1793811240500000 1793811240500000 [] [] [] [] [] [] in
  let w' := (SimpleCache._do_cleanup (py := Ref.lib) self w).2 in
  ((w_db w' ≫= (.!! "old")) = None
   ∧ w_props w' !! "simplecache.old" = None
   ∧ (SimpleCache.get (py := Ref.lib) self "old" "" true w').1 = Ret absent)
  ∧ ((w_db w' ≫= (.!! "new")) = Some new
     ∧ (SimpleCache.get (py := Ref.lib) self "new" "" true w').1 = Ret (PInt 2)).
Proof.
  intros self old new w w'.
  destruct (sweep_removes_expired (py := Ref.lib) self w {["old" := old; "new" := new]})
    as (_ & _ & Hold & Hnew).
  - by split_and!.
  - by eexists.
  - by split_and!.
  - reflexivity.
  - by vm_compute.
  - eexists. by vm_compute.
  - split.
    + destruct (Hold "old" old) as (Hrow & Hslot & Hget);
        [by vm_compute|by vm_compute|].
      split_and!; [exact Hrow|apply Hslot; by vm_compute|apply Hget].
    + destruct (Hnew "new" new) as (Hrow & Hget);
        [by vm_compute|by vm_compute|].
      split; [exact Hrow|]. apply Hget; [by vm_compute|by left].
Defined.

(** * Further properties

    Properties of the code beyond the specification: deletion, overwriting,
    expiry, host failures, the sweep timer, the life cycle of an instance
    and the decorator. *)

(** ** Deleting, overwriting and expiry *)

Section Entries.
Context {py : PyLib}.

Lemma _get_mem_cache_value (self : SimpleCache.t) (k : string) (cs cur : Z)
    (jd : bool) (w : world) :
  w_winfault w = [] →
  ∃ w', SimpleCache._get_mem_cache self k cs cur jd w
        = (Ret (mem_value self jd cs cur
                  (w_props w !! SimpleCache._get_prop_key self k)), w')
        ∧ win_frame w w' ∧ w_winfault w' = [].
Proof.
  intros Hw. rewrite _get_mem_cache_quiet by done. unfold mem_value.
  assert (win_frame w (log_event (EvGetProp (SimpleCache._get_prop_key self k)) w))
    by (by split_and!).
  assert (win_frame w (cleared (SimpleCache._get_prop_key self k) w))
    by (by split_and!).
  destruct (_ && _); [|by eexists].
  destruct (json_loads _) as [x|]; [|by eexists].
  destruct (seq_items x) as [[|c0 [|c1 [|c2 rest]]]|]; try by eexists.
  destruct (py_gt_int c0 cur); by eexists.
Qed.

Lemma _get_db_cache_result (self : SimpleCache.t) (k : string) (cs cur : Z)
    (jd : bool) (w : world) :
  connects self w → w_sqlfault w = [] →
  (SimpleCache._get_db_cache self k cs cur jd w).1
  = Ret (db_value self jd cs cur (default ∅ (w_db w) !! k)).
Proof.
  intros Hc Hs. rewrite _get_db_cache_quiet by done. unfold db_value.
  destruct (_ !! k) as [r|]; [|done].
  destruct (_ && _); [|done]. by destruct (json_loads _).
Qed.

(** [get] on an initialized cache and a quiet world, as a function of the
    slot and the row of the key. *)
Lemma get_value_quiet (self : SimpleCache.t) (k cs : string) (jd : bool) (w : world) :
  initialized self → quiet w →
  let c := SimpleCache._get_checksum self cs in
  let cur := timestamp_of w (w_now w) in
  (SimpleCache.get self k cs jd w).1
  = Ret (let m := if SimpleCache.enable_mem_cache self
                  then mem_value self jd c cur
                         (w_props w !! SimpleCache._get_prop_key self k)
                  else PNone in
         if is_none m then
           if bool_decide (is_Some (SimpleCache._db_path self))
           then db_value self jd c cur (default ∅ (w_db w) !! k)
           else PNone
         else m).
Proof.
  intros (Hwin & Hmon & Hexit) (Ha & Hw & Hc & Hs) c cur.
  rewrite get_unfold by done. fold c cur. cbv zeta.
  assert (∀ w1, w_db w1 = w_db w → w_abort w1 = [] → w_connfault w1 = [] →
            w_sqlfault w1 = [] →
            (SimpleCache._get_db_cache self k c cur jd w1).1
            = Ret (if bool_decide (is_Some (SimpleCache._db_path self))
                   then db_value self jd c cur (default ∅ (w_db w) !! k)
                   else PNone)) as Hdb.
  { intros w1 Hd1 Ha1 Hc1 Hs1. case_bool_decide as Hp.
    - rewrite _get_db_cache_result, Hd1; [done| |done].
      unfold connects. by split_and?.
    - rewrite _get_db_cache_no_path; [done|].
      destruct (SimpleCache._db_path self); [|done]. exfalso. apply Hp. by eexists. }
  destruct (SimpleCache.enable_mem_cache self).
  - destruct (_get_mem_cache_value self k c cur jd w Hw)
      as (w1 & -> & (Hd1 & _ & _ & _ & Ha1 & Hc1 & Hs1) & _).
    destruct (is_none _); [|done].
    apply Hdb; congruence.
  - by apply Hdb.
Qed.

Lemma append_inj_l (p a b : string) : p +:+ a = p +:+ b → a = b.
Proof. induction p as [|c p IH]; simpl; [done|]. intros [= ?]. by apply IH. Qed.

Lemma _get_prop_key_inj (self : SimpleCache.t) (a b : string) :
  SimpleCache._get_prop_key self a = SimpleCache._get_prop_key self b → a = b.
Proof. apply append_inj_l. Qed.

(** [delete] on an initialized cache and a quiet world. *)
Lemma delete_quiet (self : SimpleCache.t) (k : string) (w : world) :
  initialized self → quiet w →
  ∃ w', SimpleCache.delete self k w = (Ret tt, w')
        ∧ quiet w' ∧ w_now w' = w_now w ∧ w_time w' = w_time w
        ∧ w_props w' =
            (if SimpleCache.enable_mem_cache self
             then delete (SimpleCache._get_prop_key self k) (w_props w)
             else w_props w)
        ∧ w_db w' =
            (if bool_decide (is_Some (SimpleCache._db_path self))
             then Some (delete k (default ∅ (w_db w)))
             else w_db w).
Proof.
  intros (Hwin & Hmon & Hexit) (Ha & Hw & Hc & Hs).
  unfold SimpleCache.delete. rewrite Hwin. cbn [negb andb].
  rewrite andb_true_r.
  unfold bind at 1, SimpleCache.add_task, modify, try_finally.
  unfold bind at 1.
  destruct (SimpleCache.enable_mem_cache self).
  - unfold try_except at 1. rewrite clearProperty_quiet by done.
    case_bool_decide as Hp.
    + unfold try_except, bind.
      rewrite _execute_sql_healthy by (unfold connects; simpl; by split_and?).
      eexists. split; [reflexivity|]. unfold quiet. simpl. by split_and!.
    + eexists. split; [reflexivity|]. unfold quiet. simpl. by split_and!.
  - unfold ret at 1. case_bool_decide as Hp.
    + unfold try_except, bind.
      rewrite _execute_sql_healthy by (unfold connects; simpl; by split_and?).
      eexists. split; [reflexivity|]. unfold quiet. simpl. by split_and!.
    + eexists. split; [reflexivity|]. unfold quiet. simpl. by split_and!.
Qed.

(** X1.  After [delete(k)], [get(k)] returns absent, whatever was stored, with
    any checksum and in either mode. *)
Theorem delete_then_get_absent (self : SimpleCache.t) (k cs : string) (jd : bool)
    (w : world) :
  initialized self → quiet w →
  (SimpleCache.delete self k w).1 = Ret tt
  ∧ (SimpleCache.get self k cs jd (SimpleCache.delete self k w).2).1 = Ret absent.
Proof.
  intros Hi Hq.
  destruct (delete_quiet self k w Hi Hq) as (w' & -> & Hq' & Hn & Ht & Hp & Hd).
  split; [done|]. cbn [snd]. rewrite get_value_quiet by done. cbv zeta.
  rewrite Hp, Hd. f_equal.
  destruct (SimpleCache.enable_mem_cache self) eqn:Hen.
  - rewrite lookup_delete_eq. unfold mem_value. cbn.
    case_bool_decide; [|done]. cbn. by rewrite lookup_delete_eq.
  - cbn. case_bool_decide; [|done]. cbn. by rewrite lookup_delete_eq.
Qed.

Lemma lower_name_ne (a b : string) : lower_name a ≠ lower_name b → a ≠ b.
Proof. intros Hne ->. by apply Hne. Qed.

(** X2.  [delete(k)] does not change what [get] returns for a key that is
    another one also when the case of letters is ignored, the way the
    host compares the names of window properties. *)
Theorem delete_keeps_other_keys (self : SimpleCache.t) (k k' cs : string) (jd : bool)
    (w : world) :
  initialized self → quiet w → lower_name k' ≠ lower_name k →
  (SimpleCache.get self k' cs jd (SimpleCache.delete self k w).2).1
  = (SimpleCache.get self k' cs jd w).1.
Proof.
  intros Hi Hq Hne. apply lower_name_ne in Hne.
  destruct (delete_quiet self k w Hi Hq) as (w' & -> & Hq' & Hn & Ht & Hp & Hd).
  cbn [snd]. rewrite !get_value_quiet by done. cbv zeta.
  rewrite Hn, (timestamp_of_ext w w') by done. rewrite Hp, Hd.
  assert (SimpleCache._get_prop_key self k ≠ SimpleCache._get_prop_key self k')
    as Hkey by (intros Heq; apply _get_prop_key_inj in Heq; congruence).
  destruct (SimpleCache.enable_mem_cache self);
    case_bool_decide; cbn [default from_option]; unfold id;
    rewrite ?lookup_delete_ne by done; done.
Qed.

(** X7.  [set] with an expiration that [now] can not take raises the
    [OverflowError] of the addition, writes nothing to either tier and
    makes no call to the host. *)
Theorem set_overflow_raises (self : SimpleCache.t) (k : string) (v : pyval)
    (cs : string) (d : Z) (jd : bool) (w : world) :
  SimpleCache._win self = true →
  ¬ (datetime_min ≤ w_now w + d ≤ datetime_max) →
  let res := SimpleCache.set self k v cs d jd w in
  res.1 = Raise OverflowError
  ∧ w_props res.2 = w_props w ∧ w_db res.2 = w_db w ∧ w_trace res.2 = w_trace w.
Proof.
  intros Hwin Hrange res.
  assert (datetime_add (w_now w) d = Raise OverflowError) as Hadd.
  { unfold datetime_add.
    destruct (Z.leb_spec datetime_min (w_now w + d));
      destruct (Z.leb_spec (w_now w + d) datetime_max); try done. lia. }
  assert (res = (Raise OverflowError,
                 set_busy_tasks
                   (remove_first ("set." +:+ k) (w_busy_tasks w ++ ["set." +:+ k])) w))
    as ->; [|done].
  subst res. unfold SimpleCache.set. rewrite Hwin. cbn [negb].
  unfold bind at 1, SimpleCache.add_task, modify, try_finally.
  unfold bind at 1, gets. unfold bind at 1, lift. cbn [w_now set_busy_tasks].
  by rewrite Hadd.
Qed.

(** X3.  [set(k, ...)], whether it returns or raises, does not change what
    [get] returns for a key that is another one also when the case of
    letters is ignored. *)
Theorem set_keeps_other_keys (self : SimpleCache.t) (k k' : string) (v : pyval)
    (cs cs' : string) (d : Z) (jd jd' : bool) (w : world) :
  initialized self → quiet w → lower_name k' ≠ lower_name k →
  (SimpleCache.get self k' cs' jd' (SimpleCache.set self k v cs d jd w).2).1
  = (SimpleCache.get self k' cs' jd' w).1.
Proof.
  intros Hi Hq Hne. apply lower_name_ne in Hne.
  destruct (datetime_add (w_now w) d) as [dt|err] eqn:Hdt.
  - destruct (set_quiet self k v cs d jd w dt Hi Hq Hdt)
      as (w' & -> & Hq' & Hn & Ht & Hp & Hd).
    cbn [snd]. rewrite !get_value_quiet by done. cbv zeta.
    rewrite Hn, (timestamp_of_ext w w') by done. rewrite Hp, Hd.
    assert (SimpleCache._get_prop_key self k ≠ SimpleCache._get_prop_key self k')
      as Hkey by (intros Heq; apply _get_prop_key_inj in Heq; congruence).
    destruct (SimpleCache.enable_mem_cache self);
      case_bool_decide; try destruct (mem_text _ _ _ _ _);
      try destruct (db_text _ _ _);
      cbn [default from_option]; unfold id;
      rewrite ?lookup_insert_ne by done; done.
  - rewrite (set_overflow self k v cs d jd w err) by (done || apply Hi).
    cbn [snd].
    set (w' := set_busy_tasks _ w).
    assert (quiet w') as Hq' by (destruct Hq as (?&?&?&?); by split_and!).
    rewrite !get_value_quiet by done. cbv zeta.
    by rewrite (timestamp_of_ext w w').
Qed.

(** [get] after [set], read at any later reading of the clock. *)
Lemma set_then_get_at (self : SimpleCache.t) (k : string) (v : pyval)
    (csA csB : string) (d : Z) (w : world) (dt now2 time2 : Z) :
  initialized self → quiet w →
  SimpleCache.enable_mem_cache self = true ∨ is_Some (SimpleCache._db_path self) →
  datetime_add (w_now w) d = Ret dt →
  let e := timestamp_of w dt in
  let cA := SimpleCache._get_checksum self csA in
  let cB := SimpleCache._get_checksum self csB in
  (SimpleCache.enable_mem_cache self = true →
   ∃ s, json_dumps (PTuple [PInt e; v; PInt cA]) = Ret s
        ∧ json_loads s = Ret (PList [PInt e; v; PInt cA])) →
  (is_Some (SimpleCache._db_path self) →
   ∃ s, json_dumps v = Ret s ∧ json_loads s = Ret v) →
  let w2 := set_clock now2 time2 (SimpleCache.set self k v csA d true w).2 in
  let cur2 := timestamp_of w2 now2 in
  (SimpleCache.get self k csB true w2).1
  = Ret (if (cur2 <? e) && ((cB =? 0) || (cA =? cB)) then v else absent).
Proof.
  intros Hi Hq Htier Hdt e cA cB Hmem Hdb w2 cur2.
  destruct (set_quiet self k v csA d true w dt Hi Hq Hdt)
    as (w' & Hset & Hq' & Hn & Ht & Hp & Hd).
  fold e cA in Hp, Hd. subst cur2 w2. rewrite Hset. cbn [snd].
  set (w2 := set_clock now2 time2 w'). set (cur2 := timestamp_of w2 now2).
  assert (quiet w2) as Hq2 by (destruct Hq' as (?&?&?&?); by split_and!).
  rewrite get_value_quiet by done. cbv zeta.
  change (w_now w2) with now2. fold cur2 cB.
  change (w_props w2) with (w_props w'). change (w_db w2) with (w_db w').
  rewrite Hp, Hd. f_equal.
  set (g := (cur2 <? e) && ((cB =? 0) || (cA =? cB))).
  assert (SimpleCache.enable_mem_cache self = true →
          mem_value self true cB cur2
            (match mem_text self true e v cA with
             | Ret s => <[SimpleCache._get_prop_key self k:=s]> (w_props w)
             | Raise _ => w_props w
             end !! SimpleCache._get_prop_key self k)
          = if g then v else PNone) as Hmv.
  { intros Hen. destruct (Hmem Hen) as (sm & Hsm & Hlm).
    unfold mem_text, json_mode. cbn [orb]. rewrite Hsm, lookup_insert_eq.
    unfold mem_value. cbn [default from_option]. unfold id.
    rewrite (truthy_true sm) by (by eapply loads_nonempty).
    unfold json_mode. cbn [orb andb]. rewrite Hlm.
    cbn [seq_items py_gt_int py_eq_int]. by rewrite (Z.eqb_sym cB cA). }
  assert (is_Some (SimpleCache._db_path self) →
          db_value self true cB cur2
            (default ∅
               match db_text self true v with
               | Ret s => Some (<[k:={| r_expires := e; r_data := s; r_checksum := cA |}]>
                                  (default ∅ (w_db w)))
               | Raise _ => w_db w
               end !! k)
          = if g then v else PNone) as Hdv.
  { intros Hpath. destruct (Hdb Hpath) as (sd & Hsd & Hld).
    unfold db_text, json_mode. cbn [orb]. rewrite Hsd.
    cbn [default from_option]. unfold id. rewrite lookup_insert_eq.
    unfold db_value, gate. cbn [r_expires r_checksum r_data].
    unfold json_mode. cbn [orb]. rewrite andb_true_r. fold g.
    destruct g; [|done]. by rewrite Hld. }
  destruct (SimpleCache.enable_mem_cache self) eqn:Hen.
  - rewrite Hmv by done. destruct g eqn:Hg.
    + destruct (is_none v) eqn:Hnone; [|done].
      apply is_none_true in Hnone. subst v.
      case_bool_decide as Hpath; [|done]. by rewrite Hdv.
    + cbn [is_none]. case_bool_decide as Hpath; [|done]. by rewrite Hdv.
  - cbn [is_none]. destruct Htier as [?|Hpath]; [done|].
    rewrite bool_decide_true by done. by rewrite Hdv.
Qed.

(** X5.  An entry is served until the clock reaches its expiry second and never
    after: read at any clock reading, the entry [set] wrote is returned
    exactly when the timestamp of the reading lies strictly before the
    expiry and the checksum gate passes. *)
Theorem entry_served_until_expiry (self : SimpleCache.t) (k : string) (v : pyval)
    (csA csB : string) (d : Z) (w : world) (dt now2 time2 : Z) :
  initialized self → quiet w →
  SimpleCache.enable_mem_cache self = true ∨ is_Some (SimpleCache._db_path self) →
  datetime_add (w_now w) d = Ret dt →
  let e := timestamp_of w dt in
  let cA := SimpleCache._get_checksum self csA in
  let cB := SimpleCache._get_checksum self csB in
  (SimpleCache.enable_mem_cache self = true →
   ∃ s, json_dumps (PTuple [PInt e; v; PInt cA]) = Ret s
        ∧ json_loads s = Ret (PList [PInt e; v; PInt cA])) →
  (is_Some (SimpleCache._db_path self) →
   ∃ s, json_dumps v = Ret s ∧ json_loads s = Ret v) →
  let w2 := set_clock now2 time2 (SimpleCache.set self k v csA d true w).2 in
  let cur2 := timestamp_of w2 now2 in
  (SimpleCache.get self k csB true w2).1
  = Ret (if (cur2 <? e) && ((cB =? 0) || (cA =? cB)) then v else absent).
Proof.
  intros Hi Hq Htier Hdt e cA cB Hmem Hdb. by apply set_then_get_at.
Qed.

Lemma set_clock_id (w : world) : set_clock (w_now w) (w_time w) w = w.
Proof. by destruct w. Qed.

(** X6.  An entry that is stale on arrival is never returned: when the expiry
    timestamp computed for [now + expiration] is not later than the
    timestamp computed for [now], as it always is for the expiration
    zero, the [get] that follows the [set] at once returns absent. *)
Theorem stale_on_arrival_is_absent (self : SimpleCache.t) (k : string)
    (v : pyval) (csA csB : string) (d : Z) (w : world) (dt : Z) :
  initialized self → quiet w →
  SimpleCache.enable_mem_cache self = true ∨ is_Some (SimpleCache._db_path self) →
  datetime_add (w_now w) d = Ret dt →
  let e := timestamp_of w dt in
  let cA := SimpleCache._get_checksum self csA in
  d = 0 ∨ e ≤ timestamp_of w (w_now w) →
  (SimpleCache.enable_mem_cache self = true →
   ∃ s, json_dumps (PTuple [PInt e; v; PInt cA]) = Ret s
        ∧ json_loads s = Ret (PList [PInt e; v; PInt cA])) →
  (is_Some (SimpleCache._db_path self) →
   ∃ s, json_dumps v = Ret s ∧ json_loads s = Ret v) →
  (SimpleCache.get self k csB true (SimpleCache.set self k v csA d true w).2).1
  = Ret absent.
Proof.
  intros Hi Hq Htier Hdt e cA Hstale Hmem Hdb.
  assert (e ≤ timestamp_of w (w_now w)) as Hle.
  { destruct Hstale as [->|Hle]; [|done].
    assert (dt = w_now w) as ->; [|done].
    unfold datetime_add in Hdt. destruct (_ && _); [|done].
    injection Hdt as <-. lia. }
  destruct (set_quiet self k v csA d true w dt Hi Hq Hdt)
    as (w' & Hset & _ & Hn & Ht & _).
  pose proof (set_then_get_at self k v csA csB d w dt (w_now w) (w_time w)
                Hi Hq Htier Hdt) as Hserve.
  cbv zeta in Hserve. fold e in Hserve.
  specialize (Hserve Hmem Hdb).
  rewrite Hset in Hserve |- *. cbn [snd] in *.
  rewrite <- Hn, <- Ht, set_clock_id in Hserve. rewrite Hserve.
  rewrite (timestamp_of_ext w w') by done. rewrite Hn.
  destruct (Z.ltb_spec (timestamp_of w (w_now w)) e); [lia|done].
Qed.

(** X4.  Last write wins: after two [set] on one key, [get] returns the payload
    of the second, whatever the first one stored. *)
Theorem last_write_wins (self : SimpleCache.t) (k : string) (v1 v2 : pyval)
    (d1 d2 : Z) (w : world) (dt1 dt2 : Z) :
  initialized self → quiet w →
  SimpleCache.enable_mem_cache self = true ∨ is_Some (SimpleCache._db_path self) →
  datetime_add (w_now w) d1 = Ret dt1 →
  datetime_add (w_now w) d2 = Ret dt2 →
  let e := timestamp_of w dt2 in
  let c := SimpleCache._get_checksum self "" in
  timestamp_of w (w_now w) < e →
  (SimpleCache.enable_mem_cache self = true →
   ∃ s, json_dumps (PTuple [PInt e; v2; PInt c]) = Ret s
        ∧ json_loads s = Ret (PList [PInt e; v2; PInt c])) →
  (is_Some (SimpleCache._db_path self) →
   ∃ s, json_dumps v2 = Ret s ∧ json_loads s = Ret v2) →
  let w1 := (SimpleCache.set self k v1 "" d1 true w).2 in
  let w2 := (SimpleCache.set self k v2 "" d2 true w1).2 in
  (SimpleCache.get self k "" true w2).1 = Ret v2.
Proof.
  intros Hi Hq Htier Hdt1 Hdt2 e c Hlt Hmem Hdb w1 w2. subst w2 w1.
  destruct (set_quiet self k v1 "" d1 true w dt1 Hi Hq Hdt1)
    as (w1 & -> & Hq1 & Hn1 & Ht1 & _).
  cbn [snd].
  rewrite (set_then_get self k v2 "" "" d2 w1 dt2); try done.
  - by rewrite Z.eqb_refl, orb_true_r.
  - by rewrite Hn1.
  - rewrite Hn1, !(timestamp_of_ext w w1) by done. done.
  - by rewrite (timestamp_of_ext w w1).
Qed.

End Entries.

(** ** Read-through and damaged entries *)

Section Promotion.
Context {py : PyLib}.

(** X10.  Read-through: a [get] that misses an empty local slot and hits the
    table returns the row's payload and copies it, with the row's
    expiration and checksum, into the local slot; the next [get] is then
    served by the window alone, without a statement to the database. *)
Theorem db_hit_fills_local_tier (self : SimpleCache.t) (k cs : string) (w : world)
    (t : gmap string row) (r : row) (v : pyval) (s : string) :
  initialized self → quiet w →
  SimpleCache.enable_mem_cache self = true →
  is_Some (SimpleCache._db_path self) →
  let key := SimpleCache._get_prop_key self k in
  let c := SimpleCache._get_checksum self cs in
  let cur := timestamp_of w (w_now w) in
  w_props w !! key = None →
  w_db w = Some t → t !! k = Some r →
  gate c cur (r_expires r) (r_checksum r) = true →
  json_loads (r_data r) = Ret v → v ≠ absent →
  json_dumps (PTuple [PInt (r_expires r); v; PInt (r_checksum r)]) = Ret s →
  json_loads s = Ret (PList [PInt (r_expires r); v; PInt (r_checksum r)]) →
  let res1 := SimpleCache.get self k cs true w in
  let res2 := SimpleCache.get self k cs true res1.2 in
  res1.1 = Ret v
  ∧ w_props res1.2 = <[key := s]> (w_props w)
  ∧ w_db res1.2 = Some t
  ∧ res2.1 = Ret v
  ∧ w_trace res2.2 = EvGetProp key :: w_trace res1.2.
Proof.
  intros Hi Hq Hen Hp key c cur Hslot Hdb Hrow Hgate Hload Hv Hdump Hback res1 res2.
  pose proof Hi as (Hwin & Hmon & Hexit).
  pose proof Hq as (Ha & Hw & Hc & Hs).
  set (w1 := set_props (<[key := s]> (w_props w))
              (log_event (EvSetProp key s)
                 (log_event (EvSqlAttempt (QSelectOne k))
                    (set_db (Some t) (log_event (EvGetProp key) w))))).
  assert (SimpleCache.get self k cs true w = (Ret v, w1)) as Hres1.
  { rewrite get_unfold by done. fold c cur. rewrite Hen.
    rewrite _get_mem_cache_quiet by done. cbv zeta. fold key. rewrite Hslot.
    cbn [default from_option andb]. unfold SimpleCache.truthy at 1.
    rewrite bool_decide_eq_false_2 by (intros Hne; by apply Hne).
    cbn [andb is_none].
    rewrite _get_db_cache_quiet; [|unfold connects; simpl; by split_and?|done].
    cbv zeta. cbn [w_db log_event]. rewrite Hdb. cbn [default from_option]. unfold id.
    rewrite Hrow, Hgate. unfold json_mode. cbn [orb andb]. rewrite Hload, Hen, Hwin.
    cbn [andb]. rewrite _set_mem_cache_quiet by done.
    unfold mem_text, json_mode. cbn [orb]. rewrite Hdump. done. }
  assert (SimpleCache.get self k cs true w1 = (Ret v, log_event (EvGetProp key) w1))
    as Hres2.
  { rewrite get_unfold by done. rewrite Hen. cbv zeta.
    rewrite (mem_hit_returns self k _ _ w1 v); [|done|].
    + destruct v; done.
    + exists s, (PList [PInt (r_expires r); v; PInt (r_checksum r)]),
        (PInt (r_expires r)), (PInt (r_checksum r)), [].
      fold key c. replace (timestamp_of w1 (w_now w1)) with cur by done.
      subst w1. cbn [w_props set_props].
      rewrite lookup_insert_eq.
      unfold gate in Hgate. apply andb_true_iff in Hgate as [Hlt Hor].
      split_and!; try done.
      * simpl. by f_equal.
      * apply orb_true_iff in Hor as [Hz|He].
        -- left. by apply Z.eqb_eq.
        -- right. simpl. apply Z.eqb_eq. apply Z.eqb_eq in He. done. }
  subst res2 res1. rewrite Hres1. cbn [fst snd]. rewrite Hres2. done.
Qed.

End Promotion.

Section Corruption.
Context {py : PyLib}.

(** X11.  A row that passes the gate but whose data is not JSON: the read
    answers absent and deletes the entry, the row from the table and the
    slot of the key from the window, and leaves every other row alone. *)
Theorem unreadable_row_is_deleted (self : SimpleCache.t) (k : string) (cs cur : Z)
    (w : world) (t : gmap string row) (r : row) (e : exn) :
  initialized self → quiet w →
  is_Some (SimpleCache._db_path self) →
  w_db w = Some t → t !! k = Some r →
  gate cs cur (r_expires r) (r_checksum r) = true →
  json_loads (r_data r) = Raise e →
  let res := SimpleCache._get_db_cache self k cs cur true w in
  res.1 = Ret absent
  ∧ w_db res.2 = Some (delete k t)
  ∧ w_props res.2 =
      (if SimpleCache.enable_mem_cache self
       then delete (SimpleCache._get_prop_key self k) (w_props w)
       else w_props w).
Proof.
  intros Hi Hq Hp Hdb Hrow Hgate Hload res.
  pose proof Hi as (Hwin & Hmon & Hexit).
  pose proof Hq as (Ha & Hw & Hc & Hs).
  subst res.
  rewrite _get_db_cache_quiet; [|unfold connects; by split_and?|done].
  cbv zeta. rewrite Hdb. cbn [default from_option]. unfold id.
  rewrite Hrow, Hgate. unfold json_mode. cbn [orb andb]. rewrite Hload.
  set (w1 := log_event _ _).
  assert (quiet w1) as Hq1 by (unfold quiet; by split_and!).
  destruct (delete_quiet self k w1 Hi Hq1) as (w' & -> & _ & _ & _ & Hp' & Hd').
  cbn [fst snd]. rewrite Hp', Hd'. rewrite bool_decide_eq_true_2 by done.
  done.
Qed.

(** X12.  A slot the local tier can not judge (text that is not JSON, or not a
    sequence of at least three items, or whose expiration is no number) is
    cleared by the read, which answers absent; a slot it can judge stays
    in place even when it is expired or carries another checksum. *)
Theorem malformed_slot_is_cleared (self : SimpleCache.t) (k : string) (cs cur : Z)
    (w : world) (s : string) :
  w_winfault w = [] →
  let key := SimpleCache._get_prop_key self k in
  w_props w !! key = Some s → s ≠ "" →
  let res := SimpleCache._get_mem_cache self k cs cur true w in
  w_props res.2 = (if readable_slot s then w_props w else delete key (w_props w))
  ∧ (readable_slot s = false → res.1 = Ret absent).
Proof.
  intros Hw key Hslot Hne res. subst res.
  rewrite _get_mem_cache_quiet by done. cbv zeta. fold key. rewrite Hslot.
  cbn [default from_option]. unfold id, SimpleCache.truthy.
  rewrite bool_decide_eq_true_2 by done. unfold json_mode, readable_slot.
  cbn [orb andb]. unfold cleared.
  destruct (json_loads s) as [x|]; [|done].
  destruct (seq_items x) as [[|c0 [|c1 [|c2 rest]]]|]; try done.
  destruct c0; simpl; done.
Qed.

End Corruption.

(** ** Exceptions and the list of tasks *)

Section NeverRaises.

Lemma never_raises_ret {A} (a : A) : never_raises (ret a).
Proof. intros w. by eexists _, _. Qed.

Lemma never_raises_gets {A} (f : world → A) : never_raises (gets f).
Proof. intros w. by eexists _, _. Qed.

Lemma never_raises_modify (f : world → world) : never_raises (modify f).
Proof. intros w. by eexists _, _. Qed.

Lemma never_raises_bind {A B} (m : M A) (f : A → M B) :
  never_raises m → (∀ a, never_raises (f a)) → never_raises (bind m f).
Proof.
  intros Hm Hf w. unfold bind. destruct (Hm w) as (a & w1 & ->). apply Hf.
Qed.

Lemma never_raises_try_except {A} (m : M A) (h : exn → M A) :
  (∀ e, never_raises (h e)) → never_raises (try_except m h).
Proof.
  intros Hh w. unfold try_except. destruct (m w) as [[a|e] w1]; [by eexists _, _|].
  apply Hh.
Qed.

Lemma never_raises_try_finally {A} (m : M A) (fin : M unit) :
  never_raises m → never_raises (try_finally m fin).
Proof.
  intros Hm w. unfold try_finally. destruct (Hm w) as (a & w1 & ->). by eexists _, _.
Qed.

Lemma never_raises_if {A} (b : bool) (m1 m2 : M A) :
  never_raises m1 → never_raises m2 → never_raises (if b then m1 else m2).
Proof. by destruct b. Qed.

Lemma never_raises_abortRequested : never_raises abortRequested.
Proof. intros w. unfold abortRequested. destruct (pop _ _). by eexists _, _. Qed.

Lemma never_raises_execute_sql {py : PyLib} self q :
  never_raises (SimpleCache._execute_sql self q).
Proof.
  intros w. destruct (_execute_sql_spec self q w) as (r & w' & _ & -> & _).
  by eexists _, _.
Qed.

Lemma never_raises_get_timestamp {py : PyLib} x :
  never_raises (SimpleCache._get_timestamp x).
Proof. intros w. rewrite _get_timestamp_eq. by eexists _, _. Qed.

End NeverRaises.

Ltac never_raises_tac :=
  repeat first
    [ apply never_raises_ret | apply never_raises_gets | apply never_raises_modify
    | apply never_raises_abortRequested | apply never_raises_execute_sql
    | apply never_raises_get_timestamp
    | apply never_raises_try_except | apply never_raises_try_finally
    | apply never_raises_bind | apply never_raises_if
    | match goal with
      | |- never_raises (match ?x with _ => _ end) => destruct x
      end
    | intro ].

Section Totality.
Context {py : PyLib}.

Lemma never_raises_sweep_rows self cur rows ids :
  never_raises (SimpleCache.sweep_rows self cur rows ids).
Proof.
  revert ids. induction rows as [|[cid e] rows IH]; intros ids; simpl.
  - apply never_raises_ret.
  - apply never_raises_bind; [never_raises_tac|]. intros []; [never_raises_tac|].
    apply never_raises_bind; [never_raises_tac|]. intros _. apply IH.
Qed.

Lemma never_raises_clear_ids self ids : never_raises (SimpleCache.clear_ids self ids).
Proof.
  induction ids as [|cid ids IH]; simpl.
  - apply never_raises_ret.
  - apply never_raises_bind; [never_raises_tac|]. intros []; [never_raises_tac|].
    apply never_raises_bind; [never_raises_tac|]. intros _. apply IH.
Qed.

Lemma never_raises_do_cleanup self : never_raises (SimpleCache._do_cleanup self).
Proof.
  unfold SimpleCache._do_cleanup.
  repeat first
    [ apply never_raises_sweep_rows | apply never_raises_clear_ids
    | apply never_raises_ret | apply never_raises_gets | apply never_raises_modify
    | apply never_raises_abortRequested | apply never_raises_execute_sql
    | apply never_raises_get_timestamp
    | apply never_raises_try_except | apply never_raises_try_finally
    | apply never_raises_bind | apply never_raises_if
    | match goal with
      | |- never_raises (match ?x with _ => _ end) => destruct x
      end
    | intro ].
Qed.

Lemma never_raises_delete self k : never_raises (SimpleCache.delete self k).
Proof. unfold SimpleCache.delete, SimpleCache.add_task. never_raises_tac. Qed.

Lemma never_raises_get self k cs jd : never_raises (SimpleCache.get self k cs jd).
Proof. intros w. destruct (get_spec self k cs jd w) as (v & w' & -> & _). by eexists _, _. Qed.

End Totality.

Lemma task_frame_refl w : task_frame w w.
Proof. by split. Qed.

Lemma task_frame_trans a b c : task_frame a b → task_frame b c → task_frame a c.
Proof. intros [H1 H2] [H3 H4]. split; [congruence|auto]. Qed.

Lemma remove_first_app_perm (n : string) (l : list string) :
  remove_first n (l ++ [n]) ≡ₚ l.
Proof.
  induction l as [|y l IH]; simpl.
  - by rewrite bool_decide_eq_true_2.
  - case_bool_decide as Hn.
    + subst y. symmetry. apply Permutation_cons_append.
    + by constructor.
Qed.

Lemma try_finally_snd {A} (m : M A) (fin : M unit) (w : world) :
  (try_finally m fin w).2 = (fin (m w).2).2.
Proof. unfold try_finally. by destruct (m w). Qed.

Lemma try_finally_fst {A} (m : M A) (fin : M unit) (w : world) :
  (try_finally m fin w).1 = (m w).1.
Proof. unfold try_finally. by destruct (m w). Qed.

Section TaskFrame.
Context {py : PyLib}.

Lemma task_frame_win_call {A} ev (body : world → A * world) :
  (∀ w, w_busy_tasks (body w).2 = w_busy_tasks w
        ∧ w_winfault (body w).2 = w_winfault w) →
  respects task_frame (win_call ev body).
Proof.
  intros Hb w. unfold win_call.
  destruct w as [props db now time busy abort winf connf sqlf trace]. simpl.
  destruct winf as [|bad winf]; simpl.
  - match goal with |- context [body ?w1] =>
      destruct (Hb w1) as [H1 H2]; destruct (body w1) as [a w2] end.
    simpl in *. split; simpl; [done|]. by intros _.
  - destruct bad; simpl.
    + by split.
    + match goal with |- context [body ?w1] =>
        destruct (Hb w1) as [H1 H2]; destruct (body w1) as [a w2] end.
      simpl in *. by split.
Qed.

Lemma task_frame_getProperty k : respects task_frame (getProperty k).
Proof. by apply task_frame_win_call. Qed.

Lemma task_frame_setProperty k v : respects task_frame (setProperty k v).
Proof. by apply task_frame_win_call. Qed.

Lemma task_frame_clearProperty k : respects task_frame (clearProperty k).
Proof. by apply task_frame_win_call. Qed.

Lemma task_frame_abortRequested : respects task_frame abortRequested.
Proof. intros w. unfold abortRequested. destruct (pop _ _). by split. Qed.

Lemma task_frame_execute_sql self q : respects task_frame (SimpleCache._execute_sql self q).
Proof.
  intros w. destruct (_execute_sql_spec self q w)
    as (r & w' & evs & -> & _ & _ & _ & _ & (_ & _ & _ & Hb & Hw) & _).
  split; simpl; [done|]. intros. congruence.
Qed.

Lemma task_frame_get_timestamp x : respects task_frame (SimpleCache._get_timestamp x).
Proof. intros w. rewrite _get_timestamp_eq. apply task_frame_refl. Qed.

End TaskFrame.

Ltac task_frame_tac :=
  repeat first
    [ apply task_frame_getProperty | apply task_frame_setProperty
    | apply task_frame_clearProperty | apply task_frame_abortRequested
    | apply task_frame_execute_sql | apply task_frame_get_timestamp
    | apply (respects_ret task_frame task_frame_refl)
    | apply (respects_raise task_frame task_frame_refl)
    | apply (respects_lift task_frame task_frame_refl)
    | apply (respects_gets task_frame task_frame_refl)
    | apply (respects_bind task_frame task_frame_trans)
    | apply (respects_try_except task_frame task_frame_trans)
    | apply (respects_try_finally task_frame task_frame_trans)
    | apply respects_if
    | match goal with
      | |- respects _ (match ?x with _ => _ end) => destruct x
      end
    | intro ].

Section TaskFrameMethods.
Context {py : PyLib}.

Lemma task_frame_set_mem_cache self k c e v jd :
  respects task_frame (SimpleCache._set_mem_cache self k c e v jd).
Proof. unfold SimpleCache._set_mem_cache. task_frame_tac. Qed.

Lemma task_frame_set_db_cache self k c e v jd :
  respects task_frame (SimpleCache._set_db_cache self k c e v jd).
Proof. unfold SimpleCache._set_db_cache. task_frame_tac. Qed.

Lemma task_frame_sweep_rows self cur rows ids :
  respects task_frame (SimpleCache.sweep_rows self cur rows ids).
Proof.
  revert ids. induction rows as [|[cid e] rows IH]; intros ids; simpl.
  - apply (respects_ret task_frame task_frame_refl).
  - apply (respects_bind task_frame task_frame_trans); [task_frame_tac|].
    intros []; [task_frame_tac|].
    apply (respects_bind task_frame task_frame_trans); [task_frame_tac|].
    intros _. apply IH.
Qed.

Lemma task_frame_clear_ids self ids :
  respects task_frame (SimpleCache.clear_ids self ids).
Proof.
  induction ids as [|cid ids IH]; simpl.
  - apply (respects_ret task_frame task_frame_refl).
  - apply (respects_bind task_frame task_frame_trans); [task_frame_tac|].
    intros []; [task_frame_tac|].
    apply (respects_bind task_frame task_frame_trans); [task_frame_tac|].
    intros _. apply IH.
Qed.

(** The body of [_do_cleanup] between the registration of the task and
    the [finally]. *)
Lemma task_frame_do_cleanup_body self :
  let prop_busy := SimpleCache._get_prop_key self "internal.clean.busy" in
  let prop_lastexec := SimpleCache._get_prop_key self "internal.clean.lastexecuted" in
  respects task_frame
    (try_except (setProperty prop_busy "busy") (λ _, ret tt) ;;
     cur_time <- gets w_now ;;
     cur_timestamp <- SimpleCache._get_timestamp cur_time ;;
     swept <-
       (if bool_decide (is_Some (SimpleCache._db_path self)) then
          try_except
            (cursor <- SimpleCache._execute_sql self QSelectAll ;;
             match cursor with
             | Some (CurAll db_results) =>
                 r <- SimpleCache.sweep_rows self cur_timestamp db_results [] ;;
                 if (r.1 : bool) then ret r
                 else
                   try_except (SimpleCache._execute_sql self QVacuum ;; ret tt)
                     (λ _, ret tt) ;;
                   ret r
             | _ => ret (false, [])
             end)
            (λ _, ret (false, []))
        else ret (false, [])) ;;
     if (swept.1 : bool) then ret tt
     else
       SimpleCache.clear_ids self swept.2 ;;
       try_except (setProperty prop_lastexec (repr_datetime cur_time))
         (λ _, ret tt)).
Proof.
  cbv zeta.
  repeat first
    [ apply task_frame_sweep_rows | apply task_frame_clear_ids
    | apply task_frame_getProperty | apply task_frame_setProperty
    | apply task_frame_clearProperty | apply task_frame_abortRequested
    | apply task_frame_execute_sql | apply task_frame_get_timestamp
    | apply (respects_ret task_frame task_frame_refl)
    | apply (respects_raise task_frame task_frame_refl)
    | apply (respects_lift task_frame task_frame_refl)
    | apply (respects_gets task_frame task_frame_refl)
    | apply (respects_bind task_frame task_frame_trans)
    | apply (respects_try_except task_frame task_frame_trans)
    | apply (respects_try_finally task_frame task_frame_trans)
    | apply respects_if
    | match goal with
      | |- respects _ (match ?x with _ => _ end) => destruct x
      end
    | intro ].
Qed.

(** What the first lines of [_do_cleanup] do before the task is
    registered: either the method returns at once, the list of tasks and
    the properties untouched, or the sweep starts on a world [w1] with the
    same properties. *)
Lemma _do_cleanup_cases self (w : world) :
  let prop_busy := SimpleCache._get_prop_key self "internal.clean.busy" in
  (∃ w', SimpleCache._do_cleanup self w = (Ret tt, w')
         ∧ w_props w' = w_props w ∧ w_db w' = w_db w ∧ task_frame w w'
         ∧ count_attempts (w_trace w') = count_attempts (w_trace w))
  ∨ (∃ w1 wb r,
       w_props w1 = w_props w ∧ task_frame w w1
       ∧ task_frame
           (set_busy_tasks (w_busy_tasks w1 ++ ["cleanup." +:+ SimpleCache._mem_cache_prefix self]) w1)
           wb
       ∧ SimpleCache._do_cleanup self w
         = (r,
            (try_except (clearProperty prop_busy) (λ _, ret tt)
               (set_busy_tasks
                  (remove_first ("cleanup." +:+ SimpleCache._mem_cache_prefix self)
                     (w_busy_tasks wb)) wb)).2)
       ∧ (w_winfault w = [] →
          SimpleCache.truthy (default "" (w_props w !! prop_busy)) = false)
       ∧ SimpleCache._exit self = false ∧ hd false (w_abort w) = false).
Proof.
  cbv zeta. set (prop_busy := SimpleCache._get_prop_key self "internal.clean.busy").
  destruct (SimpleCache._do_cleanup self w) as [r wf] eqn:Hrun.
  unfold SimpleCache._do_cleanup in Hrun. fold prop_busy in Hrun.
  destruct (negb _ || negb _).
  { left. exists w. injection Hrun as <- <-.
    split_and!; first [done|apply task_frame_refl]. }
  unfold bind at 1 in Hrun.
  assert (∃ stop w0, (if SimpleCache._exit self then ret true else abortRequested) w
                     = (Ret stop, w0)
                     ∧ w_props w0 = w_props w ∧ w_db w0 = w_db w
                     ∧ w_busy_tasks w0 = w_busy_tasks w
                     ∧ w_winfault w0 = w_winfault w ∧ w_trace w0 = w_trace w
                     ∧ (stop = false →
                        SimpleCache._exit self = false ∧ hd false (w_abort w) = false))
    as (stop & w0 & Hstop & Hp0 & Hd0 & Hb0 & Hw0 & Ht0 & Hgo).
  { destruct (SimpleCache._exit self); [by exists true, w|].
    unfold abortRequested. destruct (w_abort w) as [|b ab]; cbn [pop hd].
    - by eexists _, _.
    - eexists _, _. split; [done|]. by split_and!. }
  rewrite Hstop in Hrun.
  destruct stop.
  { left. exists w0. injection Hrun as <- <-.
    split_and!; [done|done|done| |congruence].
    split; [done|]. congruence. }
  cbv zeta in Hrun. unfold bind at 1 in Hrun.
  assert (∃ busy w1, try_except (b <- getProperty prop_busy ;; ret (SimpleCache.truthy b))
                       (λ _, ret false) w0 = (Ret busy, w1)
                     ∧ w_props w1 = w_props w0 ∧ w_db w1 = w_db w0
                     ∧ task_frame w0 w1
                     ∧ count_attempts (w_trace w1) = count_attempts (w_trace w0)
                     ∧ (w_winfault w0 = [] →
                        busy = SimpleCache.truthy (default "" (w_props w0 !! prop_busy))))
    as (busy & w1 & Hread & Hp1 & Hd1 & Hf1 & Hc1 & Hbusy).
  { unfold try_except, bind, getProperty, win_call.
    destruct w0 as [props db now time busy abort winf connf sqlf trace]. simpl.
    destruct winf as [|[] winf]; simpl; eexists _, _; split_and!; try done.
    all: try (split; simpl; done). }
  rewrite Hread in Hrun.
  destruct busy.
  { left. exists w1. injection Hrun as <- <-.
    split_and!; [done|congruence|congruence| |congruence].
    eapply task_frame_trans; [|exact Hf1]. split; [done|]. congruence. }
  right. unfold bind at 1, SimpleCache.add_task, modify in Hrun. cbv beta iota in Hrun.
  match type of Hrun with
  | try_finally ?body ?fin ?w2 = _ =>
      pose proof (task_frame_do_cleanup_body self w2) as Hbody;
      cbv zeta in Hbody; fold prop_busy in Hbody;
      pose proof (try_finally_snd body fin w2) as Hsnd;
      exists w1, (body w2).2, r
  end.
  rewrite Hrun in Hsnd. cbn [snd] in Hsnd.
  split_and!.
  - congruence.
  - eapply task_frame_trans; [|exact Hf1]. split; [done|]. congruence.
  - exact Hbody.
  - f_equal. rewrite Hsnd.
    unfold bind at 1, SimpleCache.drop_task, modify. done.
  - intros Hw. rewrite <- Hp0. symmetry. apply Hbusy. congruence.
  - by apply Hgo.
  - by apply Hgo.
Qed.

End TaskFrameMethods.

Section HostFailures.
Context {py : PyLib}.

Lemma never_raises_set_mem_cache self k c e v jd :
  never_raises (SimpleCache._set_mem_cache self k c e v jd).
Proof. unfold SimpleCache._set_mem_cache. never_raises_tac. Qed.

Lemma never_raises_set_db_cache self k c e v jd :
  never_raises (SimpleCache._set_db_cache self k c e v jd).
Proof. unfold SimpleCache._set_db_cache. never_raises_tac. Qed.

(** X9.  Whatever the host does (window calls that raise, a database that is
    locked or broken, an abort request), [get], [delete] and the sweep
    [_do_cleanup] let no exception escape. *)
Theorem host_failures_never_escape (self : SimpleCache.t) (k cs : string) (jd : bool)
    (w : world) :
  (∃ v, (SimpleCache.get self k cs jd w).1 = Ret v)
  ∧ (SimpleCache.delete self k w).1 = Ret tt
  ∧ (SimpleCache._do_cleanup self w).1 = Ret tt.
Proof.
  split_and!.
  - destruct (never_raises_get self k cs jd w) as (v & w' & ->). by exists v.
  - destruct (never_raises_delete self k w) as ([] & w' & ->). done.
  - destruct (never_raises_do_cleanup self w) as ([] & w' & ->). done.
Qed.

(** X8.  The only exception [set] lets escape is the [OverflowError] of
    [now + expiration]: when that sum is a [datetime], [set] returns
    normally on every world, whatever the host does. *)
Theorem set_raises_only_on_overflow (self : SimpleCache.t) (k : string) (v : pyval)
    (cs : string) (d : Z) (jd : bool) (w : world) (dt : Z) :
  datetime_add (w_now w) d = Ret dt →
  (SimpleCache.set self k v cs d jd w).1 = Ret tt.
Proof.
  intros Hdt. unfold SimpleCache.set.
  destruct (negb _); [done|].
  unfold bind at 1, SimpleCache.add_task, modify. cbv beta iota.
  rewrite try_finally_fst.
  unfold bind at 1, gets. cbv beta iota.
  unfold bind at 1, lift. cbn [w_now set_busy_tasks]. rewrite Hdt. cbv beta iota.
  match goal with
  | |- (?m ?w2).1 = _ =>
      assert (never_raises m) as Hn
  end.
  { apply never_raises_bind; [apply never_raises_get_timestamp|]. intros e.
    apply never_raises_bind.
    - apply never_raises_if; [apply never_raises_set_mem_cache|apply never_raises_ret].
    - intros _.
      apply never_raises_if; [apply never_raises_set_db_cache|apply never_raises_ret]. }
  match goal with
  | |- (?m ?w2).1 = _ => destruct (Hn w2) as ([] & w' & ->)
  end.
  done.
Qed.

(** The list of tasks after [set], [delete] and the sweep, on any world. *)
Lemma busy_tasks_perm (self : SimpleCache.t) (k : string) (v : pyval)
    (cs : string) (d : Z) (jd : bool) (w : world) :
  w_busy_tasks (SimpleCache.set self k v cs d jd w).2 ≡ₚ w_busy_tasks w
  ∧ w_busy_tasks (SimpleCache.delete self k w).2 ≡ₚ w_busy_tasks w
  ∧ w_busy_tasks (SimpleCache._do_cleanup self w).2 ≡ₚ w_busy_tasks w.
Proof.
  split_and!.
  - unfold SimpleCache.set. destruct (negb _); [done|].
    unfold bind at 1, SimpleCache.add_task, modify. cbv beta iota.
    rewrite try_finally_snd.
    match goal with
    | |- context [(?body (set_busy_tasks ?l w)).2] =>
        assert (respects task_frame body) as Hb by task_frame_tac;
        destruct (Hb (set_busy_tasks l w)) as [Hb1 _]
    end.
    unfold SimpleCache.drop_task, modify. cbn [snd w_busy_tasks set_busy_tasks] in *.
    rewrite Hb1. apply remove_first_app_perm.
  - unfold SimpleCache.delete. destruct (negb _); [done|].
    unfold bind at 1, SimpleCache.add_task, modify. cbv beta iota.
    rewrite try_finally_snd.
    match goal with
    | |- context [(?body (set_busy_tasks ?l w)).2] =>
        assert (respects task_frame body) as Hb by task_frame_tac;
        destruct (Hb (set_busy_tasks l w)) as [Hb1 _]
    end.
    unfold SimpleCache.drop_task, modify. cbn [snd w_busy_tasks set_busy_tasks] in *.
    rewrite Hb1. apply remove_first_app_perm.
  - destruct (_do_cleanup_cases self w) as [(w' & -> & _ & _ & [Hb _] & _)
                                           |(w1 & wb & r & _ & [Hb1 _] & [Hbb _] & -> & _)].
    + cbn [snd]. by rewrite Hb.
    + cbn [snd].
      match goal with
      | |- context [(?m ?w2).2] =>
          assert (respects task_frame m) as Hc by task_frame_tac;
          destruct (Hc w2) as [-> _]
      end.
      cbn [w_busy_tasks set_busy_tasks] in *. rewrite Hbb, Hb1.
      apply remove_first_app_perm.
Qed.

(** X15.  Every method that registers a task in [_busy_tasks] removes it again
    before it returns or raises: after [set], [delete] or a sweep the list
    holds the names it held before, whatever the host does. *)
Theorem busy_tasks_are_restored (self : SimpleCache.t) (k : string) (v : pyval)
    (cs : string) (d : Z) (jd : bool) (w : world) :
  w_busy_tasks (SimpleCache.set self k v cs d jd w).2 ≡ₚ w_busy_tasks w
  ∧ w_busy_tasks (SimpleCache.delete self k w).2 ≡ₚ w_busy_tasks w
  ∧ w_busy_tasks (SimpleCache._do_cleanup self w).2 ≡ₚ w_busy_tasks w.
Proof. apply busy_tasks_perm. Qed.

(** X16.  A sweep never leaves its busy flag behind: on a window that raises
    nothing, if the flag is not set before [_do_cleanup] it is not set
    after, also when the sweep is cut short by an abort request or the
    database fails. *)
Theorem sweep_releases_busy_flag (self : SimpleCache.t) (w : world) :
  w_winfault w = [] →
  let prop_busy := SimpleCache._get_prop_key self "internal.clean.busy" in
  SimpleCache.truthy (default "" (w_props w !! prop_busy)) = false →
  SimpleCache.truthy
    (default "" (w_props (SimpleCache._do_cleanup self w).2 !! prop_busy)) = false.
Proof.
  intros Hw prop_busy Hflag.
  destruct (_do_cleanup_cases self w) as [(w' & -> & Hp & _)
                                         |(w1 & wb & r & _ & [_ Hw1] & [_ Hwb] & -> & _)].
  - cbn [snd]. by rewrite Hp.
  - cbn [snd]. fold prop_busy. unfold try_except.
    rewrite clearProperty_quiet by (cbn [w_winfault set_busy_tasks] in *; auto).
    cbn [snd w_props set_props]. by rewrite lookup_delete_eq.
Qed.

End HostFailures.

(** ** Shutdown, the busy flag and a failed probe *)

Section Shutdown.
Context {py : PyLib}.

(** X14.  Once shutdown is under way ([_exit] is set, or the host answers the
    abort request with yes) [_execute_sql] does not execute the statement
    it was given: it returns no cursor and calls [execute] not once, so
    the trace and the statement script are as before.  Opening the
    connection comes before the test and happens all the same: the table
    is left exactly as [_get_database] leaves it, created when it was
    missing and emptied when the probe failed. *)
Theorem statement_not_executed_after_shutdown (self : SimpleCache.t) (q : query)
    (w : world) :
  SimpleCache._exit self = true ∨ (∃ rest, w_abort w = true :: rest) →
  let res := SimpleCache._execute_sql self q w in
  res.1 = Ret None
  ∧ w_trace res.2 = w_trace w ∧ w_sqlfault res.2 = w_sqlfault w
  ∧ w_props res.2 = w_props w
  ∧ w_db res.2 = (if SimpleCache._monitor self
                  then w_db (SimpleCache._get_database self w).2
                  else w_db w).
Proof.
  intros Hstop res. subst res.
  destruct (SimpleCache._execute_sql self q w) as [r wf] eqn:Hrun.
  unfold SimpleCache._execute_sql in Hrun. cbn [fst snd].
  destruct (SimpleCache._monitor self); cbn [negb] in Hrun;
    [|by injection Hrun as <- <-].
  destruct (_get_database_spec self w)
    as (conn & w1 & Hconn & Ht1 & (Hp1 & _) & Ha1 & Hs1 & _).
  rewrite Hconn. cbn [snd].
  case_bool_decide as Hpath; cbn [negb] in Hrun.
  2: { injection Hrun as <- <-.
       assert (SimpleCache._db_path self = None) as Hnone.
       { destruct (SimpleCache._db_path self); [|done]. exfalso. apply Hpath. by eexists. }
       unfold SimpleCache._get_database in Hconn. rewrite Hnone in Hconn.
       injection Hconn as _ <-. done. }
  unfold try_except, bind in Hrun. rewrite Hconn in Hrun.
  destruct conn as [[]|]; [|by injection Hrun as <- <-].
  cbn [SimpleCache.retry_loop] in Hrun.
  change (0 <? SimpleCache.max_retries)%nat with true in Hrun. cbv iota in Hrun.
  unfold bind at 1 in Hrun.
  destruct Hstop as [He|[rest Ha]].
  - rewrite He in Hrun. by injection Hrun as <- <-.
  - destruct (SimpleCache._exit self); [by injection Hrun as <- <-|].
    unfold abortRequested in Hrun. rewrite Ha1, Ha in Hrun. cbn [pop] in Hrun.
    by injection Hrun as <- <-.
Qed.

(** X17.  A sweep that is not due to run does nothing: when shutdown is under
    way, or when the busy flag of another sweep is set, [_do_cleanup]
    returns without touching a property, a row or the list of tasks, and
    sends no statement. *)
Theorem sweep_skipped_when_busy_or_stopping (self : SimpleCache.t) (w : world) :
  SimpleCache._exit self = true
  ∨ (∃ rest, w_abort w = true :: rest)
  ∨ (w_winfault w = []
     ∧ SimpleCache.truthy
         (default "" (w_props w !! SimpleCache._get_prop_key self "internal.clean.busy"))
       = true) →
  let res := SimpleCache._do_cleanup self w in
  res.1 = Ret tt ∧ w_props res.2 = w_props w ∧ w_db res.2 = w_db w
  ∧ w_busy_tasks res.2 = w_busy_tasks w
  ∧ count_attempts (w_trace res.2) = count_attempts (w_trace w).
Proof.
  intros Hskip res. subst res.
  destruct (_do_cleanup_cases self w)
    as [(w' & -> & Hp & Hd & [Hb _] & Hc)
       |(w1 & wb & r & _ & _ & _ & _ & Hflag & Hexit & Habort)].
  - done.
  - exfalso. destruct Hskip as [He|[[rest Ha]|[Hw Hbusy]]].
    + congruence.
    + rewrite Ha in Habort. done.
    + rewrite Hflag in Hbusy by done. done.
Qed.

End Shutdown.

Section Probe.
Context {py : PyLib}.

Lemma _execute_sql_probe (self : SimpleCache.t) (q : query) (w : world)
    (recreated : bool) (rest : list conn_fault) :
  SimpleCache._monitor self = true → is_Some (SimpleCache._db_path self) →
  SimpleCache._exit self = false →
  w_abort w = [] → w_sqlfault w = [] →
  w_connfault w = ConnProbeFails true recreated :: rest →
  SimpleCache._execute_sql self q w =
    if recreated then
      (Ret (Some (run_query q ∅).1),
       log_event (EvSqlAttempt q)
         (set_db (Some (run_query q ∅).2) (set_connfault rest w)))
    else (Ret None, set_db None (set_connfault rest w)).
Proof.
  intros Hm [p Hp] He Ha Hs Hc.
  destruct w as [props db now time busy abort winf connf sqlf trace].
  simpl in *. subst.
  unfold SimpleCache._execute_sql, SimpleCache._get_database.
  rewrite Hm, Hp. simpl.
  unfold try_except, bind. simpl.
  destruct recreated; simpl; [|done].
  rewrite He; simpl. unfold execute; simpl; by destruct (run_query _ _).
Qed.

(** X13.  When the integrity probe of [_get_database] fails and the file is
    deleted, every row is lost: the read that met the failure answers
    absent for any key, and the table is empty after it (or missing, when
    it could not be created again). *)
Theorem failed_probe_loses_every_row (self : SimpleCache.t) (k : string) (cs cur : Z)
    (jd : bool) (w : world) (recreated : bool) (rest : list conn_fault) :
  initialized self → is_Some (SimpleCache._db_path self) →
  w_abort w = [] → w_sqlfault w = [] →
  w_connfault w = ConnProbeFails true recreated :: rest →
  let res := SimpleCache._get_db_cache self k cs cur jd w in
  res.1 = Ret absent
  ∧ w_db res.2 = (if recreated then Some ∅ else None).
Proof.
  intros (Hwin & Hmon & Hexit) Hp Ha Hs Hc res. subst res.
  unfold SimpleCache._get_db_cache. rewrite bool_decide_eq_true_2 by done.
  cbn [negb]. unfold try_except, bind.
  rewrite (_execute_sql_probe self _ w recreated rest) by done.
  destruct recreated; [|done].
  cbn [run_query fst snd]. rewrite lookup_empty. done.
Qed.

End Probe.

(** ** [close] and [check_cleanup] *)

Section Close.
Context {py : PyLib} {ext : PyExt}.

Lemma close_result (fuel : nat) (self self' : SimpleCache.t) (w : world) :
  (SimpleCache.close fuel self w).1 = Ret (Some self') →
  self' = SimpleCache.with_handles false false (SimpleCache.with_exit true self).
Proof.
  unfold SimpleCache.close, bind.
  destruct (SimpleCache.close_wait _ _ w) as [[[]|] w']; simpl; congruence.
Qed.

(** X21.  A cache that was closed is inert: whenever [close] returns, [get]
    answers absent and [set], [delete], [check_cleanup] and the sweep do
    nothing at all, on every world. *)
Theorem closed_cache_is_inert (fuel : nat) (self self' : SimpleCache.t) (w : world)
    (k cs : string) (v : pyval) (d : Z) (jd : bool) (w' : world) :
  (SimpleCache.close fuel self w).1 = Ret (Some self') →
  SimpleCache.get self' k cs jd w' = (Ret absent, w')
  ∧ SimpleCache.set self' k v cs d jd w' = (Ret tt, w')
  ∧ SimpleCache.delete self' k w' = (Ret tt, w')
  ∧ SimpleCache.check_cleanup self' w' = (Ret tt, w')
  ∧ SimpleCache._do_cleanup self' w' = (Ret tt, w')
  ∧ SimpleCache.__del__ fuel self' w' = (Ret (Some self'), w').
Proof.
  intros Hc. apply close_result in Hc. subst self'. by split_and!.
Qed.

Lemma close_wait_idle (fuel : nat) (mon : bool) (w : world) :
  w_busy_tasks w = [] → SimpleCache.close_wait (S fuel) mon w = (Ret true, w).
Proof. intros Hb. cbn [SimpleCache.close_wait]. unfold bind, gets. by rewrite Hb. Qed.

Lemma perm_nil_eq (l : list string) : l ≡ₚ [] → l = [].
Proof. apply Permutation_nil_r. Qed.

(** X22.  The wait of [close] polls every 25 ms and ends at the first abort
    request: with tasks still registered and a host that answers the
    abort request with no [n] times and then with yes, [close] sleeps [n]
    times and returns. *)
Theorem close_polls_until_abort (self : SimpleCache.t) (n fuel : nat) (w : world)
    (rest : list bool) :
  SimpleCache._monitor self = true →
  w_busy_tasks w ≠ [] →
  w_abort w = repeat false n ++ true :: rest →
  let res := SimpleCache.close (n + S fuel) self w in
  res.1 = Ret (Some (SimpleCache.with_handles false false (SimpleCache.with_exit true self)))
  ∧ w_trace res.2 = repeat (EvWait 25) n ++ w_trace w
  ∧ w_abort res.2 = rest
  ∧ w_props res.2 = w_props w ∧ w_db res.2 = w_db w.
Proof.
  intros Hm Hb Ha res. subst res. unfold SimpleCache.close.
  change (SimpleCache._monitor (SimpleCache.with_exit true self))
    with (SimpleCache._monitor self). rewrite Hm.
  assert (∃ w', SimpleCache.close_wait (n + S fuel) true w = (Ret true, w')
                ∧ w_trace w' = repeat (EvWait 25) n ++ w_trace w
                ∧ w_abort w' = rest
                ∧ w_props w' = w_props w ∧ w_db w' = w_db w) as (w' & Hw & ?).
  { clear Hm. revert w Hb Ha. induction n as [|n IH]; intros w Hb Ha.
    - cbn [Nat.add SimpleCache.close_wait]. unfold bind at 1, gets.
      destruct (w_busy_tasks w) as [|t ts] eqn:Hbt; [done|].
      unfold bind, abortRequested. rewrite Ha. cbn [repeat app pop].
      eexists. split; [reflexivity|]. by split_and!.
    - change (S n + S fuel)%nat with (S (n + S fuel)).
      cbn [SimpleCache.close_wait]. unfold bind at 1, gets.
      destruct (w_busy_tasks w) as [|t ts] eqn:Hbt; [done|].
      unfold bind at 1, abortRequested. rewrite Ha. cbn [repeat app pop].
      unfold bind at 1, xbmc_sleep, modify.
      match goal with
      | |- context [SimpleCache.close_wait _ true ?w1] =>
          destruct (IH w1) as (w' & -> & Ht & Hab & Hp & Hd)
      end.
      + cbn [w_busy_tasks log_event set_abort]. by rewrite Hbt.
      + done.
      + exists w'. split; [done|]. rewrite Ht, Hab, Hp, Hd.
        cbn [w_trace log_event set_abort w_props w_db].
        split_and!; try done.
        cbn [repeat]. rewrite app_comm_cons, repeat_cons.
        by rewrite <- app_assoc. }
  unfold bind. rewrite Hw. done.
Qed.

(** X23.  [close] never waits for a task of this thread: when no task is
    registered, then after a [set], a [delete] or a sweep, however the
    host behaved during it, [close] returns at once, without a sleep and
    without asking the host for an abort. *)
Theorem close_returns_at_once_after_operations (self other : SimpleCache.t)
    (fuel : nat) (k : string) (v : pyval) (cs : string) (d : Z) (jd : bool) (w : world) :
  w_busy_tasks w = [] →
  let closed := SimpleCache.with_handles false false (SimpleCache.with_exit true other) in
  Forall (λ w1, SimpleCache.close (S fuel) other w1 = (Ret (Some closed), w1))
    [(SimpleCache.set self k v cs d jd w).2;
     (SimpleCache.delete self k w).2;
     (SimpleCache._do_cleanup self w).2].
Proof.
  intros Hb closed.
  destruct (busy_tasks_perm self k v cs d jd w) as (Hs & Hd & Hc).
  rewrite Hb in Hs, Hd, Hc.
  apply perm_nil_eq in Hs, Hd, Hc.
  repeat constructor; unfold SimpleCache.close, bind; by rewrite close_wait_idle.
Qed.

End Close.

Section CheckCleanup.
Context {py : PyLib} {ext : PyExt}.

(** [check_cleanup] on a window that raises nothing. *)
Lemma check_cleanup_healthy (self : SimpleCache.t) (w : world) :
  SimpleCache._win self = true → w_winfault w = [] →
  let key := SimpleCache._get_prop_key self "internal.clean.lastexecuted" in
  let w1 := log_event (EvGetProp key) w in
  SimpleCache.check_cleanup self w =
    if cleanup_due self w then
      (Ret tt,
       (SimpleCache._do_cleanup self
          (if SimpleCache.truthy (default "" (w_props w !! key))
              && match eval_datetime (default "" (w_props w !! key)) with
                 | Ret lastexecuted =>
                     match datetime_add lastexecuted SimpleCache._auto_clean_interval with
                     | Ret _ => true
                     | Raise _ => false
                     end
                 | Raise _ => false
                 end
           then w1
           else set_props (<[key := repr_datetime (w_now w)]> (w_props w))
                  (log_event (EvSetProp key (repr_datetime (w_now w))) w1))).2)
    else (Ret tt, w1).
Proof.
  intros Hwin Hw key w1. unfold SimpleCache.check_cleanup, cleanup_due.
  rewrite Hwin. cbn [negb]. fold key.
  unfold try_except at 1, bind at 1, gets. cbv beta iota.
  unfold bind at 1. rewrite getProperty_quiet by done. fold w1.
  set (s := default "" (w_props w !! key)).
  assert (∀ w2, (let (r, w') := SimpleCache._do_cleanup self w2 in
                 match r with Ret a => (Ret a, w') | Raise _ => ret tt w' end)
                = (Ret tt, (SimpleCache._do_cleanup self w2).2)) as Hsweep.
  { intros w2. destruct (never_raises_do_cleanup self w2) as ([] & w' & ->). done. }
  destruct (SimpleCache.truthy s); cbn [negb andb].
  - unfold bind at 1, try_except at 1, bind at 1, lift.
    destruct (eval_datetime s) as [last|].
    + unfold bind at 1. destruct (datetime_add last _) as [due|].
      * unfold ret at 1. destruct (due <? w_now w); [apply Hsweep|done].
      * unfold bind at 1. rewrite setProperty_quiet by done.
        unfold ret at 1. apply Hsweep.
    + unfold bind at 1. rewrite setProperty_quiet by done.
      unfold ret at 1. apply Hsweep.
  - unfold bind at 1, bind at 1. rewrite setProperty_quiet by done.
    unfold ret at 1. apply Hsweep.
Qed.

(** X18.  Between two sweeps [check_cleanup] costs one read of the window: when
    the stamp of the last sweep is readable and at most four hours old,
    nothing is swept, written or sent to the database. *)
Theorem check_cleanup_waits_for_interval (self : SimpleCache.t) (w : world) :
  SimpleCache._win self = true → w_winfault w = [] →
  cleanup_due self w = false →
  SimpleCache.check_cleanup self w
  = (Ret tt,
     log_event (EvGetProp (SimpleCache._get_prop_key self
                             "internal.clean.lastexecuted")) w).
Proof.
  intros Hwin Hw Hdue.
  rewrite check_cleanup_healthy by done. cbv zeta. by rewrite Hdue.
Qed.

Lemma lastexec_not_busy (self : SimpleCache.t) :
  SimpleCache._get_prop_key self "internal.clean.lastexecuted"
  ≠ SimpleCache._get_prop_key self "internal.clean.busy".
Proof. intros Heq. apply _get_prop_key_inj in Heq. discriminate. Qed.

(** A due [check_cleanup] on a quiet world. *)
Lemma check_cleanup_due_quiet (self : SimpleCache.t) (w : world) (t : gmap string row) :
  initialized self → is_Some (SimpleCache._db_path self) → quiet w →
  w_db w = Some t →
  SimpleCache.truthy
    (default "" (w_props w !! SimpleCache._get_prop_key self "internal.clean.busy"))
  = false →
  cleanup_due self w = true →
  ∃ w', SimpleCache.check_cleanup self w = (Ret tt, w')
        ∧ quiet w' ∧ w_now w' = w_now w ∧ w_time w' = w_time w
        ∧ w_db w' = Some (swept_table (timestamp_of w (w_now w)) (rows_of t) t)
        ∧ w_props w' !! SimpleCache._get_prop_key self "internal.clean.lastexecuted"
          = Some (repr_datetime (w_now w))
        ∧ w_props w' !! SimpleCache._get_prop_key self "internal.clean.busy" = None.
Proof.
  intros Hi Hp Hq Hdb Hbusy Hdue.
  pose proof Hi as (Hwin & Hmon & Hexit).
  pose proof Hq as (Ha & Hw & Hc & Hs).
  rewrite check_cleanup_healthy by done. cbv zeta. rewrite Hdue.
  set (key := SimpleCache._get_prop_key self "internal.clean.lastexecuted").
  set (busy := SimpleCache._get_prop_key self "internal.clean.busy") in *.
  assert (key ≠ busy) as Hne by apply lastexec_not_busy.
  match goal with
  | |- context [SimpleCache._do_cleanup self ?w2] => set (w2' := w2)
  end.
  assert (quiet w2' ∧ w_db w2' = Some t ∧ w_now w2' = w_now w ∧ w_time w2' = w_time w
          ∧ w_props w2' !! busy = w_props w !! busy) as (Hq2 & Hdb2 & Hn2 & Ht2 & Hb2).
  { subst w2'. destruct (_ && _); unfold quiet; cbn; split_and!; try done.
    by rewrite lookup_insert_ne. }
  destruct (_do_cleanup_quiet self w2' t Hi Hp Hq2 Hdb2)
    as (w' & -> & Hq' & Hn' & Ht' & Hdb' & Hp').
  { fold busy. by rewrite Hb2. }
  exists w'. cbn [snd]. split; [done|].
  rewrite Hn', Ht', Hdb', Hp', Hn2. fold key busy.
  rewrite (timestamp_of_ext w w2') by done.
  split_and!; try done.
  - rewrite lookup_delete_ne by done. by rewrite lookup_insert_eq.
  - by rewrite lookup_delete_eq.
Qed.

(** X19.  A due [check_cleanup] sweeps: when the stamp of the last sweep is
    missing, unreadable or more than four hours old, the rows that expired
    are deleted from the table, the others stay, and the stamp is set to
    the current time. *)
Theorem due_check_cleanup_sweeps_and_stamps (self : SimpleCache.t) (w : world)
    (t : gmap string row) :
  initialized self → is_Some (SimpleCache._db_path self) → quiet w →
  w_db w = Some t →
  SimpleCache.truthy
    (default "" (w_props w !! SimpleCache._get_prop_key self "internal.clean.busy"))
  = false →
  cleanup_due self w = true →
  let res := SimpleCache.check_cleanup self w in
  res.1 = Ret tt
  ∧ w_db res.2 = Some (filter (λ kr, ¬ r_expires kr.2 < timestamp_of w (w_now w)) t)
  ∧ w_props res.2 !! SimpleCache._get_prop_key self "internal.clean.lastexecuted"
    = Some (repr_datetime (w_now w)).
Proof.
  intros Hi Hp Hq Hdb Hbusy Hdue res. subst res.
  destruct (check_cleanup_due_quiet self w t Hi Hp Hq Hdb Hbusy Hdue)
    as (w' & -> & _ & _ & _ & Hdb' & Hst & _).
  cbn [fst snd]. by rewrite Hdb', swept_table_filter.
Qed.

(** X20.  One sweep per interval: after a due [check_cleanup], every further
    [check_cleanup] within four hours of it leaves the cache alone,
    provided the stamp that [repr] wrote evaluates back to the same
    instant. *)
Theorem check_cleanup_sweeps_once_per_interval (self : SimpleCache.t) (w : world)
    (t : gmap string row) (due now2 time2 : Z) :
  initialized self → is_Some (SimpleCache._db_path self) → quiet w →
  w_db w = Some t →
  SimpleCache.truthy
    (default "" (w_props w !! SimpleCache._get_prop_key self "internal.clean.busy"))
  = false →
  cleanup_due self w = true →
  repr_datetime (w_now w) ≠ "" →
  eval_datetime (repr_datetime (w_now w)) = Ret (w_now w) →
  datetime_add (w_now w) SimpleCache._auto_clean_interval = Ret due →
  now2 ≤ due →
  let w1 := set_clock now2 time2 (SimpleCache.check_cleanup self w).2 in
  SimpleCache.check_cleanup self w1
  = (Ret tt,
     log_event (EvGetProp (SimpleCache._get_prop_key self
                             "internal.clean.lastexecuted")) w1).
Proof.
  intros Hi Hp Hq Hdb Hbusy Hdue Hrepr Heval Hadd Hle w1. subst w1.
  destruct (check_cleanup_due_quiet self w t Hi Hp Hq Hdb Hbusy Hdue)
    as (w' & -> & (_ & Hw' & _) & _ & _ & _ & Hst & _).
  cbn [snd]. rewrite check_cleanup_healthy; [|apply Hi|done].
  cbv zeta. unfold cleanup_due. cbn [w_props set_clock w_now].
  rewrite Hst. cbn [default from_option]. unfold id, SimpleCache.truthy.
  rewrite bool_decide_eq_true_2 by done. rewrite Heval, Hadd.
  destruct (Z.ltb_spec due now2); [lia|done].
Qed.

End CheckCleanup.

(** ** [__init__] and [use_cache] *)

Lemma substring_all (s : string) : substring 0 (String.length s) s = s.
Proof. induction s as [|c s IH]; simpl; [done|]. by rewrite IH. Qed.

Lemma length_append (p s : string) :
  String.length (p +:+ s) = (String.length p + String.length s)%nat.
Proof. induction p as [|c p IH]; simpl; [done|]. by rewrite IH. Qed.

Lemma substring_append (p s : string) :
  substring (String.length p) (String.length s) (p +:+ s) = s.
Proof. induction p as [|c p IH]; simpl; [apply substring_all|exact IH]. Qed.

Lemma endswith_append (p s : string) : endswith (p +:+ s) s = true.
Proof.
  unfold endswith. rewrite length_append. apply andb_true_iff. split.
  - apply Nat.leb_le. lia.
  - apply String.eqb_eq.
    replace (String.length p + String.length s - String.length s)%nat
      with (String.length p) by lia.
    apply substring_append.
Qed.

Section Init.
Context {py : PyLib} {ext : PyExt}.

Lemma never_raises_check_cleanup self : never_raises (SimpleCache.check_cleanup self).
Proof. unfold SimpleCache.check_cleanup. never_raises_tac. Qed.

(** X24.  The constructor raises nothing and normalises the property prefix:
    whatever the arguments and the host, the prefix of the instance ends
    with a dot (the class default when none is given), so the key of an
    entry is the prefix, a dot-terminated name space, followed by the
    endpoint. *)
Theorem init_prefix_ends_with_dot (db_path mem_cache_prefix : option string)
    (host : res unit) (w : world) :
  ∃ self w',
    SimpleCache.__init__ db_path mem_cache_prefix host w = (Ret self, w')
    ∧ endswith (SimpleCache._mem_cache_prefix self) "." = true
    ∧ SimpleCache._mem_cache_prefix self
      = (match mem_cache_prefix with
         | Some p => if bool_decide (p = "") then "simplecache."
                     else if endswith p "." then p else p +:+ "."
         | None => "simplecache."
         end)
    ∧ SimpleCache._db_path self = db_path
    ∧ SimpleCache._exit self = false.
Proof.
  unfold SimpleCache.__init__.
  set (prefix := if SimpleCache.truthy_opt mem_cache_prefix then _ else _).
  assert (endswith prefix "." = true
          ∧ prefix = match mem_cache_prefix with
                     | Some p => if bool_decide (p = "") then "simplecache."
                                 else if endswith p "." then p else p +:+ "."
                     | None => "simplecache."
                     end) as [Hdot Hpre].
  { subst prefix. destruct mem_cache_prefix as [p|]; [|done].
    unfold SimpleCache.truthy_opt, SimpleCache.truthy.
    cbn [default from_option]. unfold id.
    destruct (decide (p = "")) as [->|Hp].
    - done.
    - rewrite bool_decide_eq_true_2 by done.
      rewrite (bool_decide_eq_false_2 (p = "")) by done.
      destruct (endswith p ".") eqn:He; [done|].
      split; [apply endswith_append|done]. }
  unfold try_except at 1, bind at 1, lift.
  destruct host as [[]|e]; [|by eexists _, _].
  unfold bind at 1.
  match goal with
  | |- context [try_except ?m ?h w] =>
      destruct (never_raises_try_except m h (λ _, never_raises_ret false) w)
        as (ok & w1 & ->)
  end.
  unfold try_except, bind.
  match goal with
  | |- context [SimpleCache.check_cleanup ?s w1] =>
      destruct (never_raises_check_cleanup s w1) as ([] & w2 & ->)
  end.
  eexists _, _. split; [reflexivity|]. by destruct ok.
Qed.

(** The self-test of the constructor: a property is written, read back
    and cleared, and any of the three calls that raises fails the test. *)
Lemma self_test_outcome (w : world) :
  ∃ w',
    try_except
      (setProperty "simplecache.init.test" "ok" ;;
       v <- getProperty "simplecache.init.test" ;;
       if bool_decide (v ≠ "ok") then ret false
       else clearProperty "simplecache.init.test" ;; ret true)
      (λ _, ret false) w
    = (Ret (forallb negb (take 3 (w_winfault w))), w').
Proof.
  destruct w as [props db now time busy abort winf connf sqlf trace].
  unfold try_except, bind, setProperty, getProperty, clearProperty, win_call.
  cbn [w_winfault w_props set_winfault log_event set_props].
  destruct winf as [|[] [|[] [|[] rest]]];
    cbn [pop take forallb negb andb w_winfault w_props set_winfault log_event
         set_props fst snd];
    rewrite ?lookup_insert_eq; cbn [default from_option]; unfold id;
    rewrite ?bool_decide_eq_false_2 by (intros Hne; by apply Hne);
    by eexists.
Qed.

(** X25.  With a window and a monitor at hand the constructor gives an
    initialized instance, and the self-test alone decides whether the
    local tier is used: it is enabled exactly when none of the three
    window calls of the test raised. *)
Theorem init_self_test_decides_local_tier (db_path mem_cache_prefix : option string)
    (w : world) :
  ∃ self w',
    SimpleCache.__init__ db_path mem_cache_prefix (Ret tt) w = (Ret self, w')
    ∧ initialized self
    ∧ SimpleCache.enable_mem_cache self = forallb negb (take 3 (w_winfault w)).
Proof.
  unfold SimpleCache.__init__.
  unfold try_except at 1, bind at 1, lift. unfold bind at 1.
  destruct (self_test_outcome w) as (w1 & ->).
  unfold try_except, bind.
  match goal with
  | |- context [SimpleCache.check_cleanup ?s w1] =>
      destruct (never_raises_check_cleanup s w1) as ([] & w2 & ->)
  end.
  eexists _, _. split; [reflexivity|].
  by destruct (forallb negb _).
Qed.

(** X26.  Without the host (a constructor of the window or of the monitor
    raises) the constructor still returns, touching nothing, and the
    instance it leaves is inert: [get] answers absent and [set] and
    [delete] do nothing. *)
Theorem init_without_host_is_inert (db_path mem_cache_prefix : option string)
    (e : exn) (w : world) (k cs : string) (v : pyval) (d : Z) (jd : bool) (w' : world) :
  ∃ self,
    SimpleCache.__init__ db_path mem_cache_prefix (Raise e) w = (Ret self, w)
    ∧ SimpleCache.get self k cs jd w' = (Ret absent, w')
    ∧ SimpleCache.set self k v cs d jd w' = (Ret tt, w')
    ∧ SimpleCache.delete self k w' = (Ret tt, w')
    ∧ SimpleCache.check_cleanup self w' = (Ret tt, w').
Proof. eexists. split; [reflexivity|]. by split_and!. Qed.

End Init.

Lemma bind_ret_l {A B} (a : A) (f : A → M B) (w : world) : bind (ret a) f w = f a w.
Proof. reflexivity. Qed.

Section UseCache.
Context {py : PyLib} {ext : PyExt}.

(** X27.  The decorator adds no exception and no result of its own.  Without a
    cache it is the wrapped function.  With one, and with neither flag
    set, a value other than [None] that [get] returns for the key is
    returned as it is, the function is not run and the state is the one
    [get] left.  In every other case the function is run once, on the
    state the read left (the state of the call when the cache is
    skipped), and the call ends as the function ends, with its result or
    its exception; a result is then handed to [set] for [cache_days]
    days, and whatever [get], [set] or the [timedelta] do, the outcome is
    the same. *)
Theorem use_cache_adds_no_exception (cache_days : Z) (func : M pyval)
    (cache : SimpleCache.t) (class_name func_name : string)
    (items : list string) (ignore_cache_flag global_cache_ignore : bool) (w : world) :
  let key := SimpleCache.cache_str class_name func_name items in
  let consult := negb ignore_cache_flag && negb global_cache_ignore in
  let found := SimpleCache.get cache key "" true w in
  let w1 := if consult then found.2 else w in
  let res := SimpleCache.use_cache cache_days func (Some cache) class_name func_name
               items ignore_cache_flag global_cache_ignore w in
  SimpleCache.use_cache cache_days func None class_name func_name items
    ignore_cache_flag global_cache_ignore w = func w
  ∧ ∃ v, found.1 = Ret v
    ∧ if consult && negb (is_none v) then res = (Ret v, found.2)
      else res.1 = (func w1).1
           ∧ (∀ e, (func w1).1 = Raise e → res.2 = (func w1).2)
           ∧ (∀ r, (func w1).1 = Ret r →
                   res.2 = match timedelta_days cache_days with
                           | Ret d => (SimpleCache.set cache key r "" d true (func w1).2).2
                           | Raise _ => (func w1).2
                           end).
Proof.
  intros key consult found w1 res. split; [done|].
  destruct (never_raises_get cache key "" true w) as (v & wg & Hget).
  exists v. subst found. rewrite Hget in *. cbn [fst snd] in *.
  split; [done|].
  assert (res = (cd <- (if consult then ret v else ret PNone) ;;
                 if negb (is_none cd) then ret cd
                 else
                   result <- func ;;
                   try_except
                     (expiration <- lift (timedelta_days cache_days) ;;
                      SimpleCache.set cache key result "" expiration true)
                     (λ _, ret tt) ;;
                   ret result) w1) as ->.
  { subst res w1. unfold SimpleCache.use_cache. fold key consult.
    unfold bind at 1. destruct consult.
    - unfold try_except. rewrite Hget. done.
    - done. }
  assert (∀ w2,
            (result <- func ;;
             try_except
               (expiration <- lift (timedelta_days cache_days) ;;
                SimpleCache.set cache key result "" expiration true)
               (λ _, ret tt) ;;
             ret result) w2
            = match func w2 with
              | (Ret r, w3) =>
                  (Ret r,
                   match timedelta_days cache_days with
                   | Ret d => (SimpleCache.set cache key r "" d true w3).2
                   | Raise _ => w3
                   end)
              | (Raise e, w3) => (Raise e, w3)
              end) as Hrun.
  { intros w2. unfold bind at 1. destruct (func w2) as [[r|e] w3]; [|done].
    unfold bind at 1, try_except, bind at 1, lift.
    destruct (timedelta_days cache_days) as [d|]; [|done].
    by destruct (SimpleCache.set cache key r "" d true w3) as [[[]|?] ?]. }
  assert (∀ w2, let out := match func w2 with
                           | (Ret r, w3) =>
                               (Ret r,
                                match timedelta_days cache_days with
                                | Ret d => (SimpleCache.set cache key r "" d true w3).2
                                | Raise _ => w3
                                end)
                           | (Raise e, w3) => (Raise e, w3)
                           end in
                out.1 = (func w2).1
                ∧ (∀ e, (func w2).1 = Raise e → out.2 = (func w2).2)
                ∧ (∀ r, (func w2).1 = Ret r →
                        out.2 = match timedelta_days cache_days with
                                | Ret d => (SimpleCache.set cache key r "" d true
                                              (func w2).2).2
                                | Raise _ => (func w2).2
                                end)) as Hout.
  { intros w2. destruct (func w2) as [[r|e] w3]; cbn; split_and!; try done.
    - intros r' [= <-]. done. }
  destruct consult; cbn [andb]; rewrite bind_ret_l.
  - subst w1. rewrite ?Hget. cbn [snd].
    destruct v; cbn [is_none negb]; first [done|rewrite Hrun; apply Hout].
  - cbn [is_none negb]. rewrite Hrun. apply Hout.
Qed.


End UseCache.

(** ** More on the checksum *)

Lemma sum_ord_list (s : string) :
  sum_ord s = foldr (λ c acc, ord c + acc) 0 (list_ascii_of_string s).
Proof. induction s as [|c s IH]; simpl; [done|]. by rewrite IH. Qed.

Lemma sum_ord_perm (a b : string) :
  list_ascii_of_string a ≡ₚ list_ascii_of_string b → sum_ord a = sum_ord b.
Proof.
  rewrite !sum_ord_list. intros Hp.
  induction Hp as [|x l l' _ IH|x y l|l l' l'' _ IH1 _ IH2]; simpl; lia.
Qed.

Lemma ord_nonneg (c : ascii) : 0 ≤ ord c.
Proof. unfold ord. lia. Qed.

Lemma sum_ord_nonneg (s : string) : 0 ≤ sum_ord s.
Proof. induction s as [|c s IH]; simpl; [done|]. pose proof (ord_nonneg c). lia. Qed.

(** X29.  The checksum does not see the order of the characters: two inputs
    that are rearrangements of one another have the same checksum, under
    any salt, so the checksum gate can not tell them apart. *)
Theorem checksum_ignores_character_order (self : SimpleCache.t) (a b : string) :
  list_ascii_of_string a ≡ₚ list_ascii_of_string b →
  SimpleCache._get_checksum self a = SimpleCache._get_checksum self b.
Proof.
  intros Hp. unfold SimpleCache._get_checksum.
  assert (SimpleCache.truthy a = SimpleCache.truthy b) as Ht.
  { unfold SimpleCache.truthy. destruct a, b; try done.
    - apply Permutation_nil_cons in Hp. done.
    - symmetry in Hp. apply Permutation_nil_cons in Hp. done. }
  rewrite Ht. destruct (negb _ && negb _); [done|].
  destruct (SimpleCache.truthy_opt _).
  - assert (∀ x, SimpleCache.truthy
                   (default "" (SimpleCache.global_checksum self) +:+ "-" +:+ x) = true)
      as Hne.
    { intros x. unfold SimpleCache.truthy. apply bool_decide_eq_true_2.
      destruct (default "" _); done. }
    rewrite !Hne. cbn [negb]. rewrite !sum_ord_app.
    by rewrite (sum_ord_perm a b).
  - rewrite Ht. destruct (negb _); [done|]. by apply sum_ord_perm.
Qed.

(** X30.  With a salt configured the checksum is never 0, the value that
    switches the gate off: every [get] of such an instance, also one called
    without a checksum, only accepts entries stored under the same salt and
    checksum. *)
Theorem salted_checksum_is_positive (self : SimpleCache.t) (s : string) :
  SimpleCache.truthy_opt (SimpleCache.global_checksum self) = true →
  45 ≤ SimpleCache._get_checksum self s
  ∧ (SimpleCache._get_checksum self s =? 0) = false.
Proof.
  intros Hsalt.
  assert (45 ≤ SimpleCache._get_checksum self s) as H45.
  { unfold SimpleCache._get_checksum. rewrite Hsalt.
    cbn [negb andb]. rewrite andb_false_r.
    set (salt := default "" (SimpleCache.global_checksum self)).
    assert (salt +:+ "-" +:+ s ≠ "") as Hne by (by destruct salt).
    unfold SimpleCache.truthy. rewrite bool_decide_eq_true_2 by done.
    cbn [negb]. rewrite !sum_ord_app.
    pose proof (sum_ord_nonneg salt). pose proof (sum_ord_nonneg s).
    change (sum_ord "-") with 45. lia. }
  split; [done|]. apply Z.eqb_neq. lia.
Qed.

(** ** Instances on the reference host

    The theorems above at concrete instances, worlds and payloads, with the
    reference library for the language.  The instance is the cache of an
    add-on with profile directory "/profile"; the clock reads
    2026-11-04 16:54:00.5. *)

(** An instance of X1. *)
Lemma delete_then_get_absent_witness :
  let self := SimpleCache.Build_t true false None false true true (Some "/profile")
                "simplecache." in
  let r := {| r_expires := 1793818440; r_data := "7"; r_checksum := 0 |} in
  let w := Build_world {["simplecache.q1" := "[1793818440, 7, 0]"]} (Some {["q1" := r]})
             1793811240500000 1793811240500000 [] [] [] [] [] [] in
  (SimpleCache.delete self "q1" w).1 = Ret tt
  ∧ (SimpleCache.get (py := Ref.lib) self "q1" "" true
       (SimpleCache.delete self "q1" w).2).1 = Ret absent.
Proof.
  intros self r w.
  apply (delete_then_get_absent (py := Ref.lib) self "q1" "" true w); by split_and!.
Defined.

(** An instance of X2. *)
Lemma delete_keeps_other_keys_witness :
  let self := SimpleCache.Build_t true false None false true true (Some "/profile")
                "simplecache." in
  let r := {| r_expires := 1793818440; r_data := "7"; r_checksum := 0 |} in
  let w := Build_world {["simplecache.q2" := "[1793818440, 7, 0]"]} (Some {["q2" := r]})
             1793811240500000 1793811240500000 [] [] [] [] [] [] in
  (SimpleCache.get (py := Ref.lib) self "q2" "" true
     (SimpleCache.delete self "Q1" w).2).1
  = (SimpleCache.get (py := Ref.lib) self "q2" "" true w).1.
Proof.
  intros self r w.
  apply (delete_keeps_other_keys (py := Ref.lib) self "Q1" "q2" "" true w);
    [by split_and!|by split_and!|vm_compute; discriminate].
Defined.

(** An instance of X7. *)
Lemma set_overflow_raises_witness :
  let self := SimpleCache.Build_t true false None false true true (Some "/profile")
                "simplecache." in
  let w := Build_world ∅ None 1793811240500000 1793811240500000 [] [] [] [] [] [] in
  let res := SimpleCache.set (py := Ref.lib) self "q1" (PInt 7) ""
               (3000000 * 86400 * usec) true w in
  res.1 = Raise OverflowError
  ∧ w_props res.2 = w_props w ∧ w_db res.2 = w_db w ∧ w_trace res.2 = w_trace w.
Proof.
  intros self w.
  apply (set_overflow_raises (py := Ref.lib) self "q1" (PInt 7) ""
           (3000000 * 86400 * usec) true w).
  - reflexivity.
  - vm_compute. intros [_ H]. by apply H.
Defined.

(** An instance of X3. *)
Lemma set_keeps_other_keys_witness :
  let self := SimpleCache.Build_t true false None false true true (Some "/profile")
                "simplecache." in
  let r := {| r_expires := 1793818440; r_data := "7"; r_checksum := 0 |} in
  let w := Build_world {["simplecache.q2" := "[1793818440, 7, 0]"]} (Some {["q2" := r]})
             1793811240500000 1793811240500000 [] [] [] [] [] [] in
  (SimpleCache.get (py := Ref.lib) self "q2" "" true
     (SimpleCache.set (py := Ref.lib) self "Q1" (PInt 8) "" (7200 * usec) true w).2).1
  = (SimpleCache.get (py := Ref.lib) self "q2" "" true w).1.
Proof.
  intros self r w.
  apply (set_keeps_other_keys (py := Ref.lib) self "Q1" "q2" (PInt 8) "" ""
           (7200 * usec) true true w);
    [by split_and!|by split_and!|vm_compute; discriminate].
Defined.

(** An instance of X5. *)
Lemma entry_served_until_expiry_witness :
  let self := SimpleCache.Build_t true false None false true true (Some "/profile")
                "simplecache." in
  let w := Build_world ∅ None 1793811240500000 1793811240500000 [] [] [] [] [] [] in
  let v := PDict [("title", PStr "Show A")] in
  let after := SimpleCache.set (py := Ref.lib) self "q1" v "" (7200 * usec) true w in
  (SimpleCache.get (py := Ref.lib) self "q1" "" true
     (set_clock 1793818439999999 1793818439999999 after.2)).1 = Ret v
  ∧ (SimpleCache.get (py := Ref.lib) self "q1" "" true
       (set_clock 1793818440000000 1793818440000000 after.2)).1 = Ret absent.
Proof.
  intros self w v after. split.
  - apply (entry_served_until_expiry (py := Ref.lib) self "q1" v "" "" (7200 * usec) w
             (1793811240500000 + 7200 * usec) 1793818439999999 1793818439999999).
    + by split_and!.
    + by split_and!.
    + by left.
    + reflexivity.
    + intros _. eexists. split; [vm_compute; reflexivity|reflexivity].
    + intros _. eexists. split; [vm_compute; reflexivity|reflexivity].
  - apply (entry_served_until_expiry (py := Ref.lib) self "q1" v "" "" (7200 * usec) w
             (1793811240500000 + 7200 * usec) 1793818440000000 1793818440000000).
    + by split_and!.
    + by split_and!.
    + by left.
    + reflexivity.
    + intros _. eexists. split; [vm_compute; reflexivity|reflexivity].
    + intros _. eexists. split; [vm_compute; reflexivity|reflexivity].
Defined.

(** An instance of X6. *)
Lemma stale_on_arrival_is_absent_witness :
  let self := SimpleCache.Build_t true false None false true true (Some "/profile")
                "simplecache." in
  let w := Build_world ∅ None 1793811240500000 1793811240500000 [] [] [] [] [] [] in
  (SimpleCache.get (py := Ref.lib) self "q1" "" true
     (SimpleCache.set (py := Ref.lib) self "q1" (PInt 7) "" 0 true w).2).1
  = Ret absent.
Proof.
  intros self w.
  apply (stale_on_arrival_is_absent (py := Ref.lib) self "q1" (PInt 7) "" "" 0 w
           1793811240500000).
  - by split_and!.
  - by split_and!.
  - by left.
  - reflexivity.
  - by left.
  - intros _. eexists. split; [vm_compute; reflexivity|reflexivity].
  - intros _. eexists. split; [vm_compute; reflexivity|reflexivity].
Defined.

(** An instance of X4. *)
Lemma last_write_wins_witness :
  let self := SimpleCache.Build_t true false None false true true (Some "/profile")
                "simplecache." in
  let w := Build_world ∅ None 1793811240500000 1793811240500000 [] [] [] [] [] [] in
  let w1 := (SimpleCache.set (py := Ref.lib) self "q1" (PStr "old") "" (7200 * usec)
               true w).2 in
  let w2 := (SimpleCache.set (py := Ref.lib) self "q1" (PStr "new") "" (3600 * usec)
               true w1).2 in
  (SimpleCache.get (py := Ref.lib) self "q1" "" true w2).1 = Ret (PStr "new").
Proof.
  intros self w.
  apply (last_write_wins (py := Ref.lib) self "q1" (PStr "old") (PStr "new")
           (7200 * usec) (3600 * usec) w
           (1793811240500000 + 7200 * usec) (1793811240500000 + 3600 * usec)).
  - by split_and!.
  - by split_and!.
  - by left.
  - reflexivity.
  - reflexivity.
  - vm_compute. reflexivity.
  - intros _. eexists. split; [vm_compute; reflexivity|reflexivity].
  - intros _. eexists. split; [vm_compute; reflexivity|reflexivity].
Defined.

(** An instance of X10. *)
Lemma db_hit_fills_local_tier_witness :
  let self := SimpleCache.Build_t true false None false true true (Some "/profile")
                "simplecache." in
  let r := {| r_expires := 1793818440; r_data := "7"; r_checksum := 0 |} in
  let w := Build_world ∅ (Some {["q1" := r]})
             1793811240500000 1793811240500000 [] [] [] [] [] [] in
  let res1 := SimpleCache.get (py := Ref.lib) self "q1" "" true w in
  let res2 := SimpleCache.get (py := Ref.lib) self "q1" "" true res1.2 in
  res1.1 = Ret (PInt 7)
  ∧ w_props res1.2 = <["simplecache.q1" := "[1793818440, 7, 0]"]> (w_props w)
  ∧ w_db res1.2 = Some {["q1" := r]}
  ∧ res2.1 = Ret (PInt 7)
  ∧ w_trace res2.2 = EvGetProp "simplecache.q1" :: w_trace res1.2.
Proof.
  intros self r w.
  apply (db_hit_fills_local_tier (py := Ref.lib) self "q1" "" w {["q1" := r]} r (PInt 7)
           "[1793818440, 7, 0]").
  - by split_and!.
  - by split_and!.
  - reflexivity.
  - by eexists.
  - reflexivity.
  - reflexivity.
  - reflexivity.
  - reflexivity.
  - vm_compute. reflexivity.
  - discriminate.
  - vm_compute. reflexivity.
  - vm_compute. reflexivity.
Defined.

(** An instance of X11. *)
Lemma unreadable_row_is_deleted_witness :
  let self := SimpleCache.Build_t true false None false true true (Some "/profile")
                "simplecache." in
  let r := {| r_expires := 1793818440; r_data := "{broken"; r_checksum := 0 |} in
  let w := Build_world {["simplecache.q1" := "stale"]} (Some {["q1" := r]})
             1793811240500000 1793811240500000 [] [] [] [] [] [] in
  let res := SimpleCache._get_db_cache (py := Ref.lib) self "q1" 0 1793811240 true w in
  res.1 = Ret absent
  ∧ w_db res.2 = Some (delete "q1" {["q1" := r]})
  ∧ w_props res.2 = delete "simplecache.q1" (w_props w).
Proof.
  intros self r w.
  apply (unreadable_row_is_deleted (py := Ref.lib) self "q1" 0 1793811240 w
           {["q1" := r]} r ValueError).
  - by split_and!.
  - by split_and!.
  - by eexists.
  - reflexivity.
  - reflexivity.
  - reflexivity.
  - vm_compute. reflexivity.
Defined.

(** An instance of X12. *)
Lemma malformed_slot_is_cleared_witness :
  let self := SimpleCache.Build_t true false None false true true (Some "/profile")
                "simplecache." in
  let w := Build_world {["simplecache.q1" := "[1, 2]"]} None
             1793811240500000 1793811240500000 [] [] [] [] [] [] in
  let res := SimpleCache._get_mem_cache (py := Ref.lib) self "q1" 0 1793811240 true w in
  w_props res.2
  = (if readable_slot (py := Ref.lib) "[1, 2]" then w_props w
     else delete "simplecache.q1" (w_props w))
  ∧ (readable_slot (py := Ref.lib) "[1, 2]" = false → res.1 = Ret absent).
Proof.
  intros self w.
  apply (malformed_slot_is_cleared (py := Ref.lib) self "q1" 0 1793811240 w "[1, 2]").
  - reflexivity.
  - reflexivity.
  - discriminate.
Defined.

(** An instance of X8. *)
Lemma set_raises_only_on_overflow_witness :
  let self := SimpleCache.Build_t true false None false true true (Some "/profile")
                "simplecache." in
  let w := Build_world ∅ None 1793811240500000 1793811240500000 []
             [] [true] [ConnProbeFails true false] [SqlOtherError] [] in
  (SimpleCache.set (py := Ref.lib) self "q1" (PObject "socket") "" (7200 * usec) true w).1
  = Ret tt.
Proof.
  intros self w.
  apply (set_raises_only_on_overflow (py := Ref.lib) self "q1" (PObject "socket") ""
           (7200 * usec) true w (1793811240500000 + 7200 * usec)).
  reflexivity.
Defined.

(** An instance of X16. *)
Lemma sweep_releases_busy_flag_witness :
  let self := SimpleCache.Build_t true false None false true true (Some "/profile")
                "simplecache." in
  let r := {| r_expires := 5; r_data := "7"; r_checksum := 0 |} in
  let w := Build_world ∅ (Some {["q1" := r]}) 1793811240500000 1793811240500000 []
             [false; true] [] [] [SqlLocked] [] in
  SimpleCache.truthy
    (default "" (w_props (SimpleCache._do_cleanup (py := Ref.lib) self w).2
                   !! "simplecache.internal.clean.busy")) = false.
Proof.
  intros self r w.
  apply (sweep_releases_busy_flag (py := Ref.lib) self w); reflexivity.
Defined.

(** An instance of X14. *)
Lemma statement_not_executed_after_shutdown_witness :
  let self := SimpleCache.Build_t true false None true true true (Some "/profile")
                "simplecache." in
  let r := {| r_expires := 1793818440; r_data := "7"; r_checksum := 0 |} in
  let w := Build_world ∅ (Some {["q1" := r]}) 1793811240500000 1793811240500000 []
             [] [] [ConnProbeFails true true] [] [] in
  let res := SimpleCache._execute_sql self (QDelete "q2") w in
  res.1 = Ret None
  ∧ w_trace res.2 = w_trace w ∧ w_sqlfault res.2 = w_sqlfault w
  ∧ w_props res.2 = w_props w
  ∧ w_db (SimpleCache._get_database self w).2 = Some ∅
  ∧ w_db res.2 = Some ∅.
Proof.
  intros self r w.
  pose proof (statement_not_executed_after_shutdown self (QDelete "q2") w (or_introl eq_refl))
    as (H1 & H2 & H3 & H4 & H5).
  by split_and!.
Defined.

(** An instance of X17. *)
Lemma sweep_skipped_when_busy_or_stopping_witness :
  let self := SimpleCache.Build_t true false None false true true (Some "/profile")
                "simplecache." in
  let r := {| r_expires := 5; r_data := "7"; r_checksum := 0 |} in
  let w := Build_world {["simplecache.internal.clean.busy" := "busy"]}
             (Some {["q1" := r]}) 1793811240500000 1793811240500000 []
             [] [] [] [] [] in
  let res := SimpleCache._do_cleanup (py := Ref.lib) self w in
  res.1 = Ret tt ∧ w_props res.2 = w_props w ∧ w_db res.2 = w_db w
  ∧ w_busy_tasks res.2 = w_busy_tasks w
  ∧ count_attempts (w_trace res.2) = count_attempts (w_trace w).
Proof.
  intros self r w.
  apply (sweep_skipped_when_busy_or_stopping (py := Ref.lib) self w).
  right. right. split; reflexivity.
Defined.

(** An instance of X13. *)
Lemma failed_probe_loses_every_row_witness :
  let self := SimpleCache.Build_t true false None false true true (Some "/profile")
                "simplecache." in
  let r := {| r_expires := 1793818440; r_data := "7"; r_checksum := 0 |} in
  let w := Build_world ∅ (Some {["q1" := r]}) 1793811240500000 1793811240500000 []
             [] [] [ConnProbeFails true true] [] [] in
  let res := SimpleCache._get_db_cache (py := Ref.lib) self "q1" 0 1793811240 true w in
  res.1 = Ret absent ∧ w_db res.2 = Some ∅.
Proof.
  intros self r w.
  apply (failed_probe_loses_every_row (py := Ref.lib) self "q1" 0 1793811240 true w
           true []).
  - by split_and!.
  - by eexists.
  - reflexivity.
  - reflexivity.
  - reflexivity.
Defined.

(** An instance of X21. *)
Lemma closed_cache_is_inert_witness :
  let self := SimpleCache.Build_t true false None false true true (Some "/profile")
                "simplecache." in
  let closed := SimpleCache.Build_t true false None true false false (Some "/profile")
                  "simplecache." in
  let r := {| r_expires := 1793818440; r_data := "7"; r_checksum := 0 |} in
  let w := Build_world {["simplecache.q1" := "[1793818440, 7, 0]"]} (Some {["q1" := r]})
             1793811240500000 1793811240500000 [] [] [] [] [] [] in
  SimpleCache.get (py := Ref.lib) closed "q1" "" true w = (Ret absent, w)
  ∧ SimpleCache.set (py := Ref.lib) closed "q1" (PInt 8) "" (7200 * usec) true w
    = (Ret tt, w)
  ∧ SimpleCache.delete closed "q1" w = (Ret tt, w)
  ∧ SimpleCache.check_cleanup (py := Ref.lib) (ext := Ref.ext) closed w = (Ret tt, w)
  ∧ SimpleCache._do_cleanup (py := Ref.lib) closed w = (Ret tt, w)
  ∧ SimpleCache.__del__ 1 closed w = (Ret (Some closed), w).
Proof.
  intros self closed r w.
  apply (closed_cache_is_inert (py := Ref.lib) (ext := Ref.ext) 1 self closed w "q1" ""
           (PInt 8) (7200 * usec) true w).
  reflexivity.
Defined.

(** An instance of X22. *)
Lemma close_polls_until_abort_witness :
  let self := SimpleCache.Build_t true false None false true true (Some "/profile")
                "simplecache." in
  let closed := SimpleCache.Build_t true false None true false false (Some "/profile")
                  "simplecache." in
  let w := Build_world ∅ None 1793811240500000 1793811240500000 ["set.q9"]
             [false; false; true; false] [] [] [] [] in
  let res := SimpleCache.close 3 self w in
  res.1 = Ret (Some closed)
  ∧ w_trace res.2 = [EvWait 25; EvWait 25]
  ∧ w_abort res.2 = [false]
  ∧ w_props res.2 = w_props w ∧ w_db res.2 = w_db w.
Proof.
  intros self closed w.
  apply (close_polls_until_abort self 2 0 w [false]).
  - reflexivity.
  - discriminate.
  - reflexivity.
Defined.

(** An instance of X23. *)
Lemma close_returns_at_once_after_operations_witness :
  let self := SimpleCache.Build_t true false None false true true (Some "/profile")
                "simplecache." in
  let closed := SimpleCache.Build_t true false None true false false (Some "/profile")
                  "simplecache." in
  let w := Build_world ∅ None 1793811240500000 1793811240500000 []
             [] [true] [] [SqlLocked; SqlOtherError] [] in
  Forall (λ w1, SimpleCache.close 1 self w1 = (Ret (Some closed), w1))
    [(SimpleCache.set (py := Ref.lib) self "q1" (PInt 7) "" (7200 * usec) true w).2;
     (SimpleCache.delete self "q1" w).2;
     (SimpleCache._do_cleanup (py := Ref.lib) self w).2].
Proof.
  intros self closed w.
  apply (close_returns_at_once_after_operations (py := Ref.lib) self self 0 "q1"
           (PInt 7) "" (7200 * usec) true w).
  reflexivity.
Defined.

(** An instance of X18. *)
Lemma check_cleanup_waits_for_interval_witness :
  let self := SimpleCache.Build_t true false None false true true (Some "/profile")
                "simplecache." in
  let r := {| r_expires := 5; r_data := "7"; r_checksum := 0 |} in
  let w := Build_world
             {["simplecache.internal.clean.lastexecuted"
               := "datetime.datetime(2026, 11, 4, 13, 46, 40)"]}
             (Some {["q1" := r]}) 1793811240500000 1793811240500000 []
             [] [] [] [] [] in
  SimpleCache.check_cleanup (py := Ref.lib) (ext := Ref.ext) self w
  = (Ret tt, log_event (EvGetProp "simplecache.internal.clean.lastexecuted") w).
Proof.
  intros self r w.
  apply (check_cleanup_waits_for_interval (py := Ref.lib) (ext := Ref.ext) self w).
  - reflexivity.
  - reflexivity.
  - vm_compute. reflexivity.
Defined.

(** An instance of X19. *)
Lemma due_check_cleanup_sweeps_and_stamps_witness :
  let self := SimpleCache.Build_t true false None false true true (Some "/profile")
                "simplecache." in
  let r := {| r_expires := 5; r_data := "7"; r_checksum := 0 |} in
  let w := Build_world
             {["simplecache.internal.clean.lastexecuted"
               := "datetime.datetime(2026, 11, 4, 12, 0)"]}
             (Some {["q1" := r]}) 1793811240500000 1793811240500000 []
             [] [] [] [] [] in
  let res := SimpleCache.check_cleanup (py := Ref.lib) (ext := Ref.ext) self w in
  res.1 = Ret tt
  ∧ w_db res.2
    = Some (filter (λ kr, ¬ r_expires kr.2 < timestamp_of (py := Ref.lib) w (w_now w))
              {["q1" := r]})
  ∧ w_props res.2 !! "simplecache.internal.clean.lastexecuted"
    = Some "datetime.datetime(2026, 11, 4, 16, 54, 0, 500000)".
Proof.
  intros self r w.
  apply (due_check_cleanup_sweeps_and_stamps (py := Ref.lib) (ext := Ref.ext) self w
           {["q1" := r]}).
  - by split_and!.
  - by eexists.
  - by split_and!.
  - reflexivity.
  - reflexivity.
  - vm_compute. reflexivity.
Defined.

(** An instance of X20. *)
Lemma check_cleanup_sweeps_once_per_interval_witness :
  let self := SimpleCache.Build_t true false None false true true (Some "/profile")
                "simplecache." in
  let r := {| r_expires := 5; r_data := "7"; r_checksum := 0 |} in
  let w := Build_world ∅ (Some {["q1" := r]}) 1793811240500000 1793811240500000 []
             [] [] [] [] [] in
  let w1 := set_clock 1793814840500000 1793814840500000
              (SimpleCache.check_cleanup (py := Ref.lib) (ext := Ref.ext) self w).2 in
  SimpleCache.check_cleanup (py := Ref.lib) (ext := Ref.ext) self w1
  = (Ret tt, log_event (EvGetProp "simplecache.internal.clean.lastexecuted") w1).
Proof.
  intros self r w.
  apply (check_cleanup_sweeps_once_per_interval (py := Ref.lib) (ext := Ref.ext) self w
           {["q1" := r]} (1793811240500000 + 14400000000)
           1793814840500000 1793814840500000).
  - by split_and!.
  - by eexists.
  - by split_and!.
  - reflexivity.
  - reflexivity.
  - reflexivity.
  - discriminate.
  - vm_compute. reflexivity.
  - reflexivity.
  - vm_compute. discriminate.
Defined.


(** An instance of X29. *)
Lemma checksum_ignores_character_order_witness :
  let self := SimpleCache.Build_t true false (Some "v2") false true true None
                "simplecache." in
  SimpleCache._get_checksum self "listen" = SimpleCache._get_checksum self "silent".
Proof.
  intros self.
  apply (checksum_ignores_character_order self "listen" "silent").
  cbn [list_ascii_of_string].
  apply (Permutation_trans (l' := ["l"; "i"; "s"; "e"; "n"; "t"]%char)).
  - do 3 apply Permutation_skip. apply (Permutation_trans (perm_swap _ _ _)).
    apply Permutation_skip. apply perm_swap.
  - symmetry.
    apply (Permutation_trans (l' := ["i"; "s"; "l"; "e"; "n"; "t"]%char)).
    + apply perm_swap.
    + apply (Permutation_trans (l' := ["i"; "l"; "s"; "e"; "n"; "t"]%char)).
      * apply Permutation_skip. apply perm_swap.
      * apply perm_swap.
Defined.

(** An instance of X30. *)
Lemma salted_checksum_is_positive_witness :
  let self := SimpleCache.Build_t true false (Some "v2") false true true None
                "simplecache." in
  45 ≤ SimpleCache._get_checksum self ""
  ∧ (SimpleCache._get_checksum self "" =? 0) = false.
Proof.
  intros self. apply (salted_checksum_is_positive self ""). reflexivity.
Defined.
